(** * cf-inventory: the App Proxy routes, embedded shallowly

    The repository holds several near-identical route files for one
    storefront endpoint ([apps.location-stock]).  Each of them

    - checks the HMAC signature the platform's reverse proxy puts on the
      query string ([verifyProxySignature]),
    - obtains an Admin API token (a configured token, a cached
      client-credentials exchange, or a stored offline session),
    - asks the Admin GraphQL API for one inventory level and shapes the
      answer into JSON ([getStockAtLocation], [loader]).

    Strings are sequences of bytes (the UTF-8 encoding of the JavaScript
    string), which is what [Buffer.from(_, "utf8")] and the HMAC see.
    Numbers that the code computes with (timestamps, lifetimes in seconds,
    stock quantities) are integers; on integers below 2^53 the double
    arithmetic of the host coincides with [Z]. *)

From Stdlib Require Import ZArith List String Ascii Bool Lia Permutation Sorted.
Import ListNotations.

Set Warnings "-register-all".

Local Open Scope Z_scope.
Local Open Scope string_scope.

(** ** SHA-256 and HMAC (what [crypto.createHmac("sha256", key)] computes)

    FIPS 180-4 and RFC 2104, on 32-bit words kept in [Z] with the
    wrap-around written out. *)

Module Sha256.

Definition w32 : Z := 4294967296.

Definition add32 (a b : Z) : Z := (a + b) mod w32.

Definition rotr (n x : Z) : Z :=
  Z.lor (Z.shiftr x n) ((Z.shiftl x (32 - n)) mod w32).

Definition shr (n x : Z) : Z := Z.shiftr x n.

Definition not32 (x : Z) : Z := w32 - 1 - x.

Definition Ch (x y z : Z) : Z :=
  Z.lxor (Z.land x y) (Z.land (not32 x) z).

Definition Maj (x y z : Z) : Z :=
  Z.lxor (Z.lxor (Z.land x y) (Z.land x z)) (Z.land y z).

Definition bsig0 (x : Z) : Z :=
  Z.lxor (Z.lxor (rotr 2 x) (rotr 13 x)) (rotr 22 x).

Definition bsig1 (x : Z) : Z :=
  Z.lxor (Z.lxor (rotr 6 x) (rotr 11 x)) (rotr 25 x).

Definition ssig0 (x : Z) : Z :=
  Z.lxor (Z.lxor (rotr 7 x) (rotr 18 x)) (shr 3 x).

Definition ssig1 (x : Z) : Z :=
  Z.lxor (Z.lxor (rotr 17 x) (rotr 19 x)) (shr 10 x).

(** The first 64 primes. *)
Definition is_prime (n : nat) : bool :=
  forallb (fun d => negb (Nat.eqb (Nat.modulo n d) 0)) (seq 2 (n - 2)).

Definition primes : list Z :=
  map Z.of_nat (filter is_prime (seq 2 310)).

(** Integer cube root, found bit by bit from the top. *)
Fixpoint cbrt_bits (bit : nat) (acc n : Z) : Z :=
  match bit with
  | O => acc
  | S bit' =>
      let try := acc + Z.shiftl 1 (Z.of_nat bit') in
      cbrt_bits bit' (if Z.leb (try * try * try) n then try else acc) n
  end.

(** The round constants: the first 32 bits of the fractional parts of the
    cube roots of the primes. *)
Definition K : list Z :=
  Eval vm_compute in
    map (fun q => cbrt_bits 40 0 (q * Z.shiftl 1 96) mod w32) primes.

(** The eight working variables / the chaining value. *)
Record regs : Type := Regs
  { ra : Z; rb : Z; rc : Z; rd : Z; re : Z; rf : Z; rg : Z; rh : Z }.

(** The initial value: the same for the square roots of the first eight
    primes. *)
Definition frac_sqrt (i : nat) : Z :=
  Z.sqrt (nth i primes 0 * Z.shiftl 1 64) mod w32.

Definition H0 : regs :=
  Eval vm_compute in
    Regs (frac_sqrt 0) (frac_sqrt 1) (frac_sqrt 2) (frac_sqrt 3)
         (frac_sqrt 4) (frac_sqrt 5) (frac_sqrt 6) (frac_sqrt 7).

(** Padding: a 1 bit, zeros up to 56 mod 64, the bit length on 8 bytes. *)
Definition be_bytes (n : nat) (x : Z) : list Z :=
  map (fun i => (Z.shiftr x (8 * Z.of_nat i)) mod 256) (rev (seq 0 n)).

Definition pad (msg : list Z) : list Z :=
  let len := Z.of_nat (List.length msg) in
  let zeros := Z.to_nat ((55 - len) mod 64) in
  msg ++ [128] ++ repeat 0 zeros ++ be_bytes 8 (8 * len).

Fixpoint words (fuel : nat) (bs : list Z) : list Z :=
  match fuel, bs with
  | S fuel', b0 :: b1 :: b2 :: b3 :: rest =>
      (b0 * 16777216 + b1 * 65536 + b2 * 256 + b3) :: words fuel' rest
  | _, _ => []
  end.

(** The message schedule, newest word first: [w] holds W(t-1), W(t-2), ... *)
Fixpoint schedule (n : nat) (w : list Z) : list Z :=
  match n with
  | O => w
  | S n' =>
      let wt := add32 (add32 (ssig1 (nth 1 w 0)) (nth 6 w 0))
                      (add32 (ssig0 (nth 14 w 0)) (nth 15 w 0)) in
      schedule n' (wt :: w)
  end.

Definition round (r : regs) (kw : Z * Z) : regs :=
  let '(k, w) := kw in
  let t1 := add32 (add32 (add32 (rh r) (bsig1 (re r)))
                         (add32 (Ch (re r) (rf r) (rg r)) k)) w in
  let t2 := add32 (bsig0 (ra r)) (Maj (ra r) (rb r) (rc r)) in
  Regs (add32 t1 t2) (ra r) (rb r) (rc r) (add32 (rd r) t1) (re r) (rf r) (rg r).

Definition compress (h : regs) (block : list Z) : regs :=
  let w := rev (schedule 48 (rev (words 16 block))) in
  let r := fold_left round (combine K w) h in
  Regs (add32 (ra h) (ra r)) (add32 (rb h) (rb r))
       (add32 (rc h) (rc r)) (add32 (rd h) (rd r))
       (add32 (re h) (re r)) (add32 (rf h) (rf r))
       (add32 (rg h) (rg r)) (add32 (rh h) (rh r)).

Fixpoint blocks (fuel : nat) (h : regs) (bs : list Z) : regs :=
  match fuel, bs with
  | S fuel', _ :: _ => blocks fuel' (compress h (firstn 64 bs)) (skipn 64 bs)
  | _, _ => h
  end.

Definition regs_bytes (r : regs) : list Z :=
  be_bytes 4 (ra r) ++ be_bytes 4 (rb r) ++ be_bytes 4 (rc r) ++
  be_bytes 4 (rd r) ++ be_bytes 4 (re r) ++ be_bytes 4 (rf r) ++
  be_bytes 4 (rg r) ++ be_bytes 4 (rh r).

Definition sha256 (msg : list Z) : regs :=
  let p := pad msg in blocks (List.length p) H0 p.

(** HMAC with a 64-byte block. *)
Definition hmac_key (key : list Z) : list Z :=
  let k := if Z.ltb 64 (Z.of_nat (List.length key))
           then regs_bytes (sha256 key) else key in
  k ++ repeat 0 (64 - List.length k)%nat.

Definition hmac (key msg : list Z) : regs :=
  let k := hmac_key key in
  let inner := sha256 (map (Z.lxor 0x36) k ++ msg) in
  sha256 (map (Z.lxor 0x5c) k ++ regs_bytes inner).

(** Lowercase hexadecimal rendering ([digest("hex")]). *)
Definition hex_digit (n : Z) : ascii :=
  if Z.ltb n 10 then ascii_of_N (Z.to_N (48 + n))
  else ascii_of_N (Z.to_N (87 + n)).

Definition hex_word (x : Z) (tail : string) : string :=
  String (hex_digit (Z.shiftr x 28 mod 16))
 (String (hex_digit (Z.shiftr x 24 mod 16))
 (String (hex_digit (Z.shiftr x 20 mod 16))
 (String (hex_digit (Z.shiftr x 16 mod 16))
 (String (hex_digit (Z.shiftr x 12 mod 16))
 (String (hex_digit (Z.shiftr x 8 mod 16))
 (String (hex_digit (Z.shiftr x 4 mod 16))
 (String (hex_digit (x mod 16)) tail))))))).

Definition hex (r : regs) : string :=
  hex_word (ra r) (hex_word (rb r) (hex_word (rc r) (hex_word (rd r)
 (hex_word (re r) (hex_word (rf r) (hex_word (rg r) (hex_word (rh r) ""))))))).

Definition bytes_of_string (s : string) : list Z :=
  map (fun c => Z.of_N (N_of_ascii c)) (list_ascii_of_string s).

Definition sha256_hex (msg : string) : string :=
  hex (sha256 (bytes_of_string msg)).

Definition hmac_sha256_hex (key msg : string) : string :=
  hex (hmac (bytes_of_string key) (bytes_of_string msg)).

End Sha256.

(** ** The host: JavaScript values and the built-ins the routes call *)

Module Js.

(** JSON values as [JSON.parse] yields them; [undefined] is [None] at
    type [option JSON]. *)
Inductive JSON : Type :=
| JNull
| JBool (b : bool)
| JNum (n : Z)
| JStr (s : string)
| JArr (items : list JSON)
| JObj (fields : list (string * JSON)).

(** What can be thrown; [Error j] is [new Error(JSON.stringify(j))]. *)
Inductive Exn : Type :=
| RangeError (msg : string)
| TypeError (msg : string)
| Error (message : JSON).

Inductive result (A : Type) : Type :=
| Return (a : A)
| Throw (e : Exn).
Arguments Return {A} a.
Arguments Throw {A} e.

Definition bind {A B : Type} (m : result A) (k : A -> result B) : result B :=
  match m with
  | Return a => k a
  | Throw e => Throw e
  end.

(** [try { return m } catch { return d }] *)
Definition try_catch {A : Type} (m : result A) (d : A) : A :=
  match m with
  | Return a => a
  | Throw _ => d
  end.

(** Truthiness ([!x], [x || y], [if (x)]). *)
Definition truthy_string (s : string) : bool :=
  match s with
  | EmptyString => false
  | String _ _ => true
  end.

Definition truthy (v : option JSON) : bool :=
  match v with
  | None => false
  | Some JNull => false
  | Some (JBool b) => b
  | Some (JNum n) => negb (Z.eqb n 0)
  | Some (JStr s) => truthy_string s
  | Some (JArr _) => true
  | Some (JObj _) => true
  end.

(** [x || d] on a string that may be [null]. *)
Definition or_else (x : option string) (d : string) : string :=
  match x with
  | Some s => if truthy_string s then s else d
  | None => d
  end.

(** Own property of a parsed object (a later duplicate key wins); the
    property names the routes read are not defined on strings, numbers,
    booleans or arrays. *)
Fixpoint assoc_last (k : string) (fields : list (string * JSON)) : option JSON :=
  match fields with
  | [] => None
  | (k', v) :: rest =>
      match assoc_last k rest with
      | Some w => Some w
      | None => if String.eqb k k' then Some v else None
      end
  end.

(** Optional chaining [v?.k]. *)
Definition prop (v : option JSON) (k : string) : option JSON :=
  match v with
  | Some (JObj fields) => assoc_last k fields
  | _ => None
  end.

(** *** URLSearchParams: an ordered list of decoded pairs *)

Definition URLSearchParams : Type := list (string * string).

Fixpoint get (params : URLSearchParams) (name : string) : option string :=
  match params with
  | [] => None
  | (k, v) :: rest => if String.eqb k name then Some v else get rest name
  end.

Definition delete (params : URLSearchParams) (name : string) : URLSearchParams :=
  filter (fun kv => negb (String.eqb (fst kv) name)) params.

(** *** Array.prototype.sort with a comparator

    The sort is stable; for a consistent comparator its result is the one
    stably sorted arrangement, which insertion from the right computes. *)
Section Sort.
Context {A : Type} (compareFn : A -> A -> Z).

Fixpoint insert (x : A) (l : list A) : list A :=
  match l with
  | [] => [x]
  | y :: l' => if Z.leb (compareFn x y) 0 then x :: l else y :: insert x l'
  end.

Fixpoint sort (l : list A) : list A :=
  match l with
  | [] => []
  | x :: l' => insert x (sort l')
  end.
End Sort.

(** *** crypto.timingSafeEqual on two buffers *)
Definition timingSafeEqual (a b : string) : result bool :=
  if Nat.eqb (String.length a) (String.length b)
  then Return (String.eqb a b)
  else Throw (RangeError "Input buffers must have the same byte length").

(** *** String.prototype.localeCompare

    The collation of the host decides; [Icu.localeCompare] is the root
    collation (CLDR, as used for English) on printable ASCII: characters
    are first compared by primary weight (punctuation, then digits, then
    letters without regard to case) over the whole string, and only when
    all primaries agree by case, lowercase first.  Bytes outside
    printable ASCII are placed after it by value; that part stands in for
    the collation tables and no statement below relies on it. *)
Module Icu.

Definition primary_order : string :=
  " _-,;:!?.'" ++ String (ascii_of_nat 34) "()[]{}@*/\&#%`^+<=>|~$"
  ++ "0123456789abcdefghijklmnopqrstuvwxyz".

Definition is_upper (c : ascii) : bool :=
  let n := nat_of_ascii c in (Nat.leb 65 n && Nat.leb n 90)%bool.

Definition is_lower (c : ascii) : bool :=
  let n := nat_of_ascii c in (Nat.leb 97 n && Nat.leb n 122)%bool.

Definition fold_case (c : ascii) : ascii :=
  if is_upper c then ascii_of_nat (nat_of_ascii c + 32) else c.

Fixpoint position (c : ascii) (table : string) (i : Z) : option Z :=
  match table with
  | EmptyString => None
  | String d rest => if Ascii.eqb c d then Some i else position c rest (i + 1)
  end.

Definition primary (c : ascii) : Z :=
  match position (fold_case c) primary_order 0 with
  | Some i => i
  | None => 1000 + Z.of_nat (nat_of_ascii c)
  end.

Definition tertiary (c : ascii) : Z :=
  if is_upper c then 1 else 0.

Fixpoint lex (a b : list Z) : comparison :=
  match a, b with
  | [], [] => Eq
  | [], _ :: _ => Lt
  | _ :: _, [] => Gt
  | x :: a', y :: b' =>
      match Z.compare x y with
      | Eq => lex a' b'
      | c => c
      end
  end.

Definition sign (c : comparison) : Z :=
  match c with
  | Lt => -1
  | Eq => 0
  | Gt => 1
  end.

Definition localeCompare (a b : string) : Z :=
  let la := list_ascii_of_string a in
  let lb := list_ascii_of_string b in
  match lex (map primary la) (map primary lb) with
  | Eq => sign (lex (map tertiary la) (map tertiary lb))
  | c => sign c
  end.

End Icu.

(** Byte (code point) order, the comparison of [a < b] on strings. *)
Definition codepointCompare (a b : string) : Z :=
  Icu.sign (String.compare a b).

(** *** String.prototype.toUpperCase

    ASCII letters are mapped bytewise, and U+017F (long s, bytes C5 BF)
    becomes S.  The upper-case forms of the other code points are not
    modelled (they are left as they are): none of them yields a text equal
    to GB, UK or US, which is all the handlers ask of the result. *)
Definition upper_ascii (c : ascii) : ascii :=
  if Icu.is_lower c then ascii_of_nat (nat_of_ascii c - 32) else c.

Fixpoint toUpperCase (s : string) : string :=
  match s with
  | EmptyString => EmptyString
  | String c rest =>
      match rest with
      | String d rest' =>
          if (Nat.eqb (nat_of_ascii c) 197 && Nat.eqb (nat_of_ascii d) 191)%bool
          then String "S" (toUpperCase rest')
          else String (upper_ascii c) (toUpperCase rest)
      | EmptyString => String (upper_ascii c) EmptyString
      end
  end.

(** *** String.prototype.trim

    White space and line terminators of ECMAScript, as UTF-8. *)
Definition white_space : list (list Z) :=
  [ [9]; [10]; [11]; [12]; [13]; [32];
    [194; 160];
    [225; 154; 128];
    [226; 128; 128]; [226; 128; 129]; [226; 128; 130]; [226; 128; 131];
    [226; 128; 132]; [226; 128; 133]; [226; 128; 134]; [226; 128; 135];
    [226; 128; 136]; [226; 128; 137]; [226; 128; 138];
    [226; 128; 168]; [226; 128; 169]; [226; 128; 175];
    [226; 129; 159];
    [227; 128; 128];
    [239; 187; 191] ].

Fixpoint strip_prefix (p l : list Z) : option (list Z) :=
  match p, l with
  | [], _ => Some l
  | a :: p', b :: l' => if Z.eqb a b then strip_prefix p' l' else None
  | _ :: _, [] => None
  end.

Fixpoint strip_any (ps : list (list Z)) (l : list Z) : option (list Z) :=
  match ps with
  | [] => None
  | p :: ps' =>
      match strip_prefix p l with
      | Some l' => Some l'
      | None => strip_any ps' l
      end
  end.

Fixpoint trim_left (fuel : nat) (ps : list (list Z)) (l : list Z) : list Z :=
  match fuel with
  | O => l
  | S fuel' =>
      match strip_any ps l with
      | Some l' => trim_left fuel' ps l'
      | None => l
      end
  end.

Definition trim (s : string) : string :=
  let l := map (fun c => Z.of_N (N_of_ascii c)) (list_ascii_of_string s) in
  let l1 := trim_left (List.length l) white_space l in
  let l2 := rev (trim_left (List.length l1) (map (@rev Z) white_space) (rev l1)) in
  string_of_list_ascii (map (fun z => ascii_of_N (Z.to_N z)) l2).

(** *** [/^\d+$/.test(s)] *)
Definition is_digit (c : ascii) : bool :=
  let n := nat_of_ascii c in (Nat.leb 48 n && Nat.leb n 57)%bool.

Definition all_digits (s : string) : bool :=
  (truthy_string s && forallb is_digit (list_ascii_of_string s))%bool.

End Js.

(** ** HTTP as the routes see it *)

Module Http.
Import Js.

(** An outgoing [fetch]; [body] is the value handed to [JSON.stringify]. *)
Record Request : Type := mkRequest
  { url : string;
    method : string;
    req_headers : list (string * string);
    req_body : JSON }.

(** What [fetch] resolves to; [parsed] is [JSON.parse(text)], [None] when
    the text is not JSON. *)
Record Reply : Type := mkReply
  { status : Z;
    statusText : string;
    text : string;
    parsed : option JSON }.

Definition ok (r : Reply) : bool :=
  (Z.leb 200 (status r) && Z.leb (status r) 299)%bool.

Inductive FetchOutcome : Type :=
| Responded (r : Reply)
| Rejected (e : Exn).

(** [let data = null; try { data = JSON.parse(text) } catch {}] *)
Definition parse_or_null (r : Reply) : JSON :=
  match parsed r with
  | Some d => d
  | None => JNull
  end.

(** [data ?? text] *)
Definition data_or_text (data : JSON) (r : Reply) : JSON :=
  match data with
  | JNull => JStr (text r)
  | d => d
  end.

(** Fields of a handler's JSON body. [FNumberOf s] is [Number(s)] and
    [FStringified j] is the text [JSON.stringify(j)]. *)
Inductive Field : Type :=
| FStr (s : string)
| FNum (n : Z)
| FNumberOf (s : string)
| FBool (b : bool)
| FList (l : list string)
| FStringified (j : JSON).

Record Response : Type := mkResponse
  { res_status : Z;
    res_headers : list (string * string);
    res_body : list (string * Field) }.

(** [Response.json(body, { status })] *)
Definition Response_json (body : list (string * Field)) (st : Z) : Response :=
  mkResponse st [("Content-Type", "application/json")] body.

Fixpoint field (k : string) (body : list (string * Field)) : option Field :=
  match body with
  | [] => None
  | (k', v) :: rest => if String.eqb k k' then Some v else field k rest
  end.

(** [String(err?.message || err)] *)
Definition details (e : Exn) : Field :=
  match e with
  | Error payload => FStringified payload
  | TypeError msg => FStr (if truthy_string msg then msg else "TypeError")
  | RangeError msg => FStr (if truthy_string msg then msg else "RangeError")
  end.

(** An object literal with a possibly undefined member: [JSON.stringify]
    leaves such a member out. *)
Definition member (k : string) (v : option JSON) : list (string * JSON) :=
  match v with
  | Some j => [(k, j)]
  | None => []
  end.

Definition inventory_query : string :=
"
    query VariantInventoryAtLocation($variantGid: ID!, $locationGid: ID!) {
      productVariant(id: $variantGid) {
        inventoryItem {
          inventoryLevel(locationId: $locationGid) {
            available
          }
        }
      }
    }
  ".

Definition inventory_variables (variantId locationId : string) : JSON :=
  JObj [ ("variantGid", JStr ("gid://shopify/ProductVariant/" ++ variantId));
         ("locationGid", JStr ("gid://shopify/Location/" ++ locationId)) ].

Definition inventory_request (shop apiVersion accessToken variantId locationId : string)
  : Request :=
  mkRequest ("https://" ++ shop ++ "/admin/api/" ++ apiVersion ++ "/graphql.json")
            "POST"
            [ ("Content-Type", "application/json");
              ("X-Shopify-Access-Token", accessToken) ]
            (JObj [ ("query", JStr inventory_query);
                    ("variables", inventory_variables variantId locationId) ]).

(** [data?.data?.productVariant?.inventoryItem?.inventoryLevel?.available] *)
Definition available_of (data : JSON) : option JSON :=
  prop (prop (prop (prop (prop (Some data) "data") "productVariant")
                   "inventoryItem") "inventoryLevel") "available".

End Http.

(** ** The country to location table (the same expression in every route) *)

Section Location.
Variables UK_LOCATION_ID US_LOCATION_ID : string.

(** [(url.searchParams.get("country") || "").toUpperCase()] *)
Definition country_of (params : Js.URLSearchParams) : string :=
  Js.toUpperCase (Js.or_else (Js.get params "country") "").

Definition locationId (country : string) : string :=
  if (String.eqb country "GB" || String.eqb country "UK")%bool
  then UK_LOCATION_ID
  else if String.eqb country "US"
       then US_LOCATION_ID
       else UK_LOCATION_ID.
End Location.

(** ** [app/routes/apps.location-stock/route.ts]: configured token *)

Module StaticToken.
Import Js Http.

Section Route.
(** [process.env]: an unset variable and an empty one are both falsy. *)
Variables SHOP ADMIN_TOKEN PROXY_SECRET API_VERSION : string.
Variables UK_LOCATION_ID US_LOCATION_ID : string.
Variable localeCompare : string -> string -> Z.
Variable fetch : Request -> FetchOutcome.

Definition verifyProxySignature (params : URLSearchParams) : bool :=
  match get params "signature" with
  | None => false
  | Some signature =>
      if negb (truthy_string signature) then false
      else
        let params := delete params "signature" in
        let sorted := sort (fun a b => localeCompare (fst a) (fst b)) params in
        let message :=
          String.concat "" (map (fun kv => fst kv ++ "=" ++ snd kv) sorted) in
        let digest := Sha256.hmac_sha256_hex PROXY_SECRET message in
        try_catch (timingSafeEqual digest signature) false
  end.

Definition getStockAtLocation (variantId locationId : string) : result Z :=
  match fetch (inventory_request SHOP API_VERSION ADMIN_TOKEN variantId locationId) with
  | Rejected e => Throw e
  | Responded resp =>
      let data := parse_or_null resp in
      if (negb (ok resp) || truthy (prop (Some data) "errors"))%bool
      then Throw (Error (JObj ([ ("status", JNum (status resp));
                                 ("statusText", JStr (statusText resp)) ]
                               ++ member "errors" (prop (Some data) "errors")
                               ++ [ ("body", data_or_text data resp) ])))
      else
        let qty := available_of data in
        Return (match qty with
                | Some (JNum n) => n
                | _ => 0
                end)
  end.

Definition loader (params : URLSearchParams) : Response :=
  if (negb (truthy_string SHOP) || negb (truthy_string ADMIN_TOKEN))%bool
  then Response_json [("error", FStr "Missing SHOPIFY_SHOP or HOST token")] 500
  else if negb (verifyProxySignature params)
  then Response_json [("error", FStr "Invalid signature")] 401
  else
    let variantId := or_else (get params "variant") "" in
    let country := country_of params in
    if negb (all_digits variantId)
    then Response_json [("error", FStr "Missing/invalid variant")] 400
    else
      let locationId := locationId UK_LOCATION_ID US_LOCATION_ID country in
      match getStockAtLocation variantId locationId with
      | Return qty =>
          mkResponse 200
            [ ("Content-Type", "application/json; charset=utf-8");
              ("Cache-Control", "public, max-age=15") ]
            [ ("variantId", FNumberOf variantId);
              ("country", FStr country);
              ("locationId", FNumberOf locationId);
              ("qty", FNum qty);
              ("available", FBool (Z.ltb 0 qty)) ]
      | Throw err =>
          Response_json [ ("error", FStr "Admin API error");
                          ("details", details err) ] 502
      end.
End Route.
End StaticToken.

(** ** The first route of [src/unnamed/part_002]: the comparison is not
       wrapped in [try] *)

Module StaticTokenBare.
Import Js Http.

(** The message of the [TypeError] that [crypto.createHmac] raises for a
    key that is [undefined] (its wording is the host's). *)
Definition invalid_key_message : string :=
  "The " ++ String (ascii_of_nat 34) "key" ++ String (ascii_of_nat 34)
  " argument must be of type string or an instance of ArrayBuffer, Buffer, TypedArray, DataView, KeyObject, or CryptoKey. Received undefined".

(** [crypto.createHmac("sha256", key).update(message).digest("hex")] for
    a key that may be [undefined]. *)
Definition createHmac_hex (key : option string) (message : string) : result string :=
  match key with
  | Some k => Return (Sha256.hmac_sha256_hex k message)
  | None => Throw (TypeError invalid_key_message)
  end.

Section Route.
(** [process.env.SHOPIFY_API_SECRET!], with no default: [None] when the
    variable is unset. *)
Variable PROXY_SECRET : option string.
Variable localeCompare : string -> string -> Z.

Definition verifyProxySignature (params : URLSearchParams) : result bool :=
  match get params "signature" with
  | None => Return false
  | Some signature =>
      if negb (truthy_string signature) then Return false
      else
        let params := delete params "signature" in
        let sorted := sort (fun a b => localeCompare (fst a) (fst b)) params in
        let message :=
          String.concat "" (map (fun kv => fst kv ++ "=" ++ snd kv) sorted) in
        bind (createHmac_hex PROXY_SECRET message) (fun digest =>
        timingSafeEqual digest signature)
  end.
End Route.
End StaticTokenBare.

(** ** [src/unnamed/part_001]: stored offline session *)

Module OfflineSession.
Import Js Http.

(** A stored session, as far as the route reads it. *)
Record Session : Type := mkSession
  { id : string;
    shop : string;
    isOnline : bool;
    accessToken : option string }.

Section Route.
Variables PROXY_SECRET API_VERSION : string.
Variables UK_LOCATION_ID US_LOCATION_ID : string.
Variable localeCompare : string -> string -> Z.
Variable fetch : Request -> FetchOutcome.
(** [sessionStorage.findSessionsByShop], the external session storage. *)
Variable findSessionsByShop : string -> result (list Session).

Definition verifyProxySignature (params : URLSearchParams) : bool :=
  if negb (truthy_string PROXY_SECRET) then false
  else
    match get params "signature" with
    | None => false
    | Some signature =>
        if negb (truthy_string signature) then false
        else
          let params := delete params "signature" in
          let sorted := sort (fun a b => localeCompare (fst a) (fst b)) params in
          let message :=
            String.concat "" (map (fun kv => fst kv ++ "=" ++ snd kv) sorted) in
          let digest := Sha256.hmac_sha256_hex PROXY_SECRET message in
          try_catch (timingSafeEqual digest signature) false
    end.

(** [s && s.isOnline === false && s.accessToken] *)
Definition offline_with_token (s : Session) : bool :=
  (negb (isOnline s) && truthy_string (or_else (accessToken s) ""))%bool.

(** The diagnostic [console.log] of the session ids has no effect on
    the result and is left out. *)
Definition getOfflineAccessTokenForShop (shop : string) : result (option string) :=
  bind (findSessionsByShop shop) (fun sessions =>
    let offline := find offline_with_token sessions in
    Return (match offline with
            | Some s =>
                match accessToken s with
                | Some t => if truthy_string t then Some t else None
                | None => None
                end
            | None => None
            end)).

Definition getStockAtLocation (shop accessToken variantId locationId : string)
  : result Z :=
  match fetch (inventory_request shop API_VERSION accessToken variantId locationId) with
  | Rejected e => Throw e
  | Responded resp =>
      let data := parse_or_null resp in
      if (negb (ok resp) || truthy (prop (Some data) "errors"))%bool
      then Throw (Error (JObj ([ ("status", JNum (status resp));
                                 ("statusText", JStr (statusText resp)) ]
                               ++ member "errors" (prop (Some data) "errors")
                               ++ [ ("body", data_or_text data resp) ])))
      else
        let qty := available_of data in
        Return (match qty with
                | Some (JNum n) => n
                | _ => 0
                end)
  end.

(** The token lookup is awaited outside the [try]: what the storage
    throws leaves the handler. *)
Definition loader (params : URLSearchParams) : result Response :=
  if negb (verifyProxySignature params)
  then Return (Response_json [("error", FStr "Invalid signature")] 401)
  else
    let variantId := or_else (get params "variant") "" in
    let country := country_of params in
    let shop := trim (or_else (get params "shop") "") in
    if negb (truthy_string shop)
    then Return (Response_json [("error", FStr "Missing shop")] 400)
    else if negb (all_digits variantId)
    then Return (Response_json [("error", FStr "Missing/invalid variant")] 400)
    else
      let locationId := locationId UK_LOCATION_ID US_LOCATION_ID country in
      bind (getOfflineAccessTokenForShop shop) (fun accessToken =>
        match accessToken with
        | None =>
            Return (Response_json
              [ ("error", FStr "No offline session stored for shop");
                ("shop", FStr shop);
                ("hint", FStr "Open the embedded app in Shopify admin (or reinstall) to complete offline auth and store a session in Prisma.") ]
              401)
        | Some accessToken =>
            match getStockAtLocation shop accessToken variantId locationId with
            | Return qty =>
                Return (mkResponse 200
                  [ ("Content-Type", "application/json; charset=utf-8");
                    ("Cache-Control", "public, max-age=15") ]
                  [ ("variantId", FNumberOf variantId);
                    ("country", FStr country);
                    ("shop", FStr shop);
                    ("locationId", FNumberOf locationId);
                    ("qty", FNum qty);
                    ("available", FBool (Z.ltb 0 qty)) ])
            | Throw err =>
                Return (Response_json [ ("error", FStr "Admin API error");
                                        ("details", details err) ] 502)
            end
        end).
End Route.
End OfflineSession.

(** ** The second route of [src/unnamed/part_002]: client-credentials
       exchange behind a process-wide cache *)

Module ClientCredentials.
Import Js Http.

(** [let cachedToken: { token; expiresAtMs } | null]. The token is
    whatever truthy value the exchange returned under [access_token]. *)
Record CachedToken : Type := mkCachedToken
  { token : JSON;
    expiresAtMs : Z }.

(** The process: the module-level cache, and the requests sent so far
    (newest first). *)
Record Process : Type := mkProcess
  { cachedToken : option CachedToken;
    sent : list Request }.

(** State and exceptions. *)
Definition M (A : Type) : Type := Process -> result A * Process.

Definition ret {A : Type} (a : A) : M A := fun p => (Return a, p).
Definition throw {A : Type} (e : Exn) : M A := fun p => (Throw e, p).
Definition seq {A B : Type} (m : M A) (k : A -> M B) : M B :=
  fun p => match m p with
           | (Return a, p') => k a p'
           | (Throw e, p') => (Throw e, p')
           end.
Definition read_cache : M (option CachedToken) :=
  fun p => (Return (cachedToken p), p).
Definition write_cache (c : CachedToken) : M unit :=
  fun p => (Return tt, mkProcess (Some c) (sent p)).

Notation "x <- m ;; k" := (seq m (fun x => k))
  (at level 61, m at next level, right associativity).

Section Route.
(** [CLIENT_SECRET] also keys the proxy signature. *)
Variables SHOP CLIENT_ID CLIENT_SECRET : string.
Variable localeCompare : string -> string -> Z.

Definition verifyProxySignature (params : URLSearchParams) : bool :=
  match get params "signature" with
  | None => false
  | Some signature =>
      if negb (truthy_string signature) then false
      else
        let params := delete params "signature" in
        let sorted := sort (fun a b => localeCompare (fst a) (fst b)) params in
        let message :=
          String.concat "" (map (fun kv => fst kv ++ "=" ++ snd kv) sorted) in
        let digest := Sha256.hmac_sha256_hex CLIENT_SECRET message in
        try_catch (timingSafeEqual digest signature) false
  end.

Definition token_request : Request :=
  mkRequest ("https://" ++ SHOP ++ "/admin/oauth/access_token")
            "POST"
            [ ("Content-Type", "application/json") ]
            (JObj [ ("client_id", JStr CLIENT_ID);
                    ("client_secret", JStr CLIENT_SECRET);
                    ("grant_type", JStr "client_credentials") ]).

(** [await fetch(...)] against a network that answers [net]. *)
Definition fetch (net : Request -> FetchOutcome) (req : Request) : M Reply :=
  fun p =>
    let p' := mkProcess (cachedToken p) (req :: sent p) in
    match net req with
    | Responded r => (Return r, p')
    | Rejected e => (Throw e, p')
    end.

Definition fresh (now : Z) (c : option CachedToken) : option JSON :=
  match c with
  | Some c => if Z.ltb 60000 (expiresAtMs c - now) then Some (token c) else None
  | None => None
  end.

(** [expires_in] counts when it is a number above zero; numbers are the
    integers here, and a lifetime with a fraction of a second is outside
    this model (no statement below bounds [ttlMs] from below). *)
Definition ttlMs (expiresIn : option JSON) : Z :=
  match expiresIn with
  | Some (JNum n) => if Z.ltb 0 n then n * 1000 else 20 * 60 * 1000
  | _ => 20 * 60 * 1000
  end.

(** [now] is what [Date.now()] returns when the call starts. *)
Definition getAdminAccessToken (now : Z) (net : Request -> FetchOutcome) : M JSON :=
  c <- read_cache ;;
  match fresh now c with
  | Some t => ret t
  | None =>
      resp <- fetch net token_request ;;
      let data := parse_or_null resp in
      if negb (ok resp)
      then throw (Error (JObj [ ("where", JStr "token_exchange");
                                ("status", JNum (status resp));
                                ("statusText", JStr (statusText resp));
                                ("body", data_or_text data resp) ]))
      else
        let token := prop (Some data) "access_token" in
        let expiresIn := prop (Some data) "expires_in" in
        if negb (truthy token)
        then throw (Error (JObj [ ("where", JStr "token_exchange");
                                  ("error", JStr "No access_token in response");
                                  ("body", data_or_text data resp) ]))
        else
          let token := match token with Some t => t | None => JNull end in
          _ <- write_cache (mkCachedToken token (now + ttlMs expiresIn)) ;;
          ret token
  end.

(** Two calls one after the other, each with its own clock reading and
    network answer; the second runs whatever the first did. *)
Definition twice (now1 : Z) (net1 : Request -> FetchOutcome)
                 (now2 : Z) (net2 : Request -> FetchOutcome)
                 (p : Process) : result JSON * result JSON * Process :=
  let '(r1, p1) := getAdminAccessToken now1 net1 p in
  let '(r2, p2) := getAdminAccessToken now2 net2 p1 in
  (r1, r2, p2).
End Route.
End ClientCredentials.

(** ** The rest of the second route of [src/unnamed/part_002]: the
       inventory query with the exchanged token, and the handler *)

Module ClientCredentialsRoute.
Import Js Http ClientCredentials.

(** [try { m } catch (err) { h err }] *)
Definition catch {A : Type} (m : M A) (h : Exn -> M A) : M A :=
  fun p => match m p with
           | (Return a, p') => (Return a, p')
           | (Throw e, p') => h e p'
           end.

Section Route.
Variables SHOP CLIENT_ID CLIENT_SECRET API_VERSION : string.
Variables UK_LOCATION_ID US_LOCATION_ID : string.
Variable localeCompare : string -> string -> Z.
(** The text [fetch] puts into a header for a value; a string stands for
    itself. *)
Variable header_text : JSON -> string.

Definition getStockAtLocation (net : Request -> FetchOutcome) (accessToken : JSON)
                              (variantId locationId : string) : M Z :=
  resp <- fetch net (inventory_request SHOP API_VERSION (header_text accessToken)
                                       variantId locationId) ;;
  let data := parse_or_null resp in
  if (negb (ok resp) || truthy (prop (Some data) "errors"))%bool
  then throw (Error (JObj ([ ("where", JStr "admin_graphql");
                             ("status", JNum (status resp));
                             ("statusText", JStr (statusText resp)) ]
                           ++ member "errors" (prop (Some data) "errors")
                           ++ [ ("body", data_or_text data resp) ])))
  else
    let qty := available_of data in
    ret (match qty with
         | Some (JNum n) => n
         | _ => 0
         end).

(** [if (!X) missing.push("X")], in the order of the source. *)
Definition missing : list string :=
  ((if truthy_string SHOP then [] else ["SHOPIFY_SHOP"])
   ++ (if truthy_string CLIENT_ID then [] else ["SHOPIFY_API_KEY"])
   ++ (if truthy_string CLIENT_SECRET then [] else ["SHOPIFY_API_SECRET"])
   ++ (if truthy_string UK_LOCATION_ID then [] else ["UK_LOCATION_ID"])
   ++ (if truthy_string US_LOCATION_ID then [] else ["US_LOCATION_ID"]))%list.

Definition loader (now : Z) (net : Request -> FetchOutcome)
                  (params : URLSearchParams) : M Response :=
  match missing with
  | _ :: _ =>
      ret (Response_json [ ("error", FStr "Server misconfigured");
                           ("missing", FList missing) ] 500)
  | [] =>
      if negb (verifyProxySignature CLIENT_SECRET localeCompare params)
      then ret (Response_json [("error", FStr "Invalid signature")] 401)
      else
        let variantId := or_else (get params "variant") "" in
        let country := country_of params in
        if negb (all_digits variantId)
        then ret (Response_json [("error", FStr "Missing/invalid variant")] 400)
        else
          let locationId := locationId UK_LOCATION_ID US_LOCATION_ID country in
          catch
            (token <- getAdminAccessToken SHOP CLIENT_ID CLIENT_SECRET now net ;;
             qty <- getStockAtLocation net token variantId locationId ;;
             ret (mkResponse 200
                    [ ("Content-Type", "application/json; charset=utf-8");
                      ("Cache-Control", "public, max-age=15") ]
                    [ ("variantId", FNumberOf variantId);
                      ("country", FStr country);
                      ("locationId", FNumberOf locationId);
                      ("qty", FNum qty);
                      ("available", FBool (Z.ltb 0 qty)) ]))
            (fun err =>
               ret (Response_json [ ("error", FStr "Inventory proxy failed");
                                    ("details", details err) ] 502))
  end.
End Route.

(** A run of calls of the token resolver, each with its clock reading
    and network. *)
Fixpoint calls (SHOP CLIENT_ID CLIENT_SECRET : string)
               (script : list (Z * (Request -> FetchOutcome)))
               (p : Process) : list (result JSON) * Process :=
  match script with
  | [] => ([], p)
  | (now, net) :: rest =>
      let '(r, p1) := getAdminAccessToken SHOP CLIENT_ID CLIENT_SECRET now net p in
      let '(rs, p2) := calls SHOP CLIENT_ID CLIENT_SECRET rest p1 in
      (r :: rs, p2)
  end.
End ClientCredentialsRoute.

(** ** [src/unnamed/part_003]: offline session loaded by its id *)

Module OfflineSessionById.
Import Js Http.

Section Route.
Variables PROXY_SECRET API_VERSION : string.
Variables UK_LOCATION_ID US_LOCATION_ID : string.
Variable localeCompare : string -> string -> Z.
Variable fetch : Request -> FetchOutcome.
(** [shopify.api.session.getOfflineId], when there is such a function. *)
Variable getOfflineId : option (string -> result string).
(** [shopify.sessionStorage.loadSession] *)
Variable loadSession : string -> result (option OfflineSession.Session).

Definition verifyProxySignature (params : URLSearchParams) : bool :=
  if negb (truthy_string PROXY_SECRET) then false
  else
    match get params "signature" with
    | None => false
    | Some signature =>
        if negb (truthy_string signature) then false
        else
          let params := delete params "signature" in
          let sorted := sort (fun a b => localeCompare (fst a) (fst b)) params in
          let message :=
            String.concat "" (map (fun kv => fst kv ++ "=" ++ snd kv) sorted) in
          let digest := Sha256.hmac_sha256_hex PROXY_SECRET message in
          try_catch (timingSafeEqual digest signature) false
    end.

(** [session?.accessToken], when truthy. *)
Definition token_of (session : option OfflineSession.Session) : option string :=
  match session with
  | Some s =>
      match OfflineSession.accessToken s with
      | Some t => if truthy_string t then Some t else None
      | None => None
      end
  | None => None
  end.

(** Strategy 1, the body of the first [try]. *)
Definition by_helper (shop : string) : result (option string) :=
  match getOfflineId with
  | Some helper =>
      bind (helper shop) (fun offlineId =>
      bind (loadSession offlineId) (fun session =>
      Return (token_of session)))
  | None => Return None
  end.

(** Strategy 2, the body of the second [try]. *)
Definition by_common_id (shop : string) : result (option string) :=
  bind (loadSession ("offline_" ++ shop)) (fun session =>
  Return (token_of session)).

Definition loadOfflineAccessToken (shop : string) : option string :=
  match try_catch (by_helper shop) None with
  | Some t => Some t
  | None =>
      match try_catch (by_common_id shop) None with
      | Some t => Some t
      | None => None
      end
  end.

Definition getStockAtLocation (shop accessToken variantId locationId : string)
  : result Z :=
  match fetch (inventory_request shop API_VERSION accessToken variantId locationId) with
  | Rejected e => Throw e
  | Responded resp =>
      let data := parse_or_null resp in
      if (negb (ok resp) || truthy (prop (Some data) "errors"))%bool
      then Throw (Error (JObj ([ ("status", JNum (status resp));
                                 ("statusText", JStr (statusText resp)) ]
                               ++ member "errors" (prop (Some data) "errors")
                               ++ [ ("body", data_or_text data resp) ])))
      else
        let qty := available_of data in
        Return (match qty with
                | Some (JNum n) => n
                | _ => 0
                end)
  end.

Definition loader (params : URLSearchParams) : Response :=
  if negb (verifyProxySignature params)
  then Response_json [("error", FStr "Invalid signature")] 401
  else
    let variantId := or_else (get params "variant") "" in
    let country := country_of params in
    let shop := trim (or_else (get params "shop") "") in
    if negb (truthy_string shop)
    then Response_json [("error", FStr "Missing shop")] 400
    else if negb (all_digits variantId)
    then Response_json [("error", FStr "Missing/invalid variant")] 400
    else
      let locationId := locationId UK_LOCATION_ID US_LOCATION_ID country in
      if negb (truthy_string locationId)
      then Response_json [("error", FStr "Missing location env vars")] 500
      else
        match loadOfflineAccessToken shop with
        | None =>
            Response_json [ ("error", FStr "No offline session token found for shop");
                            ("shop", FStr shop) ] 401
        | Some accessToken =>
            match getStockAtLocation shop accessToken variantId locationId with
            | Return qty =>
                mkResponse 200
                  [ ("Content-Type", "application/json");
                    ("Cache-Control", "public, max-age=15") ]
                  [ ("variantId", FNumberOf variantId);
                    ("country", FStr country);
                    ("shop", FStr shop);
                    ("locationId", FNumberOf locationId);
                    ("qty", FNum qty);
                    ("available", FBool (Z.ltb 0 qty)) ]
            | Throw err =>
                Response_json [ ("error", FStr "Admin API error");
                                ("details", details err) ] 502
            end
        end.
End Route.
End OfflineSessionById.

(** ** [src/unnamed/part_000]: the handler that only checks the
       environment *)

Module EnvCheck.
Import Js Http.

(** [!process.env.X] *)
Definition unset (env : string -> option string) (name : string) : bool :=
  negb (truthy_string (or_else (env name) "")).

Definition missing (env : string -> option string) : list string :=
  filter (unset env)
    [ "SHOPIFY_SHOP"; "SHOPIFY_API_SECRET"; "SHOPIFY_OFFLINE_TOKEN";
      "UK_LOCATION_ID"; "US_LOCATION_ID" ].

(** Nothing in the [try] can throw, and nothing follows it: with a
    complete environment the function ends without a [return], which is
    [None] here. *)
Definition loader (env : string -> option string) : option Response :=
  match missing env with
  | _ :: _ =>
      Some (Response_json [ ("error", FStr "Missing env vars");
                            ("missing", FList (missing env)) ] 500)
  | [] => None
  end.
End EnvCheck.

(** ** The rest of the first route of [src/unnamed/part_002]: the body is
       read with [resp.json()] and the signature is checked outside any
       [try] *)

Module StaticTokenBareRoute.
Import Js Http.

(** What this route can throw: the exceptions of the host, and the
    [SyntaxError] of [resp.json()] with its message. *)
Inductive Thrown : Type :=
| Host (e : Exn)
| SyntaxError (msg : string).

Inductive outcome (A : Type) : Type :=
| Done (a : A)
| Raised (t : Thrown).
Arguments Done {A} a.
Arguments Raised {A} t.

(** [err.message] *)
Definition message_of (t : Thrown) : Field :=
  match t with
  | Host (Error payload) => FStringified payload
  | Host (TypeError msg) => FStr msg
  | Host (RangeError msg) => FStr msg
  | SyntaxError msg => FStr msg
  end.

Section Route.
Variables SHOP ADMIN_TOKEN : string.
(** [None] when [SHOPIFY_API_SECRET] is unset. *)
Variable PROXY_SECRET : option string.
Variables API_VERSION UK_LOCATION_ID US_LOCATION_ID : string.
Variable localeCompare : string -> string -> Z.
Variable fetch : Request -> FetchOutcome.
(** The message of the [SyntaxError] raised on a text that is not JSON. *)
Variable json_error : string -> string.

(** [data.errors]: reading a property of [null] throws. *)
Definition errors_of (data : JSON) : outcome (option JSON) :=
  match data with
  | JNull =>
      Raised (Host (TypeError "Cannot read properties of null (reading 'errors')"))
  | _ => Done (prop (Some data) "errors")
  end.

Definition getStockAtLocation (variantId locationId : string) : outcome Z :=
  match fetch (inventory_request SHOP API_VERSION ADMIN_TOKEN variantId locationId) with
  | Rejected e => Raised (Host e)
  | Responded resp =>
      match parsed resp with
      | None => Raised (SyntaxError (json_error (text resp)))
      | Some data =>
          (* [!resp.ok || data.errors], then [data.errors || data] *)
          let failing :=
            if negb (ok resp) then Done true
            else match errors_of data with
                 | Done e => Done (truthy e)
                 | Raised t => Raised t
                 end in
          match failing with
          | Raised t => Raised t
          | Done true =>
              match errors_of data with
              | Done e => Raised (Host (Error (if truthy e
                                               then match e with
                                                    | Some j => j
                                                    | None => data
                                                    end
                                               else data)))
              | Raised t => Raised t
              end
          | Done false =>
              let qty := available_of data in
              Done (match qty with
                    | Some (JNum n) => n
                    | _ => 0
                    end)
          end
      end
  end.

Definition loader (params : URLSearchParams) : outcome Response :=
  match StaticTokenBare.verifyProxySignature PROXY_SECRET localeCompare params with
  | Throw e => Raised (Host e)
  | Return false => Done (Response_json [("error", FStr "Invalid signature")] 401)
  | Return true =>
      let variantId := or_else (get params "variant") "" in
      let country := country_of params in
      if negb (all_digits variantId)
      then Done (Response_json [("error", FStr "Missing/invalid variant")] 400)
      else
        let locationId := locationId UK_LOCATION_ID US_LOCATION_ID country in
        match getStockAtLocation variantId locationId with
        | Done qty =>
            Done (mkResponse 200
                    [ ("Content-Type", "application/json");
                      ("Cache-Control", "public, max-age=15") ]
                    [ ("variantId", FNumberOf variantId);
                      ("country", FStr country);
                      ("locationId", FNumberOf locationId);
                      ("qty", FNum qty);
                      ("available", FBool (Z.ltb 0 qty)) ])
        | Raised err =>
            Done (Response_json [ ("error", FStr "Admin API error");
                                  ("details", message_of err) ] 502)
        end
  end.
End Route.
End StaticTokenBareRoute.

(** ** Vocabulary of the statements *)

Section Orders.
Context {A : Type} (cmp : A -> A -> Z).

(** [a] may stand before [b]. *)
Definition le_by (a b : A) : Prop := cmp a b <= 0.

(** The comparator is consistent on the elements of [dom]: any two are
    comparable and the order is transitive. *)
Definition consistent_on (dom : list A) : Prop :=
  (forall a b, In a dom -> In b dom -> le_by a b \/ le_by b a) /\
  (forall a b c, In a dom -> In b dom -> In c dom ->
                 le_by a b -> le_by b c -> le_by a c).

(** No two different elements of [dom] tie. *)
Definition separates (dom : list A) : Prop :=
  forall a b, In a dom -> In b dom -> le_by a b -> le_by b a -> a = b.

(** The same, decided by running the comparator over [dom]. *)
Definition consistent_onb (eqb : A -> A -> bool) (dom : list A) : bool :=
  forallb (fun a => forallb (fun b =>
    (Z.leb (cmp a b) 0 || Z.leb (cmp b a) 0)
    && implb (Z.leb (cmp a b) 0 && Z.leb (cmp b a) 0) (eqb a b)
    && forallb (fun c =>
         implb (Z.leb (cmp a b) 0 && Z.leb (cmp b c) 0) (Z.leb (cmp a c) 0))
         dom) dom) dom.
End Orders.

(** The text that is signed, as the routes build it. *)
Definition signed_message (localeCompare : string -> string -> Z)
                          (params : Js.URLSearchParams) : string :=
  String.concat ""
    (map (fun kv => fst kv ++ "=" ++ snd kv)
         (Js.sort (fun a b => localeCompare (fst a) (fst b))
                  (Js.delete params "signature"))).

(** Keys made of lowercase ASCII letters and digits, or of lowercase
    ASCII letters and the underscore. *)
Definition lower_alnum (c : ascii) : bool :=
  (Js.Icu.is_lower c || Js.is_digit c)%bool.

Definition lower_underscore (c : ascii) : bool :=
  (Js.Icu.is_lower c || Ascii.eqb c "_")%bool.

Definition drawn_from (cls : ascii -> bool) (s : string) : bool :=
  forallb cls (list_ascii_of_string s).

Definition all_ascii : list ascii := map ascii_of_nat (seq 0 256).

Definition comparison_eqb (a b : comparison) : bool :=
  match a, b with
  | Eq, Eq | Lt, Lt | Gt, Gt => true
  | _, _ => false
  end.

(** On the class the collation has no case distinctions and orders
    characters as their codes do. *)
Definition agrees_among (members : list ascii) : bool :=
  forallb (fun c =>
    Z.eqb (Js.Icu.tertiary c) 0 &&
    forallb (fun d =>
      comparison_eqb (Z.compare (Js.Icu.primary c) (Js.Icu.primary d))
                     (Ascii.compare c d))
      members)
    members.

Definition class_members (cls : ascii -> bool) : list ascii :=
  filter cls all_ascii.

(** Sample network answers and processes used in the examples below. *)
Definition quoted (s : string) : string :=
  String (ascii_of_nat 34) s ++ String (ascii_of_nat 34) "".

(** An exchange that succeeds with a token living [seconds] seconds. *)
Definition token_reply (tok : string) (seconds : Z) (digits : string) : Http.Reply :=
  Http.mkReply 200 "OK"
    ("{" ++ quoted "access_token" ++ ":" ++ quoted tok ++ ","
         ++ quoted "expires_in" ++ ":" ++ digits ++ "}")
    (Some (Js.JObj [ ("access_token", Js.JStr tok);
                     ("expires_in", Js.JNum seconds) ])).

(** The same without a lifetime. *)
Definition bare_token_reply (tok : string) : Http.Reply :=
  Http.mkReply 200 "OK"
    ("{" ++ quoted "access_token" ++ ":" ++ quoted tok ++ "}")
    (Some (Js.JObj [ ("access_token", Js.JStr tok) ])).

(** An exchange the platform refuses. *)
Definition refused_reply : Http.Reply :=
  Http.mkReply 401 "Unauthorized"
    ("{" ++ quoted "error" ++ ":" ++ quoted "invalid_client" ++ "}")
    (Some (Js.JObj [ ("error", Js.JStr "invalid_client") ])).

(** A process holding the token [old], which expires at 100000 ms. *)
Definition process_with_old_token : ClientCredentials.Process :=
  ClientCredentials.mkProcess
    (Some (ClientCredentials.mkCachedToken (Js.JStr "old") 100000)) [].

(** U+017F, the long s, in UTF-8. *)
Definition long_s : string :=
  String (ascii_of_nat 197) (String (ascii_of_nat 191) "").

(** A successful GraphQL answer whose [available] is [null]. *)
Definition null_stock_reply : Http.Reply :=
  Http.mkReply 200 "OK"
    ("{" ++ quoted "data" ++ ":{" ++ quoted "productVariant" ++ ":{"
         ++ quoted "inventoryItem" ++ ":{" ++ quoted "inventoryLevel" ++ ":{"
         ++ quoted "available" ++ ":null}}}}}")
    (Some (Js.JObj [ ("data", Js.JObj [ ("productVariant", Js.JObj
             [ ("inventoryItem", Js.JObj [ ("inventoryLevel", Js.JObj
                 [ ("available", Js.JNull) ]) ]) ]) ]) ])).

(** A proxied query for variant 123 in France, signed under [shhh]. *)
Definition signed_query : Js.URLSearchParams :=
  [ ("variant", "123"); ("country", "FR");
    ("signature", Sha256.hmac_sha256_hex "shhh" "country=FRvariant=123") ].

(** The same for a shop, as the route with stored sessions needs it. *)
Definition signed_shop_query : Js.URLSearchParams :=
  [ ("shop", "x.myshopify.com"); ("variant", "123");
    ("signature",
     Sha256.hmac_sha256_hex "shhh" "shop=x.myshopify.comvariant=123") ].

(** A storage that knows one online session for the shop. *)
Definition only_online_sessions (shop : string)
  : Js.result (list OfflineSession.Session) :=
  Js.Return [ OfflineSession.mkSession "online_1" shop true (Some "shpua_1") ].

(** A storage that knows an online session, an offline one without a
    token, and two offline ones with tokens. *)
Definition mixed_sessions (shop : string)
  : Js.result (list OfflineSession.Session) :=
  Js.Return [ OfflineSession.mkSession "online_1" shop true (Some "shpua_1");
              OfflineSession.mkSession "offline_0" shop false None;
              OfflineSession.mkSession "offline_1" shop false (Some "shpat_x");
              OfflineSession.mkSession "offline_2" shop false (Some "shpat_y") ].

(** A proxied query as the platform sends it, apart from the signature. *)
Definition platform_query : Js.URLSearchParams :=
  [ ("shop", "x.myshopify.com"); ("path_prefix", "/apps/stock");
    ("timestamp", "1700000000"); ("signature", "00") ].

(** A session that is online, or has no token, or an empty one. *)
Definition unusable (s : OfflineSession.Session) : Prop :=
  OfflineSession.isOnline s = true \/
  OfflineSession.accessToken s = None \/
  OfflineSession.accessToken s = Some "".

(** A digit or one of [a] to [f]. *)
Definition is_lower_hex (c : ascii) : bool :=
  let n := nat_of_ascii c in
  ((Nat.leb 48 n && Nat.leb n 57) || (Nat.leb 97 n && Nat.leb n 102))%bool.

(** A successful GraphQL answer with [n] units available. *)
Definition stock_reply (n : Z) (digits : string) : Http.Reply :=
  Http.mkReply 200 "OK"
    ("{" ++ quoted "data" ++ ":{" ++ quoted "productVariant" ++ ":{"
         ++ quoted "inventoryItem" ++ ":{" ++ quoted "inventoryLevel" ++ ":{"
         ++ quoted "available" ++ ":" ++ digits ++ "}}}}}")
    (Some (Js.JObj [ ("data", Js.JObj [ ("productVariant", Js.JObj
             [ ("inventoryItem", Js.JObj [ ("inventoryLevel", Js.JObj
                 [ ("available", Js.JNum n) ]) ]) ]) ]) ])).

(** A 200 answer that carries an empty [errors] array beside its data. *)
Definition empty_errors_reply : Http.Reply :=
  Http.mkReply 200 "OK"
    ("{" ++ quoted "errors" ++ ":[]," ++ quoted "data" ++ ":{"
         ++ quoted "productVariant" ++ ":{"
         ++ quoted "inventoryItem" ++ ":{" ++ quoted "inventoryLevel" ++ ":{"
         ++ quoted "available" ++ ":5}}}}}")
    (Some (Js.JObj [ ("errors", Js.JArr []);
                     ("data", Js.JObj [ ("productVariant", Js.JObj
             [ ("inventoryItem", Js.JObj [ ("inventoryLevel", Js.JObj
                 [ ("available", Js.JNum 5) ]) ]) ]) ]) ])).

(** A signed query whose shop is white space. *)
Definition blank_shop_query : Js.URLSearchParams :=
  [ ("shop", "  "); ("variant", "x");
    ("signature", Sha256.hmac_sha256_hex "shhh" "shop=  variant=x") ].

(** A session lookup that gives no usable token: it throws, finds
    nothing, or finds a session without a token or with an empty one. *)
Definition yields_no_token (r : Js.result (option OfflineSession.Session)) : Prop :=
  (exists e, r = Js.Throw e) \/
  r = Js.Return None \/
  (exists s, r = Js.Return (Some s) /\
             (OfflineSession.accessToken s = None \/
              OfflineSession.accessToken s = Some "")).

(** The names the handler of [part_000] looks up. *)
Definition checked_names : list string :=
  [ "SHOPIFY_SHOP"; "SHOPIFY_API_SECRET"; "SHOPIFY_OFFLINE_TOKEN";
    "UK_LOCATION_ID"; "US_LOCATION_ID" ].

(** An environment in which only the two location ids are missing. *)
Definition env_without_locations (name : string) : option string :=
  if (String.eqb name "UK_LOCATION_ID" || String.eqb name "US_LOCATION_ID")%bool
  then None else Some "set".

(** A storage of sessions by id that holds one offline session. *)
Definition one_offline_session (shop id : string)
  : Js.result (option OfflineSession.Session) :=
  if String.eqb id ("offline_" ++ shop)
  then Js.Return (Some (OfflineSession.mkSession id shop false (Some "shpat_x")))
  else Js.Return None.

(** A 200 answer whose body is the JSON text [null]. *)
Definition null_body_reply : Http.Reply :=
  Http.mkReply 200 "OK" "null" (Some Js.JNull).

(** * Properties *)

(** ** Sorting with a comparator *)

Section SortFacts.
Context {A : Type} (cmp : A -> A -> Z).

Lemma insert_perm (x : A) (l : list A) :
  Permutation (x :: l) (Js.insert cmp x l).
Proof.
  induction l as [|y l IH]; simpl.
  - apply Permutation_refl.
  - destruct (Z.leb (cmp x y) 0).
    + apply Permutation_refl.
    + eapply perm_trans; [apply perm_swap|].
      now apply perm_skip.
Qed.

Lemma sort_perm (l : list A) : Permutation l (Js.sort cmp l).
Proof.
  induction l as [|x l IH]; simpl.
  - constructor.
  - eapply perm_trans; [apply perm_skip, IH|apply insert_perm].
Qed.

Lemma sort_In (l : list A) (a : A) : In a (Js.sort cmp l) <-> In a l.
Proof.
  split; apply Permutation_in;
    [apply Permutation_sym|]; apply sort_perm.
Qed.

Lemma insert_sorted (dom : list A) (x : A) (l : list A) :
  consistent_on cmp dom -> In x dom -> incl l dom ->
  StronglySorted (le_by cmp) l -> StronglySorted (le_by cmp) (Js.insert cmp x l).
Proof.
  intros [Htot Htr] Hx Hl Hs.
  induction Hs as [|y l Hs IH Hall]; simpl.
  - repeat constructor.
  - assert (Hy : In y dom) by (apply Hl; now left).
    assert (Hl' : incl l dom) by (intros z Hz; apply Hl; now right).
    destruct (Z.leb (cmp x y) 0) eqn:E.
    + apply Z.leb_le in E.
      constructor; [now constructor|].
      constructor; [exact E|].
      rewrite Forall_forall in *. intros z Hz.
      apply (Htr x y z); auto.
    + apply Z.leb_gt in E.
      constructor; [now apply IH|].
      rewrite Forall_forall in *. intros z Hz.
      apply (Permutation_in _ (Permutation_sym (insert_perm x l))) in Hz.
      destruct Hz as [<-|Hz]; [|now apply Hall].
      destruct (Htot x y Hx Hy) as [H|H]; [unfold le_by in H; lia|exact H].
Qed.

Lemma sort_sorted (l : list A) :
  consistent_on cmp l -> StronglySorted (le_by cmp) (Js.sort cmp l).
Proof.
  intros Hc.
  assert (H : forall l', incl l' l -> StronglySorted (le_by cmp) (Js.sort cmp l')).
  { induction l' as [|x l' IH]; intros Hi; simpl.
    - constructor.
    - apply (insert_sorted l).
      + exact Hc.
      + apply Hi; now left.
      + intros z Hz. apply (proj1 (sort_In _ _)) in Hz. apply Hi; now right.
      + apply IH. intros z Hz; apply Hi; now right. }
  apply H, incl_refl.
Qed.

(** Two sorted arrangements of the same elements coincide when no two
    distinct elements tie. *)
Lemma sorted_unique (l1 l2 : list A) :
  (forall a b, In a l1 -> In b l1 -> (le_by cmp) a b -> (le_by cmp) b a -> a = b) ->
  Permutation l1 l2 ->
  StronglySorted (le_by cmp) l1 -> StronglySorted (le_by cmp) l2 -> l1 = l2.
Proof.
  intros Hanti Hp Hs1. revert l2 Hp.
  induction Hs1 as [|x l1 Hs1 IH Hall1]; intros l2 Hp Hs2.
  - apply Permutation_nil in Hp. now subst.
  - destruct l2 as [|y l2].
    { apply Permutation_sym, Permutation_nil in Hp. discriminate. }
    apply StronglySorted_inv in Hs2 as [Hs2 Hall2].
    rewrite Forall_forall in Hall1, Hall2.
    assert (Hxy : x = y).
    { assert (Hy : In y (x :: l1))
        by (apply (Permutation_in _ (Permutation_sym Hp)); now left).
      assert (Hx : In x (y :: l2))
        by (apply (Permutation_in _ Hp); now left).
      destruct Hy as [Hy|Hy]; [exact Hy|].
      destruct Hx as [Hx|Hx]; [now symmetry|].
      apply Hanti; [now left|now right|now apply Hall1|now apply Hall2]. }
    subst y. f_equal.
    apply IH.
    + intros a b Ha Hb. apply Hanti; now right.
    + now apply Permutation_cons_inv in Hp.
    + exact Hs2.
Qed.
End SortFacts.

(** Sorting only looks at the sign the comparator gives on the elements
    at hand. *)
Lemma sort_ext_in {A : Type} (c1 c2 : A -> A -> Z) (l : list A) :
  (forall a b, In a l -> In b l -> Z.leb (c1 a b) 0 = Z.leb (c2 a b) 0) ->
  Js.sort c1 l = Js.sort c2 l.
Proof.
  intros H.
  assert (Hins : forall x m, In x l -> incl m l ->
                             Js.insert c1 x m = Js.insert c2 x m).
  { intros x m Hx. induction m as [|y m IH]; intros Hm; simpl; [reflexivity|].
    rewrite (H x y Hx (Hm y (or_introl eq_refl))).
    destruct (Z.leb (c2 x y) 0); [reflexivity|].
    f_equal. apply IH. intros z Hz; apply Hm; now right. }
  assert (Hs : forall m, incl m l -> Js.sort c1 m = Js.sort c2 m).
  { induction m as [|x m IH]; intros Hm; simpl; [reflexivity|].
    rewrite IH by (intros z Hz; apply Hm; now right).
    apply Hins; [apply Hm; now left|].
    intros z Hz. apply (proj1 (sort_In _ _ _)) in Hz. apply Hm; now right. }
  apply Hs, incl_refl.
Qed.

(** ** The signature check *)

Lemma hex_nonempty (r : Sha256.regs) : Sha256.hex r <> "".
Proof. unfold Sha256.hex, Sha256.hex_word. discriminate. Qed.

Lemma eqb_length (a b : string) :
  String.eqb a b = true -> String.length a = String.length b.
Proof. intros H. apply String.eqb_eq in H. now subst. Qed.

(** Inside [try ... catch { return false }] the constant-time comparison
    is plain equality of the two byte strings. *)
Lemma timingSafeEqual_caught (a b : string) :
  Js.try_catch (Js.timingSafeEqual a b) false = String.eqb a b.
Proof.
  unfold Js.timingSafeEqual.
  destruct (Nat.eqb (String.length a) (String.length b)) eqn:E; simpl.
  - reflexivity.
  - destruct (String.eqb a b) eqn:E'; [|reflexivity].
    apply eqb_length in E'. apply Nat.eqb_neq in E. contradiction.
Qed.

Lemma truthy_string_true (s : string) : Js.truthy_string s = true <-> s <> "".
Proof. destruct s; simpl; split; congruence. Qed.

Lemma StaticToken_verify_eq secret localeCompare params :
  StaticToken.verifyProxySignature secret localeCompare params =
  match Js.get params "signature" with
  | Some signature =>
      (Js.truthy_string signature &&
       String.eqb (Sha256.hmac_sha256_hex secret (signed_message localeCompare params))
                  signature)%bool
  | None => false
  end.
Proof.
  unfold StaticToken.verifyProxySignature, signed_message.
  destruct (Js.get params "signature") as [sig|]; [|reflexivity].
  rewrite timingSafeEqual_caught.
  now destruct (Js.truthy_string sig).
Qed.

Lemma StaticToken_verify_true secret localeCompare params :
  StaticToken.verifyProxySignature secret localeCompare params = true <->
  Js.get params "signature" =
    Some (Sha256.hmac_sha256_hex secret (signed_message localeCompare params)).
Proof.
  rewrite StaticToken_verify_eq.
  destruct (Js.get params "signature") as [sig|]; [|split; discriminate].
  rewrite andb_true_iff, String.eqb_eq, truthy_string_true.
  split.
  - intros [_ ->]. reflexivity.
  - intros [= ->]. split; [apply hex_nonempty|reflexivity].
Qed.

Lemma delete_In (params : Js.URLSearchParams) (name : string) (kv : string * string) :
  In kv (Js.delete params name) <-> In kv params /\ fst kv <> name.
Proof.
  unfold Js.delete. rewrite filter_In, negb_true_iff, String.eqb_neq. tauto.
Qed.

(** ** Claims *)

(** C1. Whenever the query carries a [signature], the check drops every
    [signature] pair, sorts what remains by key with the comparator,
    joins the pairs as [key=value] with nothing in between, and answers
    [true] exactly when the lowercase-hex HMAC-SHA256 of that text under
    the secret equals the supplied signature.  For [foo=1], [bar=2] and
    secret [shhh] the one accepted signature is the HMAC of [bar=2foo=1]. *)
Theorem verify_accepts_exactly_the_hmac_of_the_sorted_pairs :
  (forall (localeCompare : string -> string -> Z) (secret : string)
          (params : Js.URLSearchParams) (signature : string),
      Js.get params "signature" = Some signature ->
      let by_key := fun a b : string * string => localeCompare (fst a) (fst b) in
      let remaining := Js.delete params "signature" in
      let sorted := Js.sort by_key remaining in
      let message :=
        String.concat "" (map (fun kv => fst kv ++ "=" ++ snd kv) sorted) in
      (forall kv, In kv remaining <-> In kv params /\ fst kv <> "signature") /\
      Permutation remaining sorted /\
      (consistent_on by_key remaining ->
       StronglySorted (fun a b => by_key a b <= 0) sorted) /\
      (StaticToken.verifyProxySignature secret localeCompare params = true <->
       Sha256.hmac_sha256_hex secret message = signature)) /\
  (forall signature : string,
      StaticToken.verifyProxySignature "shhh" Js.Icu.localeCompare
        [("foo", "1"); ("bar", "2"); ("signature", signature)] = true <->
      signature = Sha256.hmac_sha256_hex "shhh" "bar=2foo=1") /\
  Sha256.hmac_sha256_hex "shhh" "bar=2foo=1" =
    "25d2d5bbb7e2178da8e352c5c31e23cab4e69b9747955b49f0cd080b34f45b25".
Proof.
  split; [|split].
  - intros cmp secret params sig Hget by_key remaining sorted message.
    split; [|split; [|split]].
    + intros kv. apply delete_In.
    + apply sort_perm.
    + apply sort_sorted.
    + rewrite StaticToken_verify_true, Hget.
      fold remaining by_key sorted message.
      unfold signed_message.
      split; [intros [= ->]; reflexivity|intros <-; reflexivity].
  - intros sig. rewrite StaticToken_verify_true.
    change (signed_message Js.Icu.localeCompare
              [("foo", "1"); ("bar", "2"); ("signature", sig)])
      with "bar=2foo=1".
    simpl Js.get.
    split; [intros [= ->]; reflexivity|intros ->; reflexivity].
  - vm_compute. reflexivity.
Qed.

Lemma verify_accepts_exactly_the_hmac_of_the_sorted_pairs_witness :
  Js.get [("foo", "1"); ("bar", "2");
          ("signature", "25d2d5bbb7e2178da8e352c5c31e23cab4e69b9747955b49f0cd080b34f45b25")]
         "signature"
  = Some "25d2d5bbb7e2178da8e352c5c31e23cab4e69b9747955b49f0cd080b34f45b25" /\
  StaticToken.verifyProxySignature "shhh" Js.Icu.localeCompare
    [("foo", "1"); ("bar", "2");
     ("signature", "25d2d5bbb7e2178da8e352c5c31e23cab4e69b9747955b49f0cd080b34f45b25")]
  = true.
Proof.
  split; [reflexivity|].
  apply (proj1 verify_accepts_exactly_the_hmac_of_the_sorted_pairs
           Js.Icu.localeCompare "shhh"
           [("foo", "1"); ("bar", "2");
            ("signature", "25d2d5bbb7e2178da8e352c5c31e23cab4e69b9747955b49f0cd080b34f45b25")]
           "25d2d5bbb7e2178da8e352c5c31e23cab4e69b9747955b49f0cd080b34f45b25"
           eq_refl).
  vm_compute. reflexivity.
Defined.

(** ** Comparators on keys *)

Lemma consistent_on_incl {A : Type} (cmp : A -> A -> Z) (l l' : list A) :
  incl l' l -> consistent_on cmp l -> consistent_on cmp l'.
Proof.
  intros Hi [Htot Htr]. split.
  - intros a b Ha Hb. apply Htot; now apply Hi.
  - intros a b c Ha Hb Hc. apply Htr; now apply Hi.
Qed.

Lemma consistent_on_map {A B : Type} (f : A -> B) (cmp : B -> B -> Z) (l : list A) :
  consistent_on cmp (map f l) ->
  consistent_on (fun a b => cmp (f a) (f b)) l.
Proof.
  intros [Htot Htr]. split.
  - intros a b Ha Hb. apply Htot; now apply in_map.
  - intros a b c Ha Hb Hc. apply Htr; now apply in_map.
Qed.

Lemma consistent_onb_sound {A : Type} (cmp : A -> A -> Z) (eqb : A -> A -> bool)
      (dom : list A) :
  (forall a b, eqb a b = true -> a = b) ->
  consistent_onb cmp eqb dom = true ->
  consistent_on cmp dom /\ separates cmp dom.
Proof.
  intros Heq H. unfold consistent_onb in H.
  rewrite forallb_forall in H.
  assert (K : forall a b, In a dom -> In b dom ->
    ((Z.leb (cmp a b) 0 || Z.leb (cmp b a) 0)
     && implb (Z.leb (cmp a b) 0 && Z.leb (cmp b a) 0) (eqb a b)
     && forallb (fun c =>
          implb (Z.leb (cmp a b) 0 && Z.leb (cmp b c) 0) (Z.leb (cmp a c) 0))
          dom)%bool = true).
  { intros a b Ha Hb. specialize (H a Ha). rewrite forallb_forall in H.
    now apply H. }
  unfold consistent_on, separates, le_by.
  split; [split|].
  - intros a b Ha Hb. specialize (K a b Ha Hb).
    apply andb_true_iff in K as [K _]. apply andb_true_iff in K as [K _].
    apply orb_true_iff in K. rewrite !Z.leb_le in K. exact K.
  - intros a b c Ha Hb Hc Hab Hbc. specialize (K a b Ha Hb).
    apply andb_true_iff in K as [_ K]. rewrite forallb_forall in K.
    specialize (K c Hc).
    apply Z.leb_le in Hab, Hbc. rewrite Hab, Hbc in K. simpl in K.
    now apply Z.leb_le.
  - intros a b Ha Hb Hab Hba. specialize (K a b Ha Hb).
    apply andb_true_iff in K as [K _]. apply andb_true_iff in K as [_ K].
    apply Z.leb_le in Hab, Hba. rewrite Hab, Hba in K. simpl in K.
    now apply Heq.
Qed.

Lemma all_ascii_In (c : ascii) : In c all_ascii.
Proof.
  unfold all_ascii. rewrite <- (ascii_nat_embedding c).
  apply in_map, in_seq. pose proof (nat_ascii_bounded c). lia.
Qed.

Lemma comparison_eqb_eq (a b : comparison) : comparison_eqb a b = true -> a = b.
Proof. destruct a, b; simpl; congruence. Qed.

Lemma agrees_among_spec (members : list ascii) :
  agrees_among members = true ->
  forall c, In c members ->
    Js.Icu.tertiary c = 0 /\
    forall d, In d members ->
      Z.compare (Js.Icu.primary c) (Js.Icu.primary d) = Ascii.compare c d.
Proof.
  unfold agrees_among. intros H c Hc.
  rewrite forallb_forall in H. specialize (H c Hc).
  apply andb_true_iff in H as [Ht Hp]. split.
  - now apply Z.eqb_eq.
  - intros d Hd. rewrite forallb_forall in Hp.
    now apply comparison_eqb_eq, Hp.
Qed.

Lemma agrees_on_spec (cls : ascii -> bool) :
  agrees_among (class_members cls) = true ->
  forall c, cls c = true ->
    Js.Icu.tertiary c = 0 /\
    forall d, cls d = true ->
      Z.compare (Js.Icu.primary c) (Js.Icu.primary d) = Ascii.compare c d.
Proof.
  intros H c Hc.
  assert (M : forall x, cls x = true -> In x (class_members cls)).
  { intros x Hx. apply filter_In. split; [apply all_ascii_In|exact Hx]. }
  destruct (agrees_among_spec _ H c (M c Hc)) as [Ht Hp].
  split; [exact Ht|].
  intros d Hd. apply Hp, M, Hd.
Qed.

Lemma lex_refl (l : list Z) : Js.Icu.lex l l = Eq.
Proof. induction l as [|x l IH]; simpl; [reflexivity|]. now rewrite Z.compare_refl. Qed.

Lemma lex_primary_on_class (cls : ascii -> bool) :
  agrees_among (class_members cls) = true ->
  forall a b, drawn_from cls a = true -> drawn_from cls b = true ->
    Js.Icu.lex (map Js.Icu.primary (list_ascii_of_string a))
               (map Js.Icu.primary (list_ascii_of_string b))
    = String.compare a b.
Proof.
  intros H. unfold drawn_from.
  induction a as [|c a IH]; intros [|d b] Ha Hb; simpl in *; try reflexivity.
  apply andb_true_iff in Ha as [Hc Ha], Hb as [Hd Hb].
  destruct (agrees_on_spec cls H c Hc) as [_ Hp].
  rewrite (Hp d Hd).
  destruct (Ascii.compare c d); auto.
Qed.

(** On such keys the collation and the code point order give the same
    answer. *)
Lemma localeCompare_on_class (cls : ascii -> bool) :
  agrees_among (class_members cls) = true ->
  forall a b, drawn_from cls a = true -> drawn_from cls b = true ->
    Js.Icu.localeCompare a b = Js.codepointCompare a b.
Proof.
  intros H a b Ha Hb.
  unfold Js.Icu.localeCompare, Js.codepointCompare.
  rewrite (lex_primary_on_class cls H a b Ha Hb).
  destruct (String.compare a b) eqn:E; try reflexivity.
  apply String.compare_eq_iff in E. subst b.
  now rewrite lex_refl.
Qed.

Lemma lower_alnum_agrees : agrees_among (class_members lower_alnum) = true.
Proof. vm_compute. reflexivity. Qed.

Lemma lower_underscore_agrees : agrees_among (class_members lower_underscore) = true.
Proof. vm_compute. reflexivity. Qed.

Lemma verify_same_message secret c1 c2 params :
  signed_message c1 params = signed_message c2 params ->
  StaticToken.verifyProxySignature secret c1 params =
  StaticToken.verifyProxySignature secret c2 params.
Proof. intros H. now rewrite !StaticToken_verify_eq, H. Qed.

Lemma ClientCredentials_verify_eq secret localeCompare params :
  ClientCredentials.verifyProxySignature secret localeCompare params =
  StaticToken.verifyProxySignature secret localeCompare params.
Proof. reflexivity. Qed.

(** Where the two orders meet.  The pairs that remain are sorted with
    the comparison [localeCompare] of the host: the result is a
    rearrangement of them in which every pair stands before those the
    collation ranks after it.  With the root collation the message, and so
    the verdict, is the one code point order gives whenever all keys are
    made of lowercase ASCII letters and digits, or all of lowercase ASCII
    letters and underscores; the keys the platform itself sends are of
    that kind. *)
Theorem keys_are_sorted_by_collation :
  (forall (localeCompare : string -> string -> Z) (params : Js.URLSearchParams),
      let by_key := fun a b : string * string => localeCompare (fst a) (fst b) in
      let remaining := Js.delete params "signature" in
      consistent_on localeCompare (map fst remaining) ->
      Permutation remaining (Js.sort by_key remaining) /\
      StronglySorted (fun a b => localeCompare (fst a) (fst b) <= 0)
                     (Js.sort by_key remaining)) /\
  (forall (secret : string) (params : Js.URLSearchParams),
      let remaining := Js.delete params "signature" in
      Forall (fun kv => drawn_from lower_alnum (fst kv) = true) remaining \/
      Forall (fun kv => drawn_from lower_underscore (fst kv) = true) remaining ->
      signed_message Js.Icu.localeCompare params =
      signed_message Js.codepointCompare params /\
      StaticToken.verifyProxySignature secret Js.Icu.localeCompare params =
      StaticToken.verifyProxySignature secret Js.codepointCompare params /\
      ClientCredentials.verifyProxySignature secret Js.Icu.localeCompare params =
      ClientCredentials.verifyProxySignature secret Js.codepointCompare params).
Proof.
  split.
  - intros cmp params by_key remaining Hc. split.
    + apply sort_perm.
    + apply (sort_sorted by_key). exact (consistent_on_map fst cmp remaining Hc).
  - intros secret params remaining Hcls.
    assert (Hm : signed_message Js.Icu.localeCompare params =
                 signed_message Js.codepointCompare params).
    { unfold signed_message. fold remaining. do 2 f_equal.
      apply sort_ext_in. intros a b Ha Hb. f_equal.
      destruct Hcls as [H|H]; rewrite Forall_forall in H.
      - apply (localeCompare_on_class _ lower_alnum_agrees); now apply H.
      - apply (localeCompare_on_class _ lower_underscore_agrees); now apply H. }
    split; [exact Hm|].
    split; exact (verify_same_message secret _ _ params Hm).
Qed.

Lemma keys_are_sorted_by_collation_witness :
  Forall (fun kv => drawn_from lower_underscore (fst kv) = true)
         (Js.delete platform_query "signature") /\
  StronglySorted (fun a b => Js.Icu.localeCompare (fst a) (fst b) <= 0)
    (Js.sort (fun a b => Js.Icu.localeCompare (fst a) (fst b))
             (Js.delete platform_query "signature")) /\
  signed_message Js.Icu.localeCompare platform_query =
  signed_message Js.codepointCompare platform_query.
Proof.
  assert (H : Forall (fun kv => drawn_from lower_underscore (fst kv) = true)
                     (Js.delete platform_query "signature")).
  { simpl. repeat (constructor; [reflexivity|]). constructor. }
  assert (Hc : consistent_on Js.Icu.localeCompare
                 (map fst (Js.delete platform_query "signature"))).
  { apply (consistent_onb_sound _ String.eqb).
    - intros a b. apply String.eqb_eq.
    - vm_compute. reflexivity. }
  split; [exact H|]. split.
  - apply (proj1 keys_are_sorted_by_collation Js.Icu.localeCompare
             platform_query Hc).
  - apply (proj2 keys_are_sorted_by_collation "shhh" platform_query
             (or_intror H)).
Defined.

(** C2. The code does not sort by code point: it calls [localeCompare].
    For the keys [a] and [B] code point order puts [B] first and the
    collation puts [a] first, so the routes sign [a=1B=2] and turn down
    the signature made over [B=2a=1], the text in the order the platform
    signs; run with the code point comparison, the same check accepts
    it. *)
Lemma collation_differs_from_codepoint_order :
  signed_message Js.codepointCompare [("a", "1"); ("B", "2")] = "B=2a=1" /\
  signed_message Js.Icu.localeCompare [("a", "1"); ("B", "2")] = "a=1B=2" /\
  Sha256.hmac_sha256_hex "shhh" "B=2a=1" =
    "a39bf70735f1fccc21e7ecf135f6271c576e241c0624972109dad85112b8502e" /\
  StaticToken.verifyProxySignature "shhh" Js.codepointCompare
    [("a", "1"); ("B", "2");
     ("signature", "a39bf70735f1fccc21e7ecf135f6271c576e241c0624972109dad85112b8502e")]
  = true /\
  StaticToken.verifyProxySignature "shhh" Js.Icu.localeCompare
    [("a", "1"); ("B", "2");
     ("signature", "a39bf70735f1fccc21e7ecf135f6271c576e241c0624972109dad85112b8502e")]
  = false /\
  ClientCredentials.verifyProxySignature "shhh" Js.Icu.localeCompare
    [("a", "1"); ("B", "2");
     ("signature", "a39bf70735f1fccc21e7ecf135f6271c576e241c0624972109dad85112b8502e")]
  = false.
Proof. repeat apply conj; vm_compute; reflexivity. Qed.

(** C3: the check is not fail-closed in every route.  With no secret
    configured the route of [apps.location-stock/route.ts] accepts the
    HMAC taken under the empty key, where the route of
    [src/unnamed/part_001] refuses; and the first route of
    [src/unnamed/part_002] lets the length error of the comparison escape,
    where the others answer [false]. *)
Theorem verify_is_not_fail_closed_everywhere :
  Sha256.hmac_sha256_hex "" "" =
    "b613679a0814d9ec772f95d778c35fc5ff1697c493715653c6c712144292c5ad" /\
  StaticToken.verifyProxySignature "" Js.Icu.localeCompare
    [("signature", "b613679a0814d9ec772f95d778c35fc5ff1697c493715653c6c712144292c5ad")]
  = true /\
  OfflineSession.verifyProxySignature "" Js.Icu.localeCompare
    [("signature", "b613679a0814d9ec772f95d778c35fc5ff1697c493715653c6c712144292c5ad")]
  = false /\
  StaticTokenBare.verifyProxySignature (Some "shhh") Js.Icu.localeCompare
    [("variant", "1"); ("signature", "abc")]
  = Js.Throw (Js.RangeError "Input buffers must have the same byte length") /\
  StaticToken.verifyProxySignature "shhh" Js.Icu.localeCompare
    [("variant", "1"); ("signature", "abc")]
  = false.
Proof. repeat apply conj; vm_compute; reflexivity. Qed.

(** ** Reordering the query *)

Lemma get_Some_In (params : Js.URLSearchParams) (name v : string) :
  Js.get params name = Some v -> In (name, v) params.
Proof.
  induction params as [|[k w] params IH]; simpl; [discriminate|].
  destruct (String.eqb k name) eqn:E.
  - apply String.eqb_eq in E. intros [= ->]. subst. now left.
  - intros H. right. now apply IH.
Qed.

Lemma In_get_NoDup (params : Js.URLSearchParams) (name v : string) :
  NoDup (map fst params) -> In (name, v) params -> Js.get params name = Some v.
Proof.
  induction params as [|[k w] params IH]; simpl; [contradiction|].
  intros Hnd [H|H].
  - injection H as -> ->. now rewrite String.eqb_refl.
  - inversion Hnd as [|? ? Hk Hnd']; subst.
    destruct (String.eqb k name) eqn:E.
    + apply String.eqb_eq in E. subst k.
      exfalso. apply Hk. change name with (fst (name, v)). now apply in_map.
    + now apply IH.
Qed.

Lemma get_perm (p1 p2 : Js.URLSearchParams) (name : string) :
  Permutation p1 p2 -> NoDup (map fst p1) -> Js.get p1 name = Js.get p2 name.
Proof.
  intros Hp Hnd.
  assert (Hnd2 : NoDup (map fst p2))
    by (eapply Permutation_NoDup; [apply Permutation_map, Hp|exact Hnd]).
  destruct (Js.get p1 name) as [v|] eqn:E1.
  - symmetry. apply In_get_NoDup; [exact Hnd2|].
    apply (Permutation_in _ Hp). now apply get_Some_In.
  - destruct (Js.get p2 name) as [v|] eqn:E2; [|reflexivity].
    apply get_Some_In in E2.
    apply (Permutation_in _ (Permutation_sym Hp)) in E2.
    apply (In_get_NoDup _ _ _ Hnd) in E2. congruence.
Qed.

Lemma filter_perm {A : Type} (f : A -> bool) (l1 l2 : list A) :
  Permutation l1 l2 -> Permutation (filter f l1) (filter f l2).
Proof.
  induction 1 as [|x l1 l2 _ IH|x y l|l1 l2 l3 _ IH1 _ IH2]; simpl.
  - constructor.
  - destruct (f x); [now constructor|exact IH].
  - destruct (f x), (f y); try apply Permutation_refl. apply perm_swap.
  - eapply perm_trans; eassumption.
Qed.

Lemma NoDup_fst_inj {A B : Type} (l : list (A * B)) (a b : A * B) :
  NoDup (map fst l) -> In a l -> In b l -> fst a = fst b -> a = b.
Proof.
  induction l as [|x l IH]; simpl; [contradiction|].
  intros Hnd Ha Hb Hab. inversion Hnd as [|? ? Hx Hnd']; subst.
  destruct Ha as [->|Ha], Hb as [->|Hb].
  - reflexivity.
  - exfalso. apply Hx. rewrite Hab. now apply in_map.
  - exfalso. apply Hx. rewrite <- Hab. now apply in_map.
  - now apply IH.
Qed.

Lemma delete_incl (params : Js.URLSearchParams) (name : string) :
  incl (Js.delete params name) params.
Proof. intros kv H. now apply delete_In in H. Qed.

(** C8 (amended). When no key occurs twice in the query, and the
    comparator ranks the keys consistently without letting two different
    keys tie, the verdict does not depend on the order in which the pairs
    were inserted. *)
Theorem verify_ignores_order_of_distinct_keys :
  forall (localeCompare : string -> string -> Z) (secret : string)
         (p1 p2 : Js.URLSearchParams),
    Permutation p1 p2 ->
    NoDup (map fst p1) ->
    consistent_on localeCompare (map fst p1) ->
    separates localeCompare (map fst p1) ->
    StaticToken.verifyProxySignature secret localeCompare p1 =
    StaticToken.verifyProxySignature secret localeCompare p2.
Proof.
  intros cmp secret p1 p2 Hp Hnd Hc Hsep.
  set (by_key := fun a b : string * string => cmp (fst a) (fst b)).
  assert (Hc1 : consistent_on by_key p1) by exact (consistent_on_map fst cmp p1 Hc).
  assert (Hsort : Js.sort by_key (Js.delete p1 "signature") =
                  Js.sort by_key (Js.delete p2 "signature")).
  { apply (sorted_unique by_key).
    - intros a b Ha Hb Hab Hba.
      apply (proj1 (sort_In _ _ _)), delete_incl in Ha.
      apply (proj1 (sort_In _ _ _)), delete_incl in Hb.
      apply (NoDup_fst_inj p1); auto.
      apply Hsep; auto; now apply in_map.
    - eapply perm_trans; [apply Permutation_sym, sort_perm|].
      eapply perm_trans; [|apply sort_perm].
      now apply filter_perm.
    - apply sort_sorted.
      apply (consistent_on_incl by_key p1); [apply delete_incl|exact Hc1].
    - apply sort_sorted.
      apply (consistent_on_incl by_key p1); [|exact Hc1].
      intros kv H. apply delete_incl in H.
      now apply (Permutation_in _ (Permutation_sym Hp)). }
  rewrite !StaticToken_verify_eq.
  rewrite (get_perm p1 p2 "signature" Hp Hnd).
  unfold signed_message. fold by_key. now rewrite Hsort.
Qed.

Lemma verify_ignores_order_of_distinct_keys_witness :
  Permutation
    [("foo", "1"); ("bar", "2");
     ("signature", "25d2d5bbb7e2178da8e352c5c31e23cab4e69b9747955b49f0cd080b34f45b25")]
    [("signature", "25d2d5bbb7e2178da8e352c5c31e23cab4e69b9747955b49f0cd080b34f45b25");
     ("bar", "2"); ("foo", "1")] /\
  NoDup ["foo"; "bar"; "signature"] /\
  StaticToken.verifyProxySignature "shhh" Js.Icu.localeCompare
    [("foo", "1"); ("bar", "2");
     ("signature", "25d2d5bbb7e2178da8e352c5c31e23cab4e69b9747955b49f0cd080b34f45b25")]
  =
  StaticToken.verifyProxySignature "shhh" Js.Icu.localeCompare
    [("signature", "25d2d5bbb7e2178da8e352c5c31e23cab4e69b9747955b49f0cd080b34f45b25");
     ("bar", "2"); ("foo", "1")].
Proof.
  assert (Hp : Permutation
    [("foo", "1"); ("bar", "2");
     ("signature", "25d2d5bbb7e2178da8e352c5c31e23cab4e69b9747955b49f0cd080b34f45b25")]
    [("signature", "25d2d5bbb7e2178da8e352c5c31e23cab4e69b9747955b49f0cd080b34f45b25");
     ("bar", "2"); ("foo", "1")]).
  { apply (Permutation_rev
      [("foo", "1"); ("bar", "2");
       ("signature", "25d2d5bbb7e2178da8e352c5c31e23cab4e69b9747955b49f0cd080b34f45b25")]). }
  assert (Hnd : NoDup ["foo"; "bar"; "signature"]).
  { repeat constructor; simpl; intuition discriminate. }
  assert (Hk : consistent_on Js.Icu.localeCompare ["foo"; "bar"; "signature"] /\
               separates Js.Icu.localeCompare ["foo"; "bar"; "signature"]).
  { apply (consistent_onb_sound _ String.eqb).
    - intros a b. apply String.eqb_eq.
    - vm_compute. reflexivity. }
  split; [exact Hp|]. split; [exact Hnd|].
  exact (verify_ignores_order_of_distinct_keys Js.Icu.localeCompare "shhh" _ _
           Hp Hnd (proj1 Hk) (proj2 Hk)).
Defined.

(** C8, as stated, fails: two queries with the same pairs, one key given
    twice, are judged differently, because pairs with one key keep the
    order in which they came. *)
Lemma repeated_key_order_changes_verdict :
  Permutation
    [("a", "1"); ("a", "2");
     ("signature", "264879ebfabb86038301fe94b604c40af26fb9d8f377dc31edcfc560c98451e2")]
    [("a", "2"); ("a", "1");
     ("signature", "264879ebfabb86038301fe94b604c40af26fb9d8f377dc31edcfc560c98451e2")] /\
  StaticToken.verifyProxySignature "shhh" Js.Icu.localeCompare
    [("a", "1"); ("a", "2");
     ("signature", "264879ebfabb86038301fe94b604c40af26fb9d8f377dc31edcfc560c98451e2")]
  = true /\
  StaticToken.verifyProxySignature "shhh" Js.Icu.localeCompare
    [("a", "2"); ("a", "1");
     ("signature", "264879ebfabb86038301fe94b604c40af26fb9d8f377dc31edcfc560c98451e2")]
  = false.
Proof.
  split; [apply perm_swap|].
  split; vm_compute; reflexivity.
Qed.

(** ** The cached client-credentials exchange *)

Section Exchange.
Import Js Http ClientCredentials.
Variables SHOP CLIENT_ID CLIENT_SECRET : string.
Variables (now : Z) (net : Request -> FetchOutcome) (p : Process).

Let request := token_request SHOP CLIENT_ID CLIENT_SECRET.
Let resolve := getAdminAccessToken SHOP CLIENT_ID CLIENT_SECRET.

Lemma fresh_Some (c : CachedToken) :
  cachedToken p = Some c -> 60000 < expiresAtMs c - now ->
  fresh now (cachedToken p) = Some (token c).
Proof.
  intros -> H. simpl. apply Z.ltb_lt in H. now rewrite H.
Qed.

Lemma fresh_None :
  (forall c, cachedToken p = Some c -> expiresAtMs c - now <= 60000) ->
  fresh now (cachedToken p) = None.
Proof.
  intros H. destruct (cachedToken p) as [c|]; simpl; [|reflexivity].
  specialize (H c eq_refl). apply Z.ltb_ge in H. now rewrite H.
Qed.

Lemma resolve_hit (t : JSON) :
  fresh now (cachedToken p) = Some t -> resolve now net p = (Return t, p).
Proof.
  intros H. unfold resolve, getAdminAccessToken, seq, read_cache, ret.
  now rewrite H.
Qed.

Lemma resolve_not_ok (resp : Reply) :
  fresh now (cachedToken p) = None ->
  net request = Responded resp ->
  ok resp = false ->
  exists e,
    resolve now net p = (Throw e, mkProcess (cachedToken p) (request :: sent p)).
Proof.
  intros H Hn Hok. unfold resolve, getAdminAccessToken, seq, read_cache, fetch.
  fold request. rewrite H, Hn, Hok. simpl. eexists. reflexivity.
Qed.

Lemma resolve_no_token (resp : Reply) :
  fresh now (cachedToken p) = None ->
  net request = Responded resp ->
  truthy (prop (Some (parse_or_null resp)) "access_token") = false ->
  exists e,
    resolve now net p = (Throw e, mkProcess (cachedToken p) (request :: sent p)).
Proof.
  intros H Hn Ht. unfold resolve, getAdminAccessToken, seq, read_cache, fetch.
  fold request. rewrite H, Hn. cbv beta iota zeta.
  destruct (ok resp); cbn [negb]; [rewrite Ht; cbn [negb]|]; eexists; reflexivity.
Qed.

Lemma resolve_exchanged (resp : Reply) (tok : JSON) :
  fresh now (cachedToken p) = None ->
  net request = Responded resp ->
  ok resp = true ->
  prop (Some (parse_or_null resp)) "access_token" = Some tok ->
  truthy (Some tok) = true ->
  resolve now net p =
  (Return tok,
   mkProcess (Some (mkCachedToken tok
                      (now + ttlMs (prop (Some (parse_or_null resp)) "expires_in"))))
             (request :: sent p)).
Proof.
  intros H Hn Hok Hp Ht.
  unfold resolve, getAdminAccessToken, seq, read_cache, fetch, write_cache, ret.
  fold request. rewrite H, Hn. cbv beta iota zeta. rewrite Hok. cbn [negb].
  rewrite Hp, Ht. reflexivity.
Qed.

Lemma resolve_miss_sends :
  fresh now (cachedToken p) = None ->
  sent (snd (resolve now net p)) = request :: sent p.
Proof.
  intros H. unfold resolve, getAdminAccessToken, seq, read_cache, fetch,
    write_cache, ret, throw.
  fold request. rewrite H.
  destruct (net request) as [resp|e]; [|reflexivity].
  cbv beta iota zeta.
  destruct (ok resp); cbn [negb]; [|reflexivity].
  destruct (truthy (prop (Some (parse_or_null resp)) "access_token"));
    reflexivity.
Qed.
End Exchange.

(** C4. With a cached token that has more than 60000 ms left at the time
    of the call, the call returns it and sends nothing.  Otherwise it
    sends the exchange request; when the answer is a success carrying a
    token, the cache becomes that token with expiry [now + ttl], where
    [ttl] is [expires_in] times 1000 for a positive number and twenty
    minutes otherwise, and the token is returned. *)
Theorem resolve_serves_fresh_token_or_exchanges :
  forall (SHOP CLIENT_ID CLIENT_SECRET : string) (now : Z)
         (net : Http.Request -> Http.FetchOutcome)
         (p : ClientCredentials.Process),
    let request := ClientCredentials.token_request SHOP CLIENT_ID CLIENT_SECRET in
    let outcome :=
      ClientCredentials.getAdminAccessToken SHOP CLIENT_ID CLIENT_SECRET now net p in
    (forall c,
        ClientCredentials.cachedToken p = Some c ->
        60000 < ClientCredentials.expiresAtMs c - now ->
        outcome = (Js.Return (ClientCredentials.token c), p)) /\
    ((forall c, ClientCredentials.cachedToken p = Some c ->
                ClientCredentials.expiresAtMs c - now <= 60000) ->
     ClientCredentials.sent (snd outcome) = request :: ClientCredentials.sent p /\
     forall resp tok,
       net request = Http.Responded resp ->
       Http.ok resp = true ->
       Js.prop (Some (Http.parse_or_null resp)) "access_token" = Some tok ->
       Js.truthy (Some tok) = true ->
       exists ttl,
         outcome =
           (Js.Return tok,
            ClientCredentials.mkProcess
              (Some (ClientCredentials.mkCachedToken tok (now + ttl)))
              (request :: ClientCredentials.sent p)) /\
         (forall n,
             Js.prop (Some (Http.parse_or_null resp)) "expires_in" = Some (Js.JNum n) ->
             0 < n -> ttl = n * 1000) /\
         ((forall n,
              Js.prop (Some (Http.parse_or_null resp)) "expires_in" = Some (Js.JNum n) ->
              n <= 0) ->
          ttl = 20 * 60 * 1000)).
Proof.
  intros SHOP ID SECRET now net p request outcome. split.
  - intros c Hc Hfresh. apply resolve_hit. now apply fresh_Some.
  - intros Hstale. apply fresh_None in Hstale. split.
    + now apply resolve_miss_sends.
    + intros resp tok Hn Hok Htok Ht.
      exists (ClientCredentials.ttlMs
                (Js.prop (Some (Http.parse_or_null resp)) "expires_in")).
      split; [now apply resolve_exchanged|]. split.
      * intros n -> Hpos. simpl. apply Z.ltb_lt in Hpos. now rewrite Hpos.
      * intros Hnon.
        destruct (Js.prop (Some (Http.parse_or_null resp)) "expires_in")
          as [[| | n | | |]|]; try reflexivity.
        simpl. specialize (Hnon n eq_refl). apply Z.ltb_ge in Hnon.
        now rewrite Hnon.
Qed.

Lemma resolve_serves_fresh_token_or_exchanges_witness :
  ClientCredentials.getAdminAccessToken "x.myshopify.com" "id" "secret" 30000
    (fun _ => Http.Responded (token_reply "new" 3600 "3600"))
    process_with_old_token
  = (Js.Return (Js.JStr "old"), process_with_old_token) /\
  ClientCredentials.getAdminAccessToken "x.myshopify.com" "id" "secret" 50000
    (fun _ => Http.Responded (token_reply "new" 3600 "3600"))
    process_with_old_token
  = (Js.Return (Js.JStr "new"),
     ClientCredentials.mkProcess
       (Some (ClientCredentials.mkCachedToken (Js.JStr "new") 3650000))
       [ClientCredentials.token_request "x.myshopify.com" "id" "secret"]).
Proof.
  split.
  - apply (proj1 (resolve_serves_fresh_token_or_exchanges
                    "x.myshopify.com" "id" "secret" 30000
                    (fun _ => Http.Responded (token_reply "new" 3600 "3600"))
                    process_with_old_token)
                 (ClientCredentials.mkCachedToken (Js.JStr "old") 100000)
                 eq_refl).
    reflexivity.
  - assert (Hstale : forall c,
               ClientCredentials.cachedToken process_with_old_token = Some c ->
               ClientCredentials.expiresAtMs c - 50000 <= 60000).
    { intros c [= <-]. simpl. lia. }
    destruct (proj2 (proj2 (resolve_serves_fresh_token_or_exchanges
                       "x.myshopify.com" "id" "secret" 50000
                       (fun _ => Http.Responded (token_reply "new" 3600 "3600"))
                       process_with_old_token) Hstale)
                    (token_reply "new" 3600 "3600") (Js.JStr "new")
                    eq_refl eq_refl eq_refl eq_refl)
      as [ttl [Hout [Hpos _]]].
    rewrite Hout, (Hpos 3600 eq_refl); [reflexivity|lia].
Defined.

(** C10. When the exchange is attempted and fails, by a status outside
    200..299 or by a body that parses but has no [access_token], the call
    throws and the cache is what it was before. *)
Theorem failed_exchange_leaves_cache_untouched :
  forall (SHOP CLIENT_ID CLIENT_SECRET : string) (now : Z)
         (net : Http.Request -> Http.FetchOutcome)
         (p : ClientCredentials.Process) (resp : Http.Reply),
    let outcome :=
      ClientCredentials.getAdminAccessToken SHOP CLIENT_ID CLIENT_SECRET now net p in
    (forall c, ClientCredentials.cachedToken p = Some c ->
               ClientCredentials.expiresAtMs c - now <= 60000) ->
    net (ClientCredentials.token_request SHOP CLIENT_ID CLIENT_SECRET)
      = Http.Responded resp ->
    Http.ok resp = false \/
    (exists d, Http.parsed resp = Some d /\
               Js.prop (Some d) "access_token" = None) ->
    (exists e, fst outcome = Js.Throw e) /\
    ClientCredentials.cachedToken (snd outcome) = ClientCredentials.cachedToken p.
Proof.
  intros SHOP ID SECRET now net p resp outcome Hstale Hn Hfail.
  apply fresh_None in Hstale.
  assert (H : exists e,
    outcome = (Js.Throw e,
               ClientCredentials.mkProcess (ClientCredentials.cachedToken p)
                 (ClientCredentials.token_request SHOP ID SECRET
                    :: ClientCredentials.sent p))).
  { destruct Hfail as [Hok|[d [Hd Hp]]].
    - now apply (resolve_not_ok _ _ _ _ _ _ resp).
    - apply (resolve_no_token _ _ _ _ _ _ resp); auto.
      unfold Http.parse_or_null. now rewrite Hd, Hp. }
  destruct H as [e ->]. simpl. split; [now exists e|reflexivity].
Qed.

Lemma failed_exchange_leaves_cache_untouched_witness :
  Http.ok refused_reply = false /\
  ClientCredentials.cachedToken
    (snd (ClientCredentials.getAdminAccessToken "x.myshopify.com" "id" "secret" 50000
            (fun _ => Http.Responded refused_reply) process_with_old_token))
  = Some (ClientCredentials.mkCachedToken (Js.JStr "old") 100000).
Proof.
  split; [reflexivity|].
  apply (failed_exchange_leaves_cache_untouched
           "x.myshopify.com" "id" "secret" 50000
           (fun _ => Http.Responded refused_reply) process_with_old_token
           refused_reply).
  - intros c [= <-]. simpl. lia.
  - reflexivity.
  - left. reflexivity.
Defined.

(** C9 (amended). Two calls in a row while the cached token has more
    than 60 s left both return that token and send nothing.  When the
    first call finds the token within its last 60 s, exchanges it with
    success, and the new token still has more than 60 s left at the second
    call, both calls return the new token and one request is sent in all;
    this is so in particular when both calls fall in the last 60 s of the
    old token and the answer names no lifetime. *)
Theorem two_calls_share_a_token :
  forall (SHOP CLIENT_ID CLIENT_SECRET : string)
         (now1 : Z) (net1 : Http.Request -> Http.FetchOutcome)
         (now2 : Z) (net2 : Http.Request -> Http.FetchOutcome)
         (p : ClientCredentials.Process),
    let request := ClientCredentials.token_request SHOP CLIENT_ID CLIENT_SECRET in
    let both :=
      ClientCredentials.twice SHOP CLIENT_ID CLIENT_SECRET now1 net1 now2 net2 p in
    (forall c,
        ClientCredentials.cachedToken p = Some c ->
        60000 < ClientCredentials.expiresAtMs c - now1 ->
        60000 < ClientCredentials.expiresAtMs c - now2 ->
        both = (Js.Return (ClientCredentials.token c),
                Js.Return (ClientCredentials.token c), p)) /\
    (forall c resp tok,
        ClientCredentials.cachedToken p = Some c ->
        ClientCredentials.expiresAtMs c - now1 <= 60000 ->
        net1 request = Http.Responded resp ->
        Http.ok resp = true ->
        Js.prop (Some (Http.parse_or_null resp)) "access_token" = Some tok ->
        Js.truthy (Some tok) = true ->
        60000 < now1 + ClientCredentials.ttlMs
                         (Js.prop (Some (Http.parse_or_null resp)) "expires_in")
                - now2 ->
        fst both = (Js.Return tok, Js.Return tok) /\
        ClientCredentials.sent (snd both) = request :: ClientCredentials.sent p) /\
    (forall c resp tok,
        ClientCredentials.cachedToken p = Some c ->
        0 <= ClientCredentials.expiresAtMs c - now1 <= 60000 ->
        0 <= ClientCredentials.expiresAtMs c - now2 <= 60000 ->
        now1 <= now2 ->
        net1 request = Http.Responded resp ->
        Http.ok resp = true ->
        Js.prop (Some (Http.parse_or_null resp)) "access_token" = Some tok ->
        Js.truthy (Some tok) = true ->
        Js.prop (Some (Http.parse_or_null resp)) "expires_in" = None ->
        fst both = (Js.Return tok, Js.Return tok) /\
        ClientCredentials.sent (snd both) = request :: ClientCredentials.sent p).
Proof.
  intros SHOP ID SECRET now1 net1 now2 net2 p request both.
  assert (Hone : forall c resp tok,
    ClientCredentials.cachedToken p = Some c ->
    ClientCredentials.expiresAtMs c - now1 <= 60000 ->
    net1 request = Http.Responded resp ->
    Http.ok resp = true ->
    Js.prop (Some (Http.parse_or_null resp)) "access_token" = Some tok ->
    Js.truthy (Some tok) = true ->
    60000 < now1 + ClientCredentials.ttlMs
                     (Js.prop (Some (Http.parse_or_null resp)) "expires_in")
            - now2 ->
    fst both = (Js.Return tok, Js.Return tok) /\
    ClientCredentials.sent (snd both) = request :: ClientCredentials.sent p).
  { intros c resp tok Hc Hstale Hn Hok Htok Ht Hleft.
    assert (Hnone : ClientCredentials.fresh now1 (ClientCredentials.cachedToken p) = None).
    { apply fresh_None. intros c' Hc'. congruence. }
    unfold both, ClientCredentials.twice.
    rewrite (resolve_exchanged SHOP ID SECRET now1 net1 p resp tok Hnone Hn Hok Htok Ht).
    rewrite (resolve_hit SHOP ID SECRET now2 net2 _ tok).
    - split; reflexivity.
    - unfold ClientCredentials.fresh.
      cbn [ClientCredentials.cachedToken ClientCredentials.expiresAtMs
           ClientCredentials.token].
      apply Z.ltb_lt in Hleft. now rewrite Hleft. }
  split; [|split].
  - intros c Hc H1 H2. unfold both, ClientCredentials.twice.
    rewrite (resolve_hit SHOP ID SECRET now1 net1 p (ClientCredentials.token c))
      by now apply fresh_Some.
    rewrite (resolve_hit SHOP ID SECRET now2 net2 p (ClientCredentials.token c))
      by now apply fresh_Some.
    reflexivity.
  - exact Hone.
  - intros c resp tok Hc H1 H2 Hle Hn Hok Htok Ht Hexp.
    apply (Hone c resp tok); auto; [lia|].
    rewrite Hexp. simpl. lia.
Qed.

Lemma two_calls_share_a_token_witness :
  ClientCredentials.twice "x.myshopify.com" "id" "secret"
    30000 (fun _ => Http.Responded (token_reply "new" 3600 "3600"))
    35000 (fun _ => Http.Responded (token_reply "newer" 3600 "3600"))
    process_with_old_token
  = (Js.Return (Js.JStr "old"), Js.Return (Js.JStr "old"),
     process_with_old_token) /\
  100000 - 50000 <= 60000 /\
  ClientCredentials.sent
    (snd (ClientCredentials.twice "x.myshopify.com" "id" "secret"
            50000 (fun _ => Http.Responded (token_reply "new" 3600 "3600"))
            50001 (fun _ => Http.Responded (token_reply "newer" 3600 "3600"))
            process_with_old_token))
  = [ClientCredentials.token_request "x.myshopify.com" "id" "secret"] /\
  fst (ClientCredentials.twice "x.myshopify.com" "id" "secret"
         50000 (fun _ => Http.Responded (bare_token_reply "new"))
         99000 (fun _ => Http.Responded (bare_token_reply "newer"))
         process_with_old_token)
  = (Js.Return (Js.JStr "new"), Js.Return (Js.JStr "new")).
Proof.
  assert (Hstale : 100000 - 50000 <= 60000) by lia.
  split; [|split; [exact Hstale|split]].
  - apply (proj1 (two_calls_share_a_token "x.myshopify.com" "id" "secret"
             30000 (fun _ => Http.Responded (token_reply "new" 3600 "3600"))
             35000 (fun _ => Http.Responded (token_reply "newer" 3600 "3600"))
             process_with_old_token)
           (ClientCredentials.mkCachedToken (Js.JStr "old") 100000) eq_refl);
      reflexivity.
  - apply (proj1 (proj2 (two_calls_share_a_token "x.myshopify.com" "id" "secret"
             50000 (fun _ => Http.Responded (token_reply "new" 3600 "3600"))
             50001 (fun _ => Http.Responded (token_reply "newer" 3600 "3600"))
             process_with_old_token))
           (ClientCredentials.mkCachedToken (Js.JStr "old") 100000)
           (token_reply "new" 3600 "3600") (Js.JStr "new")
           eq_refl Hstale eq_refl eq_refl eq_refl eq_refl).
    reflexivity.
  - apply (proj2 (proj2 (two_calls_share_a_token "x.myshopify.com" "id" "secret"
             50000 (fun _ => Http.Responded (bare_token_reply "new"))
             99000 (fun _ => Http.Responded (bare_token_reply "newer"))
             process_with_old_token))
           (ClientCredentials.mkCachedToken (Js.JStr "old") 100000)
           (bare_token_reply "new") (Js.JStr "new") eq_refl);
      try reflexivity; simpl; lia.
Defined.

(** C9, as stated, fails: a token granted for 30 s is stale as soon as
    it is stored, so two calls in the last 60 s of the old token send two
    requests. *)
Lemma short_lived_token_is_exchanged_twice :
  0 <= 100000 - 50000 <= 60000 /\
  0 <= 100000 - 50001 <= 60000 /\
  ClientCredentials.twice "x.myshopify.com" "id" "secret"
    50000 (fun _ => Http.Responded (token_reply "new" 30 "30"))
    50001 (fun _ => Http.Responded (token_reply "new" 30 "30"))
    process_with_old_token
  = (Js.Return (Js.JStr "new"), Js.Return (Js.JStr "new"),
     ClientCredentials.mkProcess
       (Some (ClientCredentials.mkCachedToken (Js.JStr "new") 80001))
       [ClientCredentials.token_request "x.myshopify.com" "id" "secret";
        ClientCredentials.token_request "x.myshopify.com" "id" "secret"]) /\
  List.length
    (ClientCredentials.sent
       (snd (ClientCredentials.twice "x.myshopify.com" "id" "secret"
               50000 (fun _ => Http.Responded (token_reply "new" 30 "30"))
               50001 (fun _ => Http.Responded (token_reply "new" 30 "30"))
               process_with_old_token)))
  <> 1%nat.
Proof.
  split; [lia|]. split; [lia|]. split; [reflexivity|].
  vm_compute. discriminate.
Qed.

(** ** Country and location *)

Lemma upper_ascii_U (c : ascii) :
  Js.upper_ascii c = "U"%char -> c = "U"%char \/ c = "u"%char.
Proof.
  destruct c as [[] [] [] [] [] [] [] []]; vm_compute; intros H;
    try discriminate H; auto.
Qed.

Lemma upper_ascii_S (c : ascii) :
  Js.upper_ascii c = "S"%char -> c = "S"%char \/ c = "s"%char.
Proof.
  destruct c as [[] [] [] [] [] [] [] []]; vm_compute; intros H;
    try discriminate H; auto.
Qed.

Lemma toUpperCase_empty (s : string) : Js.toUpperCase s = "" -> s = "".
Proof.
  destruct s as [|c [|d rest]]; simpl; [reflexivity|discriminate|].
  destruct (Nat.eqb (nat_of_ascii c) 197 && Nat.eqb (nat_of_ascii d) 191)%bool;
    discriminate.
Qed.

Lemma nat_of_ascii_eqb (c : ascii) (n : nat) :
  Nat.eqb (nat_of_ascii c) n = true -> c = ascii_of_nat n.
Proof.
  intros H. apply Nat.eqb_eq in H. rewrite <- H. symmetry.
  apply ascii_nat_embedding.
Qed.

Lemma toUpperCase_step (c d : ascii) (rest : string) :
  Js.toUpperCase (String c (String d rest)) =
  if (Nat.eqb (nat_of_ascii c) 197 && Nat.eqb (nat_of_ascii d) 191)%bool
  then String "S" (Js.toUpperCase rest)
  else String (Js.upper_ascii c) (Js.toUpperCase (String d rest)).
Proof. reflexivity. Qed.

(** The spellings that the host's upper-casing turns into [US]. *)
Lemma toUpperCase_US (c : string) :
  Js.toUpperCase c = "US" <->
  In c ["US"; "Us"; "uS"; "us"; "U" ++ long_s; "u" ++ long_s].
Proof.
  split.
  - destruct c as [|a [|b rest]]; [discriminate|discriminate|].
    rewrite toUpperCase_step.
    destruct (Nat.eqb (nat_of_ascii a) 197 && Nat.eqb (nat_of_ascii b) 191)%bool;
      [discriminate|].
    intros H. injection H as Ha Hb.
    apply upper_ascii_U in Ha.
    destruct rest as [|d rest'].
    + injection Hb as Hb. apply upper_ascii_S in Hb.
      destruct Ha as [-> | ->], Hb as [-> | ->]; simpl; auto.
    + destruct (Nat.eqb (nat_of_ascii b) 197) eqn:Eb;
        [destruct (Nat.eqb (nat_of_ascii d) 191) eqn:Ed|];
        cbn [andb] in Hb.
      * injection Hb as Hb. apply toUpperCase_empty in Hb. subst rest'.
        apply nat_of_ascii_eqb in Eb, Ed. subst b d.
        destruct Ha as [-> | ->]; simpl; auto 7.
      * injection Hb as _ Hb.
        discriminate (toUpperCase_empty (String d rest') Hb).
      * injection Hb as _ Hb.
        discriminate (toUpperCase_empty (String d rest') Hb).
  - simpl. intros [<-|[<-|[<-|[<-|[<-|[<-|[]]]]]]]; reflexivity.
Qed.

(** The handler of [route.ts] once configuration, signature and variant
    have passed. *)
Lemma StaticToken_loader_passed
      (SHOP ADMIN_TOKEN PROXY_SECRET API_VERSION UK US : string)
      (localeCompare : string -> string -> Z)
      (fetch : Http.Request -> Http.FetchOutcome) (params : Js.URLSearchParams) :
  SHOP <> "" -> ADMIN_TOKEN <> "" ->
  StaticToken.verifyProxySignature PROXY_SECRET localeCompare params = true ->
  Js.all_digits (Js.or_else (Js.get params "variant") "") = true ->
  StaticToken.loader SHOP ADMIN_TOKEN PROXY_SECRET API_VERSION UK US
                     localeCompare fetch params =
  match StaticToken.getStockAtLocation SHOP ADMIN_TOKEN API_VERSION fetch
          (Js.or_else (Js.get params "variant") "")
          (locationId UK US (country_of params)) with
  | Js.Return qty =>
      Http.mkResponse 200
        [ ("Content-Type", "application/json; charset=utf-8");
          ("Cache-Control", "public, max-age=15") ]
        [ ("variantId", Http.FNumberOf (Js.or_else (Js.get params "variant") ""));
          ("country", Http.FStr (country_of params));
          ("locationId", Http.FNumberOf (locationId UK US (country_of params)));
          ("qty", Http.FNum qty);
          ("available", Http.FBool (Z.ltb 0 qty)) ]
  | Js.Throw err =>
      Http.Response_json [ ("error", Http.FStr "Admin API error");
                           ("details", Http.details err) ] 502
  end.
Proof.
  intros Hs Ht Hv Hd. unfold StaticToken.loader.
  apply truthy_string_true in Hs, Ht. rewrite Hs, Ht, Hv, Hd. reflexivity.
Qed.

Lemma StaticToken_loader_200
      (SHOP ADMIN_TOKEN PROXY_SECRET API_VERSION UK US : string)
      (localeCompare : string -> string -> Z)
      (fetch : Http.Request -> Http.FetchOutcome) (params : Js.URLSearchParams) :
  Http.res_status (StaticToken.loader SHOP ADMIN_TOKEN PROXY_SECRET API_VERSION
                     UK US localeCompare fetch params) = 200 ->
  Http.field "locationId"
    (Http.res_body (StaticToken.loader SHOP ADMIN_TOKEN PROXY_SECRET API_VERSION
                      UK US localeCompare fetch params))
  = Some (Http.FNumberOf (locationId UK US (country_of params))).
Proof.
  unfold StaticToken.loader.
  destruct (negb (Js.truthy_string SHOP) || negb (Js.truthy_string ADMIN_TOKEN))%bool;
    [discriminate|].
  destruct (negb (StaticToken.verifyProxySignature PROXY_SECRET localeCompare params));
    [discriminate|].
  destruct (negb (Js.all_digits (Js.or_else (Js.get params "variant") "")));
    [discriminate|].
  destruct (StaticToken.getStockAtLocation _ _ _ _ _ _); [reflexivity|discriminate].
Qed.

(** C6 (amended). Every request gets one of the two locations.  [UK]
    and [GB] in any letter case give the UK location.  The US location is
    given by the spellings that the host's upper-casing turns into [US]:
    the four ASCII spellings and the two written with a long s (U+017F).
    Every other value, an absent country and [FR] among them, gives the UK
    location. *)
Theorem country_selects_location :
  forall (UK_LOCATION_ID US_LOCATION_ID : string) (params : Js.URLSearchParams),
    let chosen :=
      locationId UK_LOCATION_ID US_LOCATION_ID (country_of params) in
    (chosen = UK_LOCATION_ID \/ chosen = US_LOCATION_ID) /\
    (forall c, Js.get params "country" = Some c ->
               In c ["UK"; "Uk"; "uK"; "uk"; "GB"; "Gb"; "gB"; "gb"] ->
               chosen = UK_LOCATION_ID) /\
    (forall c, Js.get params "country" = Some c ->
               In c ["US"; "Us"; "uS"; "us"; "U" ++ long_s; "u" ++ long_s] ->
               chosen = US_LOCATION_ID) /\
    (forall c, Js.get params "country" = Some c ->
               ~ In c ["US"; "Us"; "uS"; "us"; "U" ++ long_s; "u" ++ long_s] ->
               chosen = UK_LOCATION_ID) /\
    (Js.get params "country" = None -> chosen = UK_LOCATION_ID) /\
    (Js.get params "country" = Some "FR" -> chosen = UK_LOCATION_ID) /\
    (forall SHOP ADMIN_TOKEN PROXY_SECRET API_VERSION localeCompare fetch,
        let response :=
          StaticToken.loader SHOP ADMIN_TOKEN PROXY_SECRET API_VERSION
            UK_LOCATION_ID US_LOCATION_ID localeCompare fetch params in
        Http.res_status response = 200 ->
        Http.field "locationId" (Http.res_body response)
        = Some (Http.FNumberOf chosen)).
Proof.
  intros UK US params chosen.
  assert (Hother : forall c, Js.get params "country" = Some c ->
             ~ In c ["US"; "Us"; "uS"; "us"; "U" ++ long_s; "u" ++ long_s] ->
             chosen = UK).
  { intros c Hc Hn. unfold chosen, country_of, locationId. rewrite Hc.
    destruct (String.eqb _ "GB" || String.eqb _ "UK")%bool; [reflexivity|].
    destruct (String.eqb (Js.toUpperCase (Js.or_else (Some c) "")) "US") eqn:E;
      [|reflexivity].
    exfalso. apply Hn. apply String.eqb_eq in E.
    destruct c as [|c0 c']; [discriminate E|].
    now apply toUpperCase_US. }
  repeat apply conj.
  - unfold chosen, locationId.
    destruct (String.eqb _ "GB" || String.eqb _ "UK")%bool; [now left|].
    destruct (String.eqb _ "US"); [now right|now left].
  - intros c Hc Hin. unfold chosen, country_of. rewrite Hc.
    simpl in Hin.
    destruct Hin as [<-|[<-|[<-|[<-|[<-|[<-|[<-|[<-|[]]]]]]]]]; reflexivity.
  - intros c Hc Hin. unfold chosen, country_of. rewrite Hc.
    simpl in Hin.
    destruct Hin as [<-|[<-|[<-|[<-|[<-|[<-|[]]]]]]]; reflexivity.
  - exact Hother.
  - intros Hc. unfold chosen, country_of. rewrite Hc. reflexivity.
  - intros Hc. unfold chosen, country_of. rewrite Hc. reflexivity.
  - intros. now apply StaticToken_loader_200.
Qed.

Lemma country_selects_location_witness :
  Js.get [("variant", "1"); ("country", "us")] "country" = Some "us" /\
  locationId "111" "222" (country_of [("variant", "1"); ("country", "us")]) = "222" /\
  locationId "111" "222"
    (country_of [("variant", "1"); ("country", "U" ++ long_s)]) = "222" /\
  locationId "111" "222" (country_of [("variant", "1"); ("country", "gB")]) = "111" /\
  locationId "111" "222" (country_of [("variant", "1"); ("country", "uss")]) = "111" /\
  locationId "111" "222" (country_of [("variant", "1"); ("country", "FR")]) = "111".
Proof.
  split; [reflexivity|]. repeat apply conj.
  - apply (proj1 (proj2 (proj2 (country_selects_location "111" "222"
             [("variant", "1"); ("country", "us")]))) "us" eq_refl).
    simpl. auto.
  - apply (proj1 (proj2 (proj2 (country_selects_location "111" "222"
             [("variant", "1"); ("country", "U" ++ long_s)])))
           ("U" ++ long_s) eq_refl).
    simpl. auto 7.
  - apply (proj1 (proj2 (country_selects_location "111" "222"
             [("variant", "1"); ("country", "gB")])) "gB" eq_refl).
    simpl. auto 8.
  - apply (proj1 (proj2 (proj2 (proj2 (country_selects_location "111" "222"
             [("variant", "1"); ("country", "uss")])))) "uss" eq_refl).
    simpl. intros [H|[H|[H|[H|[H|[H|[]]]]]]]; discriminate H.
  - apply (proj1 (proj2 (proj2 (proj2 (proj2 (proj2 (country_selects_location
             "111" "222" [("variant", "1"); ("country", "FR")]))))))).
    reflexivity.
Defined.

(** C6, as stated, fails: [u] followed by a long s is none of the ASCII
    spellings of [UK], [GB] or [US], and yet it is sent to the US
    location, not the UK one, because its upper-case form is [US]. *)
Lemma long_s_spelling_selects_us_location :
  ~ In ("u" ++ long_s)
       ["UK"; "Uk"; "uK"; "uk"; "GB"; "Gb"; "gB"; "gb"; "US"; "Us"; "uS"; "us"] /\
  Js.toUpperCase ("u" ++ long_s) = "US" /\
  locationId "111" "222"
    (country_of [("variant", "1"); ("country", "u" ++ long_s)]) = "222" /\
  locationId "111" "222"
    (country_of [("variant", "1"); ("country", "u" ++ long_s)]) <> "111".
Proof.
  repeat apply conj.
  - simpl. intros H.
    repeat (destruct H as [H|H]; [discriminate H|]). exact H.
  - reflexivity.
  - reflexivity.
  - vm_compute. discriminate.
Qed.

(** ** The inventory answer *)

(** C7. When the Admin API answers with a status in 200..299 and nothing
    truthy under [errors], and [available] is missing, [null] or not a
    number, the lookup returns 0 instead of failing, and the handler
    answers 200 with [qty] 0 and [available] false. *)
Theorem quantity_defaults_to_zero :
  forall (SHOP ADMIN_TOKEN PROXY_SECRET API_VERSION UK_LOCATION_ID US_LOCATION_ID : string)
         (localeCompare : string -> string -> Z)
         (fetch : Http.Request -> Http.FetchOutcome),
    (forall variantId location resp,
        fetch (Http.inventory_request SHOP API_VERSION ADMIN_TOKEN variantId location)
          = Http.Responded resp ->
        Http.ok resp = true ->
        Js.truthy (Js.prop (Some (Http.parse_or_null resp)) "errors") = false ->
        (forall n, Http.available_of (Http.parse_or_null resp) <> Some (Js.JNum n)) ->
        StaticToken.getStockAtLocation SHOP ADMIN_TOKEN API_VERSION fetch
          variantId location = Js.Return 0) /\
    (forall params resp,
        SHOP <> "" -> ADMIN_TOKEN <> "" ->
        StaticToken.verifyProxySignature PROXY_SECRET localeCompare params = true ->
        Js.all_digits (Js.or_else (Js.get params "variant") "") = true ->
        fetch (Http.inventory_request SHOP API_VERSION ADMIN_TOKEN
                 (Js.or_else (Js.get params "variant") "")
                 (locationId UK_LOCATION_ID US_LOCATION_ID (country_of params)))
          = Http.Responded resp ->
        Http.ok resp = true ->
        Js.truthy (Js.prop (Some (Http.parse_or_null resp)) "errors") = false ->
        (forall n, Http.available_of (Http.parse_or_null resp) <> Some (Js.JNum n)) ->
        let response :=
          StaticToken.loader SHOP ADMIN_TOKEN PROXY_SECRET API_VERSION
            UK_LOCATION_ID US_LOCATION_ID localeCompare fetch params in
        Http.res_status response = 200 /\
        Http.field "qty" (Http.res_body response) = Some (Http.FNum 0) /\
        Http.field "available" (Http.res_body response) = Some (Http.FBool false)).
Proof.
  intros SHOP TOKEN SECRET VERSION UK US cmp fetch.
  assert (Hstock : forall variantId location resp,
    fetch (Http.inventory_request SHOP VERSION TOKEN variantId location)
      = Http.Responded resp ->
    Http.ok resp = true ->
    Js.truthy (Js.prop (Some (Http.parse_or_null resp)) "errors") = false ->
    (forall n, Http.available_of (Http.parse_or_null resp) <> Some (Js.JNum n)) ->
    StaticToken.getStockAtLocation SHOP TOKEN VERSION fetch variantId location
    = Js.Return 0).
  { intros v l resp Hf Hok Herr Hav. unfold StaticToken.getStockAtLocation.
    rewrite Hf. cbv beta iota zeta. rewrite Hok, Herr. cbn [negb orb].
    destruct (Http.available_of (Http.parse_or_null resp)) as [[| | n | | |]|];
      try reflexivity.
    now destruct (Hav n). }
  split; [exact Hstock|].
  intros params resp Hs Ht Hv Hd Hf Hok Herr Hav response.
  unfold response.
  rewrite (StaticToken_loader_passed _ _ _ _ _ _ _ _ _ Hs Ht Hv Hd).
  rewrite (Hstock _ _ resp Hf Hok Herr Hav).
  repeat apply conj; reflexivity.
Qed.

Lemma quantity_defaults_to_zero_witness :
  Http.ok null_stock_reply = true /\
  Http.available_of (Http.parse_or_null null_stock_reply) = Some Js.JNull /\
  Http.res_status
    (StaticToken.loader "x.myshopify.com" "shpat_1" "shhh" "2026-01" "111" "222"
       Js.Icu.localeCompare (fun _ => Http.Responded null_stock_reply) signed_query)
  = 200 /\
  Http.field "qty" (Http.res_body
    (StaticToken.loader "x.myshopify.com" "shpat_1" "shhh" "2026-01" "111" "222"
       Js.Icu.localeCompare (fun _ => Http.Responded null_stock_reply) signed_query))
  = Some (Http.FNum 0) /\
  Http.field "available" (Http.res_body
    (StaticToken.loader "x.myshopify.com" "shpat_1" "shhh" "2026-01" "111" "222"
       Js.Icu.localeCompare (fun _ => Http.Responded null_stock_reply) signed_query))
  = Some (Http.FBool false).
Proof.
  split; [reflexivity|]. split; [reflexivity|].
  apply (proj2 (quantity_defaults_to_zero
                  "x.myshopify.com" "shpat_1" "shhh" "2026-01" "111" "222"
                  Js.Icu.localeCompare (fun _ => Http.Responded null_stock_reply))
               signed_query null_stock_reply).
  - discriminate.
  - discriminate.
  - vm_compute. reflexivity.
  - reflexivity.
  - reflexivity.
  - reflexivity.
  - reflexivity.
  - intros n. discriminate.
Defined.

(** ** Stored offline sessions *)

Lemma find_first {A : Type} (f : A -> bool) (pre : list A) (x : A) (post : list A) :
  (forall y, In y pre -> f y = false) -> f x = true ->
  find f (pre ++ x :: post) = Some x.
Proof.
  induction pre as [|y pre IH]; simpl; intros Hpre Hx.
  - now rewrite Hx.
  - rewrite (Hpre y (or_introl eq_refl)). apply IH; auto.
Qed.

Lemma find_nothing {A : Type} (f : A -> bool) (l : list A) :
  (forall y, In y l -> f y = false) -> find f l = None.
Proof.
  induction l as [|y l IH]; simpl; intros H; [reflexivity|].
  rewrite (H y (or_introl eq_refl)). apply IH; auto.
Qed.

Lemma unusable_false (s : OfflineSession.Session) :
  unusable s -> OfflineSession.offline_with_token s = false.
Proof.
  unfold unusable, OfflineSession.offline_with_token.
  intros [-> | [-> | ->]]; simpl; [reflexivity| |];
    now destruct (OfflineSession.isOnline s).
Qed.

(** C5. Of the sessions the storage returns for the shop, the first one
    that is offline and carries a non-empty token gives the result; with
    no such session the lookup returns nothing, without throwing, and the
    handler answers 401 with a hint, not 500. *)
Theorem offline_lookup_picks_first_offline_token :
  forall (PROXY_SECRET API_VERSION UK_LOCATION_ID US_LOCATION_ID : string)
         (localeCompare : string -> string -> Z)
         (fetch : Http.Request -> Http.FetchOutcome)
         (findSessionsByShop : string -> Js.result (list OfflineSession.Session))
         (shop : string) (sessions : list OfflineSession.Session),
    findSessionsByShop shop = Js.Return sessions ->
    (forall pre s post t,
        sessions = (pre ++ s :: post)%list ->
        (forall s', In s' pre -> unusable s') ->
        OfflineSession.isOnline s = false ->
        OfflineSession.accessToken s = Some t ->
        t <> "" ->
        OfflineSession.getOfflineAccessTokenForShop findSessionsByShop shop
        = Js.Return (Some t)) /\
    ((forall s, In s sessions -> unusable s) ->
     OfflineSession.getOfflineAccessTokenForShop findSessionsByShop shop
     = Js.Return None /\
     forall params,
       OfflineSession.verifyProxySignature PROXY_SECRET localeCompare params = true ->
       Js.trim (Js.or_else (Js.get params "shop") "") = shop ->
       shop <> "" ->
       Js.all_digits (Js.or_else (Js.get params "variant") "") = true ->
       exists response hint,
         OfflineSession.loader PROXY_SECRET API_VERSION UK_LOCATION_ID US_LOCATION_ID
           localeCompare fetch findSessionsByShop params = Js.Return response /\
         Http.res_status response = 401 /\
         Http.res_status response <> 500 /\
         Http.field "hint" (Http.res_body response) = Some (Http.FStr hint) /\
         hint <> "").
Proof.
  intros SECRET VERSION UK US cmp fetch storage shop sessions Hst. split.
  - intros pre s post t -> Hpre Hoff Htok Hne.
    unfold OfflineSession.getOfflineAccessTokenForShop. rewrite Hst. simpl.
    rewrite (find_first _ pre s post).
    + rewrite Htok. apply truthy_string_true in Hne. now rewrite Hne.
    + intros y Hy. apply unusable_false, Hpre, Hy.
    + unfold OfflineSession.offline_with_token. rewrite Hoff, Htok. simpl.
      apply truthy_string_true in Hne. now rewrite Hne.
  - intros Hnone.
    assert (Hres : OfflineSession.getOfflineAccessTokenForShop storage shop
                   = Js.Return None).
    { unfold OfflineSession.getOfflineAccessTokenForShop. rewrite Hst. simpl.
      rewrite find_nothing; [reflexivity|].
      intros y Hy. apply unusable_false, Hnone, Hy. }
    split; [exact Hres|].
    intros params Hv Hshop Hne Hd.
    unfold OfflineSession.loader.
    rewrite Hv, Hshop, Hd.
    apply truthy_string_true in Hne. rewrite Hne. cbn [negb].
    rewrite Hres. cbn [Js.bind].
    eexists. eexists. split; [reflexivity|].
    repeat apply conj; try reflexivity; discriminate.
Qed.

Lemma offline_lookup_picks_first_offline_token_witness :
  OfflineSession.getOfflineAccessTokenForShop mixed_sessions "x.myshopify.com"
  = Js.Return (Some "shpat_x") /\
  OfflineSession.getOfflineAccessTokenForShop only_online_sessions "x.myshopify.com"
  = Js.Return None /\
  exists response hint,
    OfflineSession.loader "shhh" "2026-01" "111" "222" Js.Icu.localeCompare
      (fun _ => Http.Responded null_stock_reply) only_online_sessions
      signed_shop_query = Js.Return response /\
    Http.res_status response = 401 /\
    Http.res_status response <> 500 /\
    Http.field "hint" (Http.res_body response) = Some (Http.FStr hint) /\
    hint <> "".
Proof.
  split.
  - apply (proj1 (offline_lookup_picks_first_offline_token
                    "shhh" "2026-01" "111" "222" Js.Icu.localeCompare
                    (fun _ => Http.Responded null_stock_reply)
                    mixed_sessions "x.myshopify.com" _ eq_refl)
                 [ OfflineSession.mkSession "online_1" "x.myshopify.com" true
                     (Some "shpua_1");
                   OfflineSession.mkSession "offline_0" "x.myshopify.com" false None ]
                 (OfflineSession.mkSession "offline_1" "x.myshopify.com" false
                    (Some "shpat_x"))
                 [ OfflineSession.mkSession "offline_2" "x.myshopify.com" false
                     (Some "shpat_y") ]
                 "shpat_x" eq_refl).
    + intros s [<-|[<-|[]]]; [left|right; left]; reflexivity.
    + reflexivity.
    + reflexivity.
    + discriminate.
  - assert (Hnone : forall s,
              In s [ OfflineSession.mkSession "online_1" "x.myshopify.com" true
                       (Some "shpua_1") ] -> unusable s).
    { intros s [<-|[]]. left. reflexivity. }
    destruct (proj2 (offline_lookup_picks_first_offline_token
                       "shhh" "2026-01" "111" "222" Js.Icu.localeCompare
                       (fun _ => Http.Responded null_stock_reply)
                       only_online_sessions "x.myshopify.com" _ eq_refl) Hnone)
      as [Hres Hloader].
    split; [exact Hres|].
    apply Hloader.
    + vm_compute. reflexivity.
    + vm_compute. reflexivity.
    + discriminate.
    + reflexivity.
Defined.

(** * Further properties of the routes *)

(** ** The shape of an accepted signature *)

Lemma hex_length (r : Sha256.regs) : String.length (Sha256.hex r) = 64%nat.
Proof. reflexivity. Qed.

Lemma hex_digit_lower (n : Z) :
  0 <= n < 16 -> is_lower_hex (Sha256.hex_digit n) = true.
Proof.
  intros H.
  assert (All : forallb (fun k => is_lower_hex (Sha256.hex_digit (Z.of_nat k)))
                        (seq 0 16) = true) by reflexivity.
  rewrite forallb_forall in All.
  rewrite <- (Z2Nat.id n) by lia.
  apply All, in_seq. lia.
Qed.

Lemma hex_word_lower (x : Z) (tail : string) :
  forallb is_lower_hex (list_ascii_of_string tail) = true ->
  forallb is_lower_hex (list_ascii_of_string (Sha256.hex_word x tail)) = true.
Proof.
  intros H. unfold Sha256.hex_word.
  cbn [list_ascii_of_string forallb].
  rewrite !hex_digit_lower by (apply Z.mod_pos_bound; lia).
  exact H.
Qed.

Lemma hex_lower (r : Sha256.regs) :
  forallb is_lower_hex (list_ascii_of_string (Sha256.hex r)) = true.
Proof. unfold Sha256.hex. repeat apply hex_word_lower. reflexivity. Qed.

(** X1. A signature is accepted only if it is 64 characters long and
    written with the digits and the letters [a] to [f]; the same digest in
    capital letters is turned down. *)
Theorem accepted_signature_is_lowercase_hex :
  forall (localeCompare : string -> string -> Z) (secret : string)
         (params : Js.URLSearchParams),
    StaticToken.verifyProxySignature secret localeCompare params = true ->
    exists signature,
      Js.get params "signature" = Some signature /\
      String.length signature = 64%nat /\
      forallb is_lower_hex (list_ascii_of_string signature) = true.
Proof.
  intros cmp secret params H. apply StaticToken_verify_true in H.
  eexists. split; [exact H|]. split; [apply hex_length|apply hex_lower].
Qed.

Lemma accepted_signature_is_lowercase_hex_witness :
  exists signature,
    Js.get signed_query "signature" = Some signature /\
    String.length signature = 64%nat /\
    forallb is_lower_hex (list_ascii_of_string signature) = true.
Proof.
  apply (accepted_signature_is_lowercase_hex Js.Icu.localeCompare "shhh").
  vm_compute. reflexivity.
Defined.

(** ** The signature check in the other routes *)

Lemma Bare_verify_eq secret localeCompare params :
  StaticTokenBare.verifyProxySignature (Some secret) localeCompare params =
  match Js.get params "signature" with
  | Some signature =>
      if Js.truthy_string signature
      then Js.timingSafeEqual
             (Sha256.hmac_sha256_hex secret (signed_message localeCompare params))
             signature
      else Js.Return false
  | None => Js.Return false
  end.
Proof.
  unfold StaticTokenBare.verifyProxySignature, signed_message.
  destruct (Js.get params "signature") as [sig|]; [|reflexivity].
  now destruct (Js.truthy_string sig).
Qed.

Lemma Bare_verify_unset localeCompare params :
  StaticTokenBare.verifyProxySignature None localeCompare params =
  match Js.get params "signature" with
  | Some signature =>
      if Js.truthy_string signature
      then Js.Throw (Js.TypeError StaticTokenBare.invalid_key_message)
      else Js.Return false
  | None => Js.Return false
  end.
Proof.
  unfold StaticTokenBare.verifyProxySignature.
  destruct (Js.get params "signature") as [sig|]; [|reflexivity].
  now destruct (Js.truthy_string sig).
Qed.

(** X2. In the first route of [part_002] nothing around the check
    catches.  With a secret set, a non-empty signature whose length is not
    64 makes the check throw [RangeError], and the handler with it, where
    the route of [route.ts] answers [false]; on every other query the two
    checks agree.  With the secret unset, every non-empty signature makes
    the check and the handler throw the [TypeError] of [createHmac], and a
    query without a signature, or with an empty one, is refused. *)
Theorem bare_check_throws_on_other_lengths :
  forall (SHOP ADMIN_TOKEN API_VERSION UK_LOCATION_ID US_LOCATION_ID : string)
         (fetch : Http.Request -> Http.FetchOutcome) (json_error : string -> string)
         (localeCompare : string -> string -> Z)
         (params : Js.URLSearchParams),
    (forall secret signature,
        Js.get params "signature" = Some signature ->
        signature <> "" ->
        String.length signature <> 64%nat ->
        StaticTokenBare.verifyProxySignature (Some secret) localeCompare params
        = Js.Throw (Js.RangeError "Input buffers must have the same byte length") /\
        StaticTokenBareRoute.loader SHOP ADMIN_TOKEN (Some secret) API_VERSION
          UK_LOCATION_ID US_LOCATION_ID localeCompare fetch json_error params
        = StaticTokenBareRoute.Raised (StaticTokenBareRoute.Host
            (Js.RangeError "Input buffers must have the same byte length")) /\
        StaticToken.verifyProxySignature secret localeCompare params = false) /\
    (forall secret,
        (forall signature,
            Js.get params "signature" = Some signature ->
            signature = "" \/ String.length signature = 64%nat) ->
        StaticTokenBare.verifyProxySignature (Some secret) localeCompare params
        = Js.Return (StaticToken.verifyProxySignature secret localeCompare params)) /\
    (forall signature,
        Js.get params "signature" = Some signature ->
        signature <> "" ->
        StaticTokenBare.verifyProxySignature None localeCompare params
        = Js.Throw (Js.TypeError StaticTokenBare.invalid_key_message) /\
        StaticTokenBareRoute.loader SHOP ADMIN_TOKEN None API_VERSION
          UK_LOCATION_ID US_LOCATION_ID localeCompare fetch json_error params
        = StaticTokenBareRoute.Raised (StaticTokenBareRoute.Host
            (Js.TypeError StaticTokenBare.invalid_key_message))) /\
    ((forall signature, Js.get params "signature" = Some signature -> signature = "") ->
     StaticTokenBare.verifyProxySignature None localeCompare params = Js.Return false /\
     StaticTokenBareRoute.loader SHOP ADMIN_TOKEN None API_VERSION
       UK_LOCATION_ID US_LOCATION_ID localeCompare fetch json_error params
     = StaticTokenBareRoute.Done
         (Http.Response_json [("error", Http.FStr "Invalid signature")] 401)).
Proof.
  intros SHOP TOKEN VERSION UK US fetch json_error cmp params.
  repeat apply conj.
  - intros secret sig Hget Hne Hlen.
    assert (Hb : StaticTokenBare.verifyProxySignature (Some secret) cmp params
                 = Js.Throw (Js.RangeError "Input buffers must have the same byte length")).
    { rewrite Bare_verify_eq, Hget.
      apply truthy_string_true in Hne. rewrite Hne.
      unfold Js.timingSafeEqual, Sha256.hmac_sha256_hex. rewrite hex_length.
      destruct (Nat.eqb 64 (String.length sig)) eqn:E; [|reflexivity].
      apply Nat.eqb_eq in E. congruence. }
    split; [exact Hb|]. split.
    + unfold StaticTokenBareRoute.loader. now rewrite Hb.
    + rewrite StaticToken_verify_eq, Hget.
      apply andb_false_iff. right. apply String.eqb_neq. intros Heq.
      apply Hlen. rewrite <- Heq. apply hex_length.
  - intros secret Hok. rewrite Bare_verify_eq, StaticToken_verify_eq.
    destruct (Js.get params "signature") as [sig|]; [|reflexivity].
    destruct (Js.truthy_string sig) eqn:Ht; [|reflexivity].
    destruct (Hok sig eq_refl) as [-> | Hlen]; [discriminate Ht|].
    unfold Js.timingSafeEqual, Sha256.hmac_sha256_hex.
    rewrite hex_length, Hlen. reflexivity.
  - intros sig Hget Hne.
    assert (Hb : StaticTokenBare.verifyProxySignature None cmp params
                 = Js.Throw (Js.TypeError StaticTokenBare.invalid_key_message)).
    { rewrite Bare_verify_unset, Hget.
      apply truthy_string_true in Hne. now rewrite Hne. }
    split; [exact Hb|].
    unfold StaticTokenBareRoute.loader. now rewrite Hb.
  - intros Hall.
    assert (Hb : StaticTokenBare.verifyProxySignature None cmp params
                 = Js.Return false).
    { rewrite Bare_verify_unset.
      destruct (Js.get params "signature") as [sig|]; [|reflexivity].
      now rewrite (Hall sig eq_refl). }
    split; [exact Hb|].
    unfold StaticTokenBareRoute.loader. now rewrite Hb.
Qed.

Lemma bare_check_throws_on_other_lengths_witness :
  StaticTokenBareRoute.loader "x.myshopify.com" "shpat_1" (Some "shhh") "2026-01"
    "111" "222"
    Js.Icu.localeCompare (fun _ => Http.Responded null_stock_reply) (fun _ => "bad")
    [("variant", "1"); ("signature", "abc")]
  = StaticTokenBareRoute.Raised (StaticTokenBareRoute.Host
      (Js.RangeError "Input buffers must have the same byte length")) /\
  StaticTokenBare.verifyProxySignature (Some "shhh") Js.Icu.localeCompare signed_query
  = Js.Return (StaticToken.verifyProxySignature "shhh" Js.Icu.localeCompare signed_query) /\
  StaticTokenBareRoute.loader "x.myshopify.com" "shpat_1" None "2026-01" "111" "222"
    Js.Icu.localeCompare (fun _ => Http.Responded null_stock_reply) (fun _ => "bad")
    signed_query
  = StaticTokenBareRoute.Raised (StaticTokenBareRoute.Host
      (Js.TypeError StaticTokenBare.invalid_key_message)) /\
  StaticTokenBare.verifyProxySignature None Js.Icu.localeCompare [("variant", "1")]
  = Js.Return false.
Proof.
  repeat apply conj.
  - apply (proj1 (bare_check_throws_on_other_lengths
             "x.myshopify.com" "shpat_1" "2026-01" "111" "222"
             (fun _ => Http.Responded null_stock_reply) (fun _ => "bad")
             Js.Icu.localeCompare [("variant", "1"); ("signature", "abc")])
           "shhh" "abc" eq_refl); [discriminate|].
    simpl. lia.
  - apply (proj1 (proj2 (bare_check_throws_on_other_lengths
             "x.myshopify.com" "shpat_1" "2026-01" "111" "222"
             (fun _ => Http.Responded null_stock_reply) (fun _ => "bad")
             Js.Icu.localeCompare signed_query)) "shhh").
    intros sig H. right.
    change (Some (Sha256.hmac_sha256_hex "shhh" "country=FRvariant=123") = Some sig) in H.
    injection H as <-. apply hex_length.
  - apply (proj1 (proj2 (proj2 (bare_check_throws_on_other_lengths
             "x.myshopify.com" "shpat_1" "2026-01" "111" "222"
             (fun _ => Http.Responded null_stock_reply) (fun _ => "bad")
             Js.Icu.localeCompare signed_query)))
           (Sha256.hmac_sha256_hex "shhh" "country=FRvariant=123") eq_refl).
    apply hex_nonempty.
  - apply (proj2 (proj2 (proj2 (bare_check_throws_on_other_lengths
             "x.myshopify.com" "shpat_1" "2026-01" "111" "222"
             (fun _ => Http.Responded null_stock_reply) (fun _ => "bad")
             Js.Icu.localeCompare [("variant", "1")])))).
    intros sig H. discriminate H.
Defined.

(** X3. The routes of [part_001] and [part_003] refuse every query when
    no secret is configured, and with a secret they judge as the route of
    [route.ts] does. *)
Theorem guarded_check_refuses_without_secret :
  forall (localeCompare : string -> string -> Z) (secret : string)
         (params : Js.URLSearchParams),
    (secret = "" ->
     OfflineSession.verifyProxySignature secret localeCompare params = false /\
     OfflineSessionById.verifyProxySignature secret localeCompare params = false) /\
    (secret <> "" ->
     OfflineSession.verifyProxySignature secret localeCompare params
     = StaticToken.verifyProxySignature secret localeCompare params /\
     OfflineSessionById.verifyProxySignature secret localeCompare params
     = StaticToken.verifyProxySignature secret localeCompare params).
Proof.
  intros cmp secret params. split.
  - intros ->. split; reflexivity.
  - intros Hne. apply truthy_string_true in Hne.
    unfold OfflineSession.verifyProxySignature,
      OfflineSessionById.verifyProxySignature, StaticToken.verifyProxySignature.
    rewrite Hne. split; reflexivity.
Qed.

Lemma guarded_check_refuses_without_secret_witness :
  OfflineSession.verifyProxySignature "" Js.Icu.localeCompare signed_query = false /\
  OfflineSession.verifyProxySignature "shhh" Js.Icu.localeCompare signed_query
  = StaticToken.verifyProxySignature "shhh" Js.Icu.localeCompare signed_query.
Proof.
  assert (Hne : "shhh" <> "") by discriminate.
  destruct (proj1 (guarded_check_refuses_without_secret
                     Js.Icu.localeCompare "" signed_query) eq_refl) as [H1 _].
  destruct (proj2 (guarded_check_refuses_without_secret
                     Js.Icu.localeCompare "shhh" signed_query) Hne) as [H2 _].
  exact (conj H1 H2).
Defined.

(** ** What the signed text does not tell apart *)

Lemma append_assoc (a b c : string) : (a ++ b) ++ c = a ++ (b ++ c).
Proof. induction a as [|x a IH]; simpl; [reflexivity|]. now rewrite IH. Qed.

Lemma get_app_Some (p q : Js.URLSearchParams) (name v : string) :
  Js.get p name = Some v -> Js.get (p ++ q)%list name = Some v.
Proof.
  induction p as [|[k w] p IH]; simpl; [discriminate|].
  destruct (String.eqb k name); auto.
Qed.

Lemma delete_only_signatures (q : Js.URLSearchParams) :
  Forall (fun kv => fst kv = "signature") q -> Js.delete q "signature" = [].
Proof.
  induction 1 as [|[k w] q Hk _ IH]; simpl; [reflexivity|].
  simpl in Hk. subst k. exact IH.
Qed.

(** X4. Of several [signature] parameters only the first is compared,
    and none enters the signed text: adding further ones after it changes
    nothing. *)
Theorem later_signatures_are_ignored :
  forall (localeCompare : string -> string -> Z) (secret : string)
         (params more : Js.URLSearchParams) (signature : string),
    Js.get params "signature" = Some signature ->
    Forall (fun kv => fst kv = "signature") more ->
    StaticToken.verifyProxySignature secret localeCompare (params ++ more)%list =
    StaticToken.verifyProxySignature secret localeCompare params.
Proof.
  intros cmp secret params more sig Hget Hmore.
  rewrite !StaticToken_verify_eq.
  rewrite (get_app_Some params more _ _ Hget), Hget.
  unfold signed_message, Js.delete. rewrite filter_app.
  fold (Js.delete more "signature"). rewrite (delete_only_signatures more Hmore).
  now rewrite app_nil_r.
Qed.

Lemma later_signatures_are_ignored_witness :
  Js.get signed_query "signature"
  = Some (Sha256.hmac_sha256_hex "shhh" "country=FRvariant=123") /\
  StaticToken.verifyProxySignature "shhh" Js.Icu.localeCompare
    (signed_query ++ [("signature", "forged"); ("signature", "")])%list
  = StaticToken.verifyProxySignature "shhh" Js.Icu.localeCompare signed_query.
Proof.
  split; [reflexivity|].
  apply (later_signatures_are_ignored Js.Icu.localeCompare "shhh" signed_query
           [("signature", "forged"); ("signature", "")]
           (Sha256.hmac_sha256_hex "shhh" "country=FRvariant=123") eq_refl).
  repeat constructor.
Defined.

(** X5. The pairs are joined with nothing between them, so a query with
    the pairs [k=v] and [k2=v2] and a query with the single pair whose key
    is [k] and whose value is [v] followed by [k2=v2] are signed alike: a
    signature accepted for one is accepted for the other. *)
Theorem joined_pairs_are_not_told_apart :
  forall (localeCompare : string -> string -> Z) (secret signature : string)
         (k v k2 v2 : string),
    k <> "signature" -> k2 <> "signature" ->
    localeCompare k k2 <= 0 ->
    StaticToken.verifyProxySignature secret localeCompare
      [(k, v ++ k2 ++ "=" ++ v2); ("signature", signature)] =
    StaticToken.verifyProxySignature secret localeCompare
      [(k, v); (k2, v2); ("signature", signature)].
Proof.
  intros cmp secret sig k v k2 v2 Hk Hk2 Hle.
  apply String.eqb_neq in Hk, Hk2. apply Z.leb_le in Hle.
  assert (Hm : signed_message cmp [(k, v ++ k2 ++ "=" ++ v2); ("signature", sig)] =
               signed_message cmp [(k, v); (k2, v2); ("signature", sig)]).
  { unfold signed_message, Js.delete. cbn [filter fst].
    rewrite Hk, Hk2, String.eqb_refl.
    cbn [negb Js.sort Js.insert fst]. rewrite Hle.
    cbn [map String.concat fst snd].
    rewrite !append_assoc. reflexivity. }
  rewrite !StaticToken_verify_eq, Hm.
  cbn [Js.get]. rewrite Hk, Hk2. reflexivity.
Qed.

Lemma joined_pairs_are_not_told_apart_witness :
  Js.Icu.localeCompare "country" "variant" <= 0 /\
  StaticToken.verifyProxySignature "shhh" Js.Icu.localeCompare
    [("country", "FR" ++ "variant" ++ "=" ++ "123");
     ("signature", Sha256.hmac_sha256_hex "shhh" "country=FRvariant=123")] = true.
Proof.
  assert (H : Js.Icu.localeCompare "country" "variant" <= 0)
    by (vm_compute; discriminate).
  split; [exact H|].
  rewrite (joined_pairs_are_not_told_apart Js.Icu.localeCompare "shhh" _
             "country" "FR" "variant" "123"); [|discriminate|discriminate|exact H].
  vm_compute. reflexivity.
Defined.

(** ** The handler of [route.ts] *)

(** X6. The handler checks configuration, then the signature, then the
    variant, and answers 500, 401 or 400 at the first check that fails,
    the last with [Missing/invalid variant]; none of these answers
    depends on the network. *)
Theorem handler_rejects_before_asking_upstream :
  forall (SHOP ADMIN_TOKEN PROXY_SECRET API_VERSION UK_LOCATION_ID US_LOCATION_ID : string)
         (localeCompare : string -> string -> Z) (params : Js.URLSearchParams),
    let respond := fun fetch =>
      StaticToken.loader SHOP ADMIN_TOKEN PROXY_SECRET API_VERSION
        UK_LOCATION_ID US_LOCATION_ID localeCompare fetch params in
    (SHOP = "" \/ ADMIN_TOKEN = "" ->
     forall fetch,
       respond fetch =
       Http.Response_json [("error", Http.FStr "Missing SHOPIFY_SHOP or HOST token")] 500) /\
    (SHOP <> "" -> ADMIN_TOKEN <> "" ->
     StaticToken.verifyProxySignature PROXY_SECRET localeCompare params = false ->
     forall fetch,
       respond fetch = Http.Response_json [("error", Http.FStr "Invalid signature")] 401) /\
    (SHOP <> "" -> ADMIN_TOKEN <> "" ->
     StaticToken.verifyProxySignature PROXY_SECRET localeCompare params = true ->
     Js.all_digits (Js.or_else (Js.get params "variant") "") = false ->
     forall fetch,
       respond fetch =
       Http.Response_json [("error", Http.FStr "Missing/invalid variant")] 400).
Proof.
  intros SHOP TOKEN SECRET VERSION UK US cmp params respond.
  unfold respond, StaticToken.loader. repeat apply conj.
  - intros [-> | ->] fetch; [reflexivity|].
    now rewrite orb_true_r.
  - intros Hs Ht Hv fetch. apply truthy_string_true in Hs, Ht.
    now rewrite Hs, Ht, Hv.
  - intros Hs Ht Hv Hd fetch. apply truthy_string_true in Hs, Ht.
    now rewrite Hs, Ht, Hv, Hd.
Qed.

Lemma handler_rejects_before_asking_upstream_witness :
  StaticToken.loader "x.myshopify.com" "shpat_1" "shhh" "2026-01" "111" "222"
    Js.Icu.localeCompare (fun _ => Http.Responded null_stock_reply)
    [ ("variant", "abc");
      ("signature", Sha256.hmac_sha256_hex "shhh" "variant=abc") ]
  = Http.Response_json [("error", Http.FStr "Missing/invalid variant")] 400 /\
  StaticToken.loader "x.myshopify.com" "shpat_1" "shhh" "2026-01" "111" "222"
    Js.Icu.localeCompare (fun _ => Http.Responded null_stock_reply)
    [ ("variant", "123"); ("signature", "00") ]
  = Http.Response_json [("error", Http.FStr "Invalid signature")] 401 /\
  StaticToken.loader "" "shpat_1" "shhh" "2026-01" "111" "222"
    Js.Icu.localeCompare (fun _ => Http.Responded null_stock_reply) signed_query
  = Http.Response_json [("error", Http.FStr "Missing SHOPIFY_SHOP or HOST token")] 500.
Proof.
  assert (Hs : "x.myshopify.com" <> "") by discriminate.
  assert (Ht : "shpat_1" <> "") by discriminate.
  split; [|split].
  - apply (proj2 (proj2 (handler_rejects_before_asking_upstream
             "x.myshopify.com" "shpat_1" "shhh" "2026-01" "111" "222"
             Js.Icu.localeCompare _)) Hs Ht).
    + vm_compute. reflexivity.
    + reflexivity.
  - apply (proj1 (proj2 (handler_rejects_before_asking_upstream
             "x.myshopify.com" "shpat_1" "shhh" "2026-01" "111" "222"
             Js.Icu.localeCompare _)) Hs Ht).
    vm_compute. reflexivity.
  - apply (proj1 (handler_rejects_before_asking_upstream
             "" "shpat_1" "shhh" "2026-01" "111" "222"
             Js.Icu.localeCompare signed_query)).
    now left.
Defined.

(** X7. The handler looks at the network through one request only, the
    inventory query for the variant and the chosen location: two networks
    that answer this request alike get the same response. *)
Theorem handler_depends_on_one_request :
  forall (SHOP ADMIN_TOKEN PROXY_SECRET API_VERSION UK_LOCATION_ID US_LOCATION_ID : string)
         (localeCompare : string -> string -> Z)
         (fetch1 fetch2 : Http.Request -> Http.FetchOutcome)
         (params : Js.URLSearchParams),
    let request :=
      Http.inventory_request SHOP API_VERSION ADMIN_TOKEN
        (Js.or_else (Js.get params "variant") "")
        (locationId UK_LOCATION_ID US_LOCATION_ID (country_of params)) in
    fetch1 request = fetch2 request ->
    StaticToken.loader SHOP ADMIN_TOKEN PROXY_SECRET API_VERSION
      UK_LOCATION_ID US_LOCATION_ID localeCompare fetch1 params =
    StaticToken.loader SHOP ADMIN_TOKEN PROXY_SECRET API_VERSION
      UK_LOCATION_ID US_LOCATION_ID localeCompare fetch2 params.
Proof.
  intros SHOP TOKEN SECRET VERSION UK US cmp f1 f2 params request H.
  unfold StaticToken.loader.
  destruct (negb (Js.truthy_string SHOP) || negb (Js.truthy_string TOKEN))%bool;
    [reflexivity|].
  destruct (negb (StaticToken.verifyProxySignature SECRET cmp params));
    [reflexivity|].
  destruct (negb (Js.all_digits (Js.or_else (Js.get params "variant") "")));
    [reflexivity|].
  unfold StaticToken.getStockAtLocation. fold request. now rewrite H.
Qed.

Lemma handler_depends_on_one_request_witness :
  StaticToken.loader "x.myshopify.com" "shpat_1" "shhh" "2026-01" "111" "222"
    Js.Icu.localeCompare (fun _ => Http.Responded null_stock_reply) signed_query =
  StaticToken.loader "x.myshopify.com" "shpat_1" "shhh" "2026-01" "111" "222"
    Js.Icu.localeCompare
    (fun r => if String.eqb (Http.method r) "POST"
              then Http.Responded null_stock_reply
              else Http.Rejected (Js.TypeError "fetch failed"))
    signed_query.
Proof.
  apply (handler_depends_on_one_request
           "x.myshopify.com" "shpat_1" "shhh" "2026-01" "111" "222"
           Js.Icu.localeCompare).
  reflexivity.
Defined.

(** X8. Once the request has passed the checks, a rejected [fetch], a
    status outside 200..299, or anything truthy under [errors] (an array
    is, even an empty one) gives 502 with [Admin API error] and no
    quantity. *)
Theorem upstream_failure_gives_502 :
  forall (SHOP ADMIN_TOKEN PROXY_SECRET API_VERSION UK_LOCATION_ID US_LOCATION_ID : string)
         (localeCompare : string -> string -> Z)
         (fetch : Http.Request -> Http.FetchOutcome) (params : Js.URLSearchParams),
    let request :=
      Http.inventory_request SHOP API_VERSION ADMIN_TOKEN
        (Js.or_else (Js.get params "variant") "")
        (locationId UK_LOCATION_ID US_LOCATION_ID (country_of params)) in
    let response :=
      StaticToken.loader SHOP ADMIN_TOKEN PROXY_SECRET API_VERSION
        UK_LOCATION_ID US_LOCATION_ID localeCompare fetch params in
    SHOP <> "" -> ADMIN_TOKEN <> "" ->
    StaticToken.verifyProxySignature PROXY_SECRET localeCompare params = true ->
    Js.all_digits (Js.or_else (Js.get params "variant") "") = true ->
    (exists e, fetch request = Http.Rejected e) \/
    (exists resp,
        fetch request = Http.Responded resp /\
        (Http.ok resp = false \/
         Js.truthy (Js.prop (Some (Http.parse_or_null resp)) "errors") = true \/
         exists items,
           Js.prop (Some (Http.parse_or_null resp)) "errors" = Some (Js.JArr items))) ->
    Http.res_status response = 502 /\
    Http.field "error" (Http.res_body response) = Some (Http.FStr "Admin API error") /\
    Http.field "qty" (Http.res_body response) = None.
Proof.
  intros SHOP TOKEN SECRET VERSION UK US cmp fetch params request response
         Hs Ht Hv Hd Hfail.
  unfold response.
  rewrite (StaticToken_loader_passed _ _ _ _ _ _ _ _ _ Hs Ht Hv Hd).
  unfold StaticToken.getStockAtLocation. fold request.
  destruct Hfail as [[e ->]|[resp [-> Hbad]]]; [repeat apply conj; reflexivity|].
  cbv beta iota zeta.
  assert (Hcond : (negb (Http.ok resp)
                   || Js.truthy (Js.prop (Some (Http.parse_or_null resp)) "errors"))%bool
                  = true).
  { destruct Hbad as [->|[->|[items ->]]];
      [reflexivity|apply orb_true_r|apply orb_true_r]. }
  rewrite Hcond. repeat apply conj; reflexivity.
Qed.

Lemma upstream_failure_gives_502_witness :
  Http.ok empty_errors_reply = true /\
  Http.res_status
    (StaticToken.loader "x.myshopify.com" "shpat_1" "shhh" "2026-01" "111" "222"
       Js.Icu.localeCompare (fun _ => Http.Responded empty_errors_reply) signed_query)
  = 502.
Proof.
  split; [reflexivity|].
  apply (upstream_failure_gives_502
           "x.myshopify.com" "shpat_1" "shhh" "2026-01" "111" "222"
           Js.Icu.localeCompare (fun _ => Http.Responded empty_errors_reply)
           signed_query).
  - discriminate.
  - discriminate.
  - vm_compute. reflexivity.
  - reflexivity.
  - right. exists empty_errors_reply. split; [reflexivity|].
    right. right. exists []. reflexivity.
Defined.

(** X9. When the answer is a success carrying a number under
    [available], the handler answers 200 with that number as [qty], and
    [available] is true exactly when the number is above zero. *)
Theorem handler_reports_quantity :
  forall (SHOP ADMIN_TOKEN PROXY_SECRET API_VERSION UK_LOCATION_ID US_LOCATION_ID : string)
         (localeCompare : string -> string -> Z)
         (fetch : Http.Request -> Http.FetchOutcome) (params : Js.URLSearchParams)
         (resp : Http.Reply) (n : Z),
    let response :=
      StaticToken.loader SHOP ADMIN_TOKEN PROXY_SECRET API_VERSION
        UK_LOCATION_ID US_LOCATION_ID localeCompare fetch params in
    SHOP <> "" -> ADMIN_TOKEN <> "" ->
    StaticToken.verifyProxySignature PROXY_SECRET localeCompare params = true ->
    Js.all_digits (Js.or_else (Js.get params "variant") "") = true ->
    fetch (Http.inventory_request SHOP API_VERSION ADMIN_TOKEN
             (Js.or_else (Js.get params "variant") "")
             (locationId UK_LOCATION_ID US_LOCATION_ID (country_of params)))
      = Http.Responded resp ->
    Http.ok resp = true ->
    Js.truthy (Js.prop (Some (Http.parse_or_null resp)) "errors") = false ->
    Http.available_of (Http.parse_or_null resp) = Some (Js.JNum n) ->
    Http.res_status response = 200 /\
    Http.field "qty" (Http.res_body response) = Some (Http.FNum n) /\
    exists b,
      Http.field "available" (Http.res_body response) = Some (Http.FBool b) /\
      (b = true <-> 0 < n).
Proof.
  intros SHOP TOKEN SECRET VERSION UK US cmp fetch params resp n response
         Hs Ht Hv Hd Hf Hok Herr Hav.
  unfold response.
  rewrite (StaticToken_loader_passed _ _ _ _ _ _ _ _ _ Hs Ht Hv Hd).
  unfold StaticToken.getStockAtLocation. rewrite Hf. cbv beta iota zeta.
  rewrite Hok, Herr, Hav. cbn [negb orb].
  split; [reflexivity|]. split; [reflexivity|].
  exists (Z.ltb 0 n). split; [reflexivity|apply Z.ltb_lt].
Qed.

Lemma handler_reports_quantity_witness :
  Http.field "qty" (Http.res_body
    (StaticToken.loader "x.myshopify.com" "shpat_1" "shhh" "2026-01" "111" "222"
       Js.Icu.localeCompare (fun _ => Http.Responded (stock_reply (-2) "-2"))
       signed_query))
  = Some (Http.FNum (-2)) /\
  Http.field "available" (Http.res_body
    (StaticToken.loader "x.myshopify.com" "shpat_1" "shhh" "2026-01" "111" "222"
       Js.Icu.localeCompare (fun _ => Http.Responded (stock_reply (-2) "-2"))
       signed_query))
  = Some (Http.FBool false).
Proof.
  assert (Hs : "x.myshopify.com" <> "") by discriminate.
  assert (Ht : "shpat_1" <> "") by discriminate.
  assert (Hv : StaticToken.verifyProxySignature "shhh" Js.Icu.localeCompare
                 signed_query = true) by (vm_compute; reflexivity).
  destruct (handler_reports_quantity
              "x.myshopify.com" "shpat_1" "shhh" "2026-01" "111" "222"
              Js.Icu.localeCompare (fun _ => Http.Responded (stock_reply (-2) "-2"))
              signed_query (stock_reply (-2) "-2") (-2)
              Hs Ht Hv eq_refl eq_refl eq_refl eq_refl eq_refl)
    as [_ [Hq [b [Hb Hiff]]]].
  split; [exact Hq|].
  rewrite Hb. destruct b; [|reflexivity].
  exfalso. pose proof (proj1 Hiff eq_refl) as Hpos. lia.
Defined.

(** ** The token resolver, call by call *)

Lemma resolve_rejected SHOP CLIENT_ID CLIENT_SECRET now net p (e : Js.Exn) :
  ClientCredentials.fresh now (ClientCredentials.cachedToken p) = None ->
  net (ClientCredentials.token_request SHOP CLIENT_ID CLIENT_SECRET) = Http.Rejected e ->
  ClientCredentials.getAdminAccessToken SHOP CLIENT_ID CLIENT_SECRET now net p =
  (Js.Throw e,
   ClientCredentials.mkProcess (ClientCredentials.cachedToken p)
     (ClientCredentials.token_request SHOP CLIENT_ID CLIENT_SECRET
        :: ClientCredentials.sent p)).
Proof.
  intros H Hn.
  unfold ClientCredentials.getAdminAccessToken, ClientCredentials.seq,
    ClientCredentials.read_cache, ClientCredentials.fetch.
  now rewrite H, Hn.
Qed.

Lemma fresh_inv now (cache : option ClientCredentials.CachedToken) (t : Js.JSON) :
  ClientCredentials.fresh now cache = Some t ->
  exists c, cache = Some c /\ ClientCredentials.token c = t /\
            60000 < ClientCredentials.expiresAtMs c - now.
Proof.
  destruct cache as [c|]; simpl; [|discriminate].
  destruct (Z.ltb 60000 (ClientCredentials.expiresAtMs c - now)) eqn:E;
    [|discriminate].
  intros [= <-]. exists c. split; [reflexivity|]. split; [reflexivity|].
  now apply Z.ltb_lt.
Qed.

(** What one call can do. *)
Lemma resolve_cases SHOP CLIENT_ID CLIENT_SECRET now net p :
  let request := ClientCredentials.token_request SHOP CLIENT_ID CLIENT_SECRET in
  let outcome :=
    ClientCredentials.getAdminAccessToken SHOP CLIENT_ID CLIENT_SECRET now net p in
  (exists t, ClientCredentials.fresh now (ClientCredentials.cachedToken p) = Some t /\
             outcome = (Js.Return t, p)) \/
  (ClientCredentials.fresh now (ClientCredentials.cachedToken p) = None /\
   exists e, outcome =
     (Js.Throw e,
      ClientCredentials.mkProcess (ClientCredentials.cachedToken p)
        (request :: ClientCredentials.sent p))) \/
  (ClientCredentials.fresh now (ClientCredentials.cachedToken p) = None /\
   exists resp tok,
     net request = Http.Responded resp /\
     Js.truthy (Some tok) = true /\
     outcome =
       (Js.Return tok,
        ClientCredentials.mkProcess
          (Some (ClientCredentials.mkCachedToken tok
                   (now + ClientCredentials.ttlMs
                            (Js.prop (Some (Http.parse_or_null resp)) "expires_in"))))
          (request :: ClientCredentials.sent p))).
Proof.
  intros request outcome.
  destruct (ClientCredentials.fresh now (ClientCredentials.cachedToken p))
    as [t|] eqn:Hf.
  - left. exists t. split; [reflexivity|]. now apply resolve_hit.
  - right. destruct (net request) as [resp|e] eqn:Hn.
    + destruct (Http.ok resp) eqn:Hok.
      * destruct (Js.prop (Some (Http.parse_or_null resp)) "access_token")
          as [tok|] eqn:Htok.
        -- destruct (Js.truthy (Some tok)) eqn:Ht.
           ++ right. split; [reflexivity|]. exists resp, tok.
              split; [reflexivity|]. split; [exact Ht|].
              now apply resolve_exchanged.
           ++ left. split; [reflexivity|].
              apply (resolve_no_token _ _ _ _ _ _ resp); auto.
              now rewrite Htok.
        -- left. split; [reflexivity|].
           apply (resolve_no_token _ _ _ _ _ _ resp); auto.
           now rewrite Htok.
      * left. split; [reflexivity|].
        now apply (resolve_not_ok _ _ _ _ _ _ resp).
    + left. split; [reflexivity|]. exists e. now apply resolve_rejected.
Qed.

(** X10. A call that throws, for whatever reason (a rejected [fetch], a
    refusal, a body without a usable token), leaves the cache as it
    was. *)
Theorem throwing_call_keeps_cache :
  forall (SHOP CLIENT_ID CLIENT_SECRET : string) (now : Z)
         (net : Http.Request -> Http.FetchOutcome)
         (p : ClientCredentials.Process) (e : Js.Exn),
    let outcome :=
      ClientCredentials.getAdminAccessToken SHOP CLIENT_ID CLIENT_SECRET now net p in
    fst outcome = Js.Throw e ->
    ClientCredentials.cachedToken (snd outcome) = ClientCredentials.cachedToken p.
Proof.
  intros SHOP ID SECRET now net p e outcome H.
  destruct (resolve_cases SHOP ID SECRET now net p)
    as [[t [_ Ho]]|[[_ [e' Ho]]|[_ [resp [tok [_ [_ Ho]]]]]]];
    fold outcome in Ho; rewrite Ho in *; simpl in *;
    [discriminate|reflexivity|discriminate].
Qed.

Lemma throwing_call_keeps_cache_witness :
  fst (ClientCredentials.getAdminAccessToken "x.myshopify.com" "id" "secret" 50000
         (fun _ => Http.Rejected (Js.TypeError "fetch failed")) process_with_old_token)
  = Js.Throw (Js.TypeError "fetch failed") /\
  ClientCredentials.cachedToken
    (snd (ClientCredentials.getAdminAccessToken "x.myshopify.com" "id" "secret" 50000
            (fun _ => Http.Rejected (Js.TypeError "fetch failed"))
            process_with_old_token))
  = Some (ClientCredentials.mkCachedToken (Js.JStr "old") 100000).
Proof.
  split; [reflexivity|].
  apply (throwing_call_keeps_cache "x.myshopify.com" "id" "secret" 50000
           (fun _ => Http.Rejected (Js.TypeError "fetch failed"))
           process_with_old_token (Js.TypeError "fetch failed")).
  reflexivity.
Defined.

(** X11. A token that a call returns is the one the cache holds after
    the call; and if the cache held no falsy token before, the returned
    token is truthy and so is the one the cache holds after. *)
Theorem returned_token_is_the_cached_one :
  forall (SHOP CLIENT_ID CLIENT_SECRET : string) (now : Z)
         (net : Http.Request -> Http.FetchOutcome)
         (p : ClientCredentials.Process) (t : Js.JSON),
    let outcome :=
      ClientCredentials.getAdminAccessToken SHOP CLIENT_ID CLIENT_SECRET now net p in
    fst outcome = Js.Return t ->
    (exists c,
        ClientCredentials.cachedToken (snd outcome) = Some c /\
        ClientCredentials.token c = t) /\
    ((forall c, ClientCredentials.cachedToken p = Some c ->
                Js.truthy (Some (ClientCredentials.token c)) = true) ->
     Js.truthy (Some t) = true).
Proof.
  intros SHOP ID SECRET now net p t outcome H.
  destruct (resolve_cases SHOP ID SECRET now net p)
    as [[t' [Hf Ho]]|[[_ [e' Ho]]|[_ [resp [tok [_ [Ht Ho]]]]]]];
    fold outcome in Ho; rewrite Ho in *; simpl in H.
  - injection H as ->. apply fresh_inv in Hf as [c [Hc [Htok _]]]. split.
    + exists c. simpl. split; assumption.
    + intros Hinv. rewrite <- Htok. now apply Hinv.
  - discriminate.
  - injection H as ->. split.
    + eexists. cbn [snd ClientCredentials.cachedToken].
      split; reflexivity.
    + intros _. exact Ht.
Qed.

Lemma returned_token_is_the_cached_one_witness :
  fst (ClientCredentials.getAdminAccessToken "x.myshopify.com" "id" "secret" 50000
         (fun _ => Http.Responded (token_reply "new" 30 "30")) process_with_old_token)
  = Js.Return (Js.JStr "new") /\
  exists c,
    ClientCredentials.cachedToken
      (snd (ClientCredentials.getAdminAccessToken "x.myshopify.com" "id" "secret" 50000
              (fun _ => Http.Responded (token_reply "new" 30 "30"))
              process_with_old_token)) = Some c /\
    ClientCredentials.token c = Js.JStr "new".
Proof.
  split; [reflexivity|].
  apply (returned_token_is_the_cached_one "x.myshopify.com" "id" "secret" 50000
           (fun _ => Http.Responded (token_reply "new" 30 "30"))
           process_with_old_token (Js.JStr "new")).
  reflexivity.
Defined.

(** X12. Any run of calls made while the cached token has more than
    60 s left returns that token every time and leaves the process as it
    was: no request is sent, whatever the network would have answered. *)
Theorem fresh_token_serves_every_call :
  forall (SHOP CLIENT_ID CLIENT_SECRET : string)
         (script : list (Z * (Http.Request -> Http.FetchOutcome)))
         (p : ClientCredentials.Process) (c : ClientCredentials.CachedToken),
    ClientCredentials.cachedToken p = Some c ->
    Forall (fun call => 60000 < ClientCredentials.expiresAtMs c - fst call) script ->
    ClientCredentialsRoute.calls SHOP CLIENT_ID CLIENT_SECRET script p =
    (map (fun _ => Js.Return (ClientCredentials.token c)) script, p).
Proof.
  intros SHOP ID SECRET script p c Hc Hall.
  induction Hall as [|[now net] script Hnow _ IH]; simpl; [reflexivity|].
  rewrite (resolve_hit SHOP ID SECRET now net p (ClientCredentials.token c))
    by now apply fresh_Some.
  now rewrite IH.
Qed.

Lemma fresh_token_serves_every_call_witness :
  ClientCredentialsRoute.calls "x.myshopify.com" "id" "secret"
    [ (10000, fun _ => Http.Responded (token_reply "new" 3600 "3600"));
      (20000, fun _ => Http.Rejected (Js.TypeError "fetch failed"));
      (39999, fun _ => Http.Responded refused_reply) ]
    process_with_old_token
  = ([ Js.Return (Js.JStr "old"); Js.Return (Js.JStr "old");
       Js.Return (Js.JStr "old") ],
     process_with_old_token).
Proof.
  apply (fresh_token_serves_every_call "x.myshopify.com" "id" "secret"
           [ (10000, fun _ => Http.Responded (token_reply "new" 3600 "3600"));
             (20000, fun _ => Http.Rejected (Js.TypeError "fetch failed"));
             (39999, fun _ => Http.Responded refused_reply) ]
           process_with_old_token
           (ClientCredentials.mkCachedToken (Js.JStr "old") 100000) eq_refl).
  repeat constructor.
Defined.

(** ** The handler of the client-credentials route *)

Lemma missing_nil SHOP CLIENT_ID CLIENT_SECRET UK US :
  SHOP <> "" -> CLIENT_ID <> "" -> CLIENT_SECRET <> "" -> UK <> "" -> US <> "" ->
  ClientCredentialsRoute.missing SHOP CLIENT_ID CLIENT_SECRET UK US = [].
Proof.
  intros H1 H2 H3 H4 H5. apply truthy_string_true in H1, H2, H3, H4, H5.
  unfold ClientCredentialsRoute.missing. now rewrite H1, H2, H3, H4, H5.
Qed.

Lemma missing_cons SHOP CLIENT_ID CLIENT_SECRET UK US :
  SHOP = "" \/ CLIENT_ID = "" \/ CLIENT_SECRET = "" \/ UK = "" \/ US = "" ->
  exists name rest,
    ClientCredentialsRoute.missing SHOP CLIENT_ID CLIENT_SECRET UK US = name :: rest.
Proof.
  intros H. unfold ClientCredentialsRoute.missing.
  destruct SHOP; [simpl; eauto|].
  destruct CLIENT_ID; [simpl; eauto|].
  destruct CLIENT_SECRET; [simpl; eauto|].
  destruct UK; [simpl; eauto|].
  destruct US; [simpl; eauto|].
  exfalso. destruct H as [H|[H|[H|[H|H]]]]; discriminate H.
Qed.

(** X13. When one of the five settings is empty the handler answers 500
    with [Server misconfigured] and the names of exactly the empty ones,
    before looking at the signature, and the process stays as it was: no
    request is sent. *)
Theorem misconfigured_route_answers_500 :
  forall (SHOP CLIENT_ID CLIENT_SECRET API_VERSION UK_LOCATION_ID US_LOCATION_ID : string)
         (localeCompare : string -> string -> Z) (header_text : Js.JSON -> string)
         (now : Z) (net : Http.Request -> Http.FetchOutcome)
         (params : Js.URLSearchParams) (p : ClientCredentials.Process),
    let names :=
      ClientCredentialsRoute.missing SHOP CLIENT_ID CLIENT_SECRET
        UK_LOCATION_ID US_LOCATION_ID in
    SHOP = "" \/ CLIENT_ID = "" \/ CLIENT_SECRET = "" \/
    UK_LOCATION_ID = "" \/ US_LOCATION_ID = "" ->
    ClientCredentialsRoute.loader SHOP CLIENT_ID CLIENT_SECRET API_VERSION
      UK_LOCATION_ID US_LOCATION_ID localeCompare header_text now net params p =
    (Js.Return (Http.Response_json
                  [ ("error", Http.FStr "Server misconfigured");
                    ("missing", Http.FList names) ] 500), p) /\
    (In "SHOPIFY_SHOP" names <-> SHOP = "") /\
    (In "SHOPIFY_API_KEY" names <-> CLIENT_ID = "") /\
    (In "SHOPIFY_API_SECRET" names <-> CLIENT_SECRET = "") /\
    (In "UK_LOCATION_ID" names <-> UK_LOCATION_ID = "") /\
    (In "US_LOCATION_ID" names <-> US_LOCATION_ID = "").
Proof.
  intros SHOP ID SECRET VERSION UK US cmp header_text now net params p names H.
  split.
  - unfold names, ClientCredentialsRoute.loader.
    destruct (missing_cons SHOP ID SECRET UK US H) as [name [rest Hm]].
    rewrite Hm. reflexivity.
  - unfold names, ClientCredentialsRoute.missing.
    destruct SHOP, ID, SECRET, UK, US; simpl; intuition congruence.
Qed.

Lemma misconfigured_route_answers_500_witness :
  ClientCredentialsRoute.loader "x.myshopify.com" "" "shhh" "2026-01" "111" ""
    Js.Icu.localeCompare (fun _ => "") 50000
    (fun _ => Http.Responded (token_reply "new" 3600 "3600"))
    signed_query process_with_old_token
  = (Js.Return (Http.Response_json
                  [ ("error", Http.FStr "Server misconfigured");
                    ("missing", Http.FList ["SHOPIFY_API_KEY"; "US_LOCATION_ID"]) ] 500),
     process_with_old_token).
Proof.
  apply (misconfigured_route_answers_500
           "x.myshopify.com" "" "shhh" "2026-01" "111" ""
           Js.Icu.localeCompare (fun _ => "") 50000
           (fun _ => Http.Responded (token_reply "new" 3600 "3600"))
           signed_query process_with_old_token).
  right. now left.
Defined.

(** X14. With complete settings, a query whose signature is refused gets
    401 and one whose variant is not all digits gets 400, and in both
    cases no token is exchanged: the process stays as it was. *)
Theorem refused_query_exchanges_no_token :
  forall (SHOP CLIENT_ID CLIENT_SECRET API_VERSION UK_LOCATION_ID US_LOCATION_ID : string)
         (localeCompare : string -> string -> Z) (header_text : Js.JSON -> string)
         (now : Z) (net : Http.Request -> Http.FetchOutcome)
         (params : Js.URLSearchParams) (p : ClientCredentials.Process),
    let outcome :=
      ClientCredentialsRoute.loader SHOP CLIENT_ID CLIENT_SECRET API_VERSION
        UK_LOCATION_ID US_LOCATION_ID localeCompare header_text now net params p in
    SHOP <> "" -> CLIENT_ID <> "" -> CLIENT_SECRET <> "" ->
    UK_LOCATION_ID <> "" -> US_LOCATION_ID <> "" ->
    (ClientCredentials.verifyProxySignature CLIENT_SECRET localeCompare params = false ->
     outcome =
     (Js.Return (Http.Response_json [("error", Http.FStr "Invalid signature")] 401), p)) /\
    (ClientCredentials.verifyProxySignature CLIENT_SECRET localeCompare params = true ->
     Js.all_digits (Js.or_else (Js.get params "variant") "") = false ->
     outcome =
     (Js.Return (Http.Response_json [("error", Http.FStr "Missing/invalid variant")] 400),
      p)).
Proof.
  intros SHOP ID SECRET VERSION UK US cmp header_text now net params p outcome
         H1 H2 H3 H4 H5.
  unfold outcome, ClientCredentialsRoute.loader.
  rewrite (missing_nil SHOP ID SECRET UK US H1 H2 H3 H4 H5).
  split.
  - intros Hv. now rewrite Hv.
  - intros Hv Hd. now rewrite Hv, Hd.
Qed.

Lemma refused_query_exchanges_no_token_witness :
  ClientCredentialsRoute.loader "x.myshopify.com" "id" "shhh" "2026-01" "111" "222"
    Js.Icu.localeCompare (fun _ => "") 50000
    (fun _ => Http.Responded (token_reply "new" 3600 "3600"))
    [("variant", "123"); ("signature", "00")] process_with_old_token
  = (Js.Return (Http.Response_json [("error", Http.FStr "Invalid signature")] 401),
     process_with_old_token).
Proof.
  apply (proj1 (refused_query_exchanges_no_token
           "x.myshopify.com" "id" "shhh" "2026-01" "111" "222"
           Js.Icu.localeCompare (fun _ => "") 50000
           (fun _ => Http.Responded (token_reply "new" 3600 "3600"))
           [("variant", "123"); ("signature", "00")] process_with_old_token
           ltac:(discriminate) ltac:(discriminate) ltac:(discriminate)
           ltac:(discriminate) ltac:(discriminate))).
  vm_compute. reflexivity.
Defined.

Lemma ClientCredentials_loader_passed
      SHOP ID SECRET VERSION UK US cmp header_text now net params p :
  SHOP <> "" -> ID <> "" -> SECRET <> "" -> UK <> "" -> US <> "" ->
  ClientCredentials.verifyProxySignature SECRET cmp params = true ->
  Js.all_digits (Js.or_else (Js.get params "variant") "") = true ->
  ClientCredentialsRoute.loader SHOP ID SECRET VERSION UK US cmp header_text
    now net params p =
  match ClientCredentials.getAdminAccessToken SHOP ID SECRET now net p with
  | (Js.Return token, p1) =>
      match ClientCredentialsRoute.getStockAtLocation SHOP VERSION header_text net
              token (Js.or_else (Js.get params "variant") "")
              (locationId UK US (country_of params)) p1 with
      | (Js.Return qty, p2) =>
          (Js.Return
             (Http.mkResponse 200
                [ ("Content-Type", "application/json; charset=utf-8");
                  ("Cache-Control", "public, max-age=15") ]
                [ ("variantId", Http.FNumberOf (Js.or_else (Js.get params "variant") ""));
                  ("country", Http.FStr (country_of params));
                  ("locationId", Http.FNumberOf (locationId UK US (country_of params)));
                  ("qty", Http.FNum qty);
                  ("available", Http.FBool (Z.ltb 0 qty)) ]), p2)
      | (Js.Throw err, p2) =>
          (Js.Return (Http.Response_json
                        [ ("error", Http.FStr "Inventory proxy failed");
                          ("details", Http.details err) ] 502), p2)
      end
  | (Js.Throw err, p1) =>
      (Js.Return (Http.Response_json
                    [ ("error", Http.FStr "Inventory proxy failed");
                      ("details", Http.details err) ] 502), p1)
  end.
Proof.
  intros H1 H2 H3 H4 H5 Hv Hd.
  unfold ClientCredentialsRoute.loader.
  rewrite (missing_nil SHOP ID SECRET UK US H1 H2 H3 H4 H5), Hv, Hd.
  cbn [negb].
  unfold ClientCredentialsRoute.catch, ClientCredentials.seq, ClientCredentials.ret.
  destruct (ClientCredentials.getAdminAccessToken SHOP ID SECRET now net p)
    as [[token|err] p1]; [|reflexivity].
  destruct (ClientCredentialsRoute.getStockAtLocation _ _ _ _ _ _ _ p1)
    as [[qty|err] p2]; reflexivity.
Qed.

(** X15. When the token exchange fails for a query that passed the
    checks, the handler answers 502 with [Inventory proxy failed] and the
    error of the exchange; the inventory query is not sent (the token
    request is the only one) and the cache stays as it was. *)
Theorem failed_exchange_gives_502 :
  forall (SHOP CLIENT_ID CLIENT_SECRET API_VERSION UK_LOCATION_ID US_LOCATION_ID : string)
         (localeCompare : string -> string -> Z) (header_text : Js.JSON -> string)
         (now : Z) (net : Http.Request -> Http.FetchOutcome)
         (params : Js.URLSearchParams) (p : ClientCredentials.Process) (e : Js.Exn),
    SHOP <> "" -> CLIENT_ID <> "" -> CLIENT_SECRET <> "" ->
    UK_LOCATION_ID <> "" -> US_LOCATION_ID <> "" ->
    ClientCredentials.verifyProxySignature CLIENT_SECRET localeCompare params = true ->
    Js.all_digits (Js.or_else (Js.get params "variant") "") = true ->
    fst (ClientCredentials.getAdminAccessToken SHOP CLIENT_ID CLIENT_SECRET now net p)
      = Js.Throw e ->
    ClientCredentialsRoute.loader SHOP CLIENT_ID CLIENT_SECRET API_VERSION
      UK_LOCATION_ID US_LOCATION_ID localeCompare header_text now net params p =
    (Js.Return (Http.Response_json
                  [ ("error", Http.FStr "Inventory proxy failed");
                    ("details", Http.details e) ] 502),
     ClientCredentials.mkProcess (ClientCredentials.cachedToken p)
       (ClientCredentials.token_request SHOP CLIENT_ID CLIENT_SECRET
          :: ClientCredentials.sent p)).
Proof.
  intros SHOP ID SECRET VERSION UK US cmp header_text now net params p e
         H1 H2 H3 H4 H5 Hv Hd Hthrow.
  rewrite (ClientCredentials_loader_passed _ _ _ _ _ _ _ _ _ _ _ _
             H1 H2 H3 H4 H5 Hv Hd).
  destruct (resolve_cases SHOP ID SECRET now net p)
    as [[t [_ Ho]]|[[_ [e' Ho]]|[_ [resp [tok [_ [_ Ho]]]]]]];
    rewrite Ho in *; simpl in Hthrow; try discriminate.
  injection Hthrow as ->. reflexivity.
Qed.

Lemma failed_exchange_gives_502_witness :
  ClientCredentialsRoute.loader "x.myshopify.com" "id" "shhh" "2026-01" "111" "222"
    Js.Icu.localeCompare (fun _ => "") 50000
    (fun _ => Http.Rejected (Js.TypeError "fetch failed"))
    signed_query process_with_old_token
  = (Js.Return (Http.Response_json
                  [ ("error", Http.FStr "Inventory proxy failed");
                    ("details", Http.FStr "fetch failed") ] 502),
     ClientCredentials.mkProcess
       (Some (ClientCredentials.mkCachedToken (Js.JStr "old") 100000))
       [ClientCredentials.token_request "x.myshopify.com" "id" "shhh"]).
Proof.
  apply (failed_exchange_gives_502
           "x.myshopify.com" "id" "shhh" "2026-01" "111" "222"
           Js.Icu.localeCompare (fun _ => "") 50000
           (fun _ => Http.Rejected (Js.TypeError "fetch failed"))
           signed_query process_with_old_token (Js.TypeError "fetch failed")
           ltac:(discriminate) ltac:(discriminate) ltac:(discriminate)
           ltac:(discriminate) ltac:(discriminate)).
  - vm_compute. reflexivity.
  - reflexivity.
  - reflexivity.
Defined.

Lemma getStock_sends SHOP VERSION header_text net token variantId location p :
  ClientCredentials.sent
    (snd (ClientCredentialsRoute.getStockAtLocation SHOP VERSION header_text net
            token variantId location p))
  = Http.inventory_request SHOP VERSION (header_text token) variantId location
      :: ClientCredentials.sent p.
Proof.
  unfold ClientCredentialsRoute.getStockAtLocation, ClientCredentials.seq,
    ClientCredentials.fetch, ClientCredentials.ret, ClientCredentials.throw.
  destruct (net _) as [resp|e]; [|reflexivity].
  cbv beta iota zeta.
  destruct (negb (Http.ok resp)
            || Js.truthy (Js.prop (Some (Http.parse_or_null resp)) "errors"))%bool;
    reflexivity.
Qed.

Lemma resolve_sends SHOP ID SECRET now net p :
  exists extra,
    ClientCredentials.sent
      (snd (ClientCredentials.getAdminAccessToken SHOP ID SECRET now net p))
    = (extra ++ ClientCredentials.sent p)%list /\ (List.length extra <= 1)%nat.
Proof.
  destruct (resolve_cases SHOP ID SECRET now net p)
    as [[t [_ Ho]]|[[_ [e' Ho]]|[_ [resp [tok [_ [_ Ho]]]]]]]; rewrite Ho.
  - exists []. split; [reflexivity|simpl; lia].
  - eexists [_]. split; [reflexivity|simpl; lia].
  - eexists [_]. split; [reflexivity|simpl; lia].
Qed.

(** X16. The handler of the client-credentials route never throws: it
    always returns a response, with status 200, 400, 401, 500 or 502, and
    sends at most two requests on the way. *)
Theorem client_credentials_handler_always_answers :
  forall (SHOP CLIENT_ID CLIENT_SECRET API_VERSION UK_LOCATION_ID US_LOCATION_ID : string)
         (localeCompare : string -> string -> Z) (header_text : Js.JSON -> string)
         (now : Z) (net : Http.Request -> Http.FetchOutcome)
         (params : Js.URLSearchParams) (p : ClientCredentials.Process),
    let outcome :=
      ClientCredentialsRoute.loader SHOP CLIENT_ID CLIENT_SECRET API_VERSION
        UK_LOCATION_ID US_LOCATION_ID localeCompare header_text now net params p in
    exists response extra,
      fst outcome = Js.Return response /\
      In (Http.res_status response) [200; 400; 401; 500; 502] /\
      ClientCredentials.sent (snd outcome) = (extra ++ ClientCredentials.sent p)%list /\
      (List.length extra <= 2)%nat.
Proof.
  intros SHOP ID SECRET VERSION UK US cmp header_text now net params p outcome.
  assert (Hcfg : (SHOP = "" \/ ID = "" \/ SECRET = "" \/ UK = "" \/ US = "") \/
                 (SHOP <> "" /\ ID <> "" /\ SECRET <> "" /\ UK <> "" /\ US <> "")).
  { destruct SHOP; [now left; left|].
    destruct ID; [now left; right; left|].
    destruct SECRET; [now left; right; right; left|].
    destruct UK; [now left; right; right; right; left|].
    destruct US; [now left; right; right; right; right|].
    right. repeat split; discriminate. }
  destruct Hcfg as [Hbad|[H1 [H2 [H3 [H4 H5]]]]].
  - destruct (misconfigured_route_answers_500 SHOP ID SECRET VERSION UK US cmp
                header_text now net params p Hbad) as [Ho _].
    unfold outcome. rewrite Ho. eexists. exists [].
    repeat split; simpl; auto; lia.
  - destruct (refused_query_exchanges_no_token SHOP ID SECRET VERSION UK US cmp
                header_text now net params p H1 H2 H3 H4 H5) as [H401 H400].
    destruct (ClientCredentials.verifyProxySignature SECRET cmp params) eqn:Hv.
    + destruct (Js.all_digits (Js.or_else (Js.get params "variant") "")) eqn:Hd.
      * unfold outcome.
        rewrite (ClientCredentials_loader_passed _ _ _ _ _ _ _ _ _ _ _ _
                   H1 H2 H3 H4 H5 Hv Hd).
        destruct (resolve_sends SHOP ID SECRET now net p) as [extra [Hextra Hlen]].
        destruct (ClientCredentials.getAdminAccessToken SHOP ID SECRET now net p)
          as [[token|err] p1]; simpl in Hextra.
        -- pose proof (getStock_sends SHOP VERSION header_text net token
                         (Js.or_else (Js.get params "variant") "")
                         (locationId UK US (country_of params)) p1) as Hs.
           destruct (ClientCredentialsRoute.getStockAtLocation _ _ _ _ _ _ _ p1)
             as [[qty|err] p2]; simpl in Hs; eexists; eexists (_ :: extra);
             (split; [reflexivity|]); (split; [simpl; auto 6|]);
             (split; [simpl; rewrite Hs, Hextra; reflexivity|simpl; lia]).
        -- eexists. exists extra.
           split; [reflexivity|]. split; [simpl; auto 6|].
           split; [exact Hextra|lia].
      * unfold outcome. rewrite (H400 eq_refl eq_refl). eexists. exists [].
        repeat split; simpl; auto; lia.
    + unfold outcome. rewrite (H401 eq_refl). eexists. exists [].
      repeat split; simpl; auto; lia.
Qed.

(** ** The routes with stored sessions *)

(** X17. In the route of [part_001] the session lookup is awaited
    outside the [try]: when the storage throws for a query that passed the
    checks, the handler throws the same error instead of answering. *)
Theorem storage_error_leaves_the_handler :
  forall (PROXY_SECRET API_VERSION UK_LOCATION_ID US_LOCATION_ID : string)
         (localeCompare : string -> string -> Z)
         (fetch : Http.Request -> Http.FetchOutcome)
         (findSessionsByShop : string -> Js.result (list OfflineSession.Session))
         (params : Js.URLSearchParams) (e : Js.Exn),
    OfflineSession.verifyProxySignature PROXY_SECRET localeCompare params = true ->
    Js.trim (Js.or_else (Js.get params "shop") "") <> "" ->
    Js.all_digits (Js.or_else (Js.get params "variant") "") = true ->
    findSessionsByShop (Js.trim (Js.or_else (Js.get params "shop") "")) = Js.Throw e ->
    OfflineSession.loader PROXY_SECRET API_VERSION UK_LOCATION_ID US_LOCATION_ID
      localeCompare fetch findSessionsByShop params = Js.Throw e.
Proof.
  intros SECRET VERSION UK US cmp fetch storage params e Hv Hshop Hd Hthrow.
  unfold OfflineSession.loader.
  apply truthy_string_true in Hshop. rewrite Hv, Hshop, Hd. cbn [negb].
  unfold OfflineSession.getOfflineAccessTokenForShop. rewrite Hthrow. reflexivity.
Qed.

Lemma storage_error_leaves_the_handler_witness :
  OfflineSession.loader "shhh" "2026-01" "111" "222" Js.Icu.localeCompare
    (fun _ => Http.Responded null_stock_reply)
    (fun _ => Js.Throw (Js.TypeError "connection refused"))
    signed_shop_query
  = Js.Throw (Js.TypeError "connection refused").
Proof.
  apply (storage_error_leaves_the_handler "shhh" "2026-01" "111" "222"
           Js.Icu.localeCompare (fun _ => Http.Responded null_stock_reply)
           (fun _ => Js.Throw (Js.TypeError "connection refused"))
           signed_shop_query (Js.TypeError "connection refused")).
  - vm_compute. reflexivity.
  - vm_compute. discriminate.
  - reflexivity.
  - reflexivity.
Defined.

(** X18. In both routes with stored sessions a signed query whose [shop]
    is absent, empty or white space only gets 400 with [Missing shop],
    whatever its variant, and neither the storage nor the network is
    asked. *)
Theorem blank_shop_is_missing :
  forall (PROXY_SECRET API_VERSION UK_LOCATION_ID US_LOCATION_ID : string)
         (localeCompare : string -> string -> Z)
         (params : Js.URLSearchParams),
    OfflineSession.verifyProxySignature PROXY_SECRET localeCompare params = true ->
    Js.trim (Js.or_else (Js.get params "shop") "") = "" ->
    (forall fetch findSessionsByShop,
        OfflineSession.loader PROXY_SECRET API_VERSION UK_LOCATION_ID US_LOCATION_ID
          localeCompare fetch findSessionsByShop params
        = Js.Return (Http.Response_json [("error", Http.FStr "Missing shop")] 400)) /\
    (forall fetch getOfflineId loadSession,
        OfflineSessionById.loader PROXY_SECRET API_VERSION UK_LOCATION_ID US_LOCATION_ID
          localeCompare fetch getOfflineId loadSession params
        = Http.Response_json [("error", Http.FStr "Missing shop")] 400).
Proof.
  intros SECRET VERSION UK US cmp params Hv Hshop. split.
  - intros fetch storage. unfold OfflineSession.loader. now rewrite Hv, Hshop.
  - intros fetch helper load. unfold OfflineSessionById.loader.
    change (OfflineSessionById.verifyProxySignature SECRET cmp params)
      with (OfflineSession.verifyProxySignature SECRET cmp params).
    now rewrite Hv, Hshop.
Qed.

Lemma blank_shop_is_missing_witness :
  Js.trim (Js.or_else (Js.get blank_shop_query "shop") "") = "" /\
  OfflineSession.loader "shhh" "2026-01" "111" "222" Js.Icu.localeCompare
    (fun _ => Http.Responded null_stock_reply) only_online_sessions blank_shop_query
  = Js.Return (Http.Response_json [("error", Http.FStr "Missing shop")] 400).
Proof.
  assert (Hshop : Js.trim (Js.or_else (Js.get blank_shop_query "shop") "") = "")
    by reflexivity.
  assert (Hv : OfflineSession.verifyProxySignature "shhh" Js.Icu.localeCompare
                 blank_shop_query = true) by (vm_compute; reflexivity).
  split; [exact Hshop|].
  apply (proj1 (blank_shop_is_missing "shhh" "2026-01" "111" "222"
                  Js.Icu.localeCompare blank_shop_query Hv Hshop)).
Defined.

Lemma token_of_usable (s : OfflineSession.Session) (t : string) :
  OfflineSession.accessToken s = Some t -> t <> "" ->
  OfflineSessionById.token_of (Some s) = Some t.
Proof.
  intros H Hne. unfold OfflineSessionById.token_of. rewrite H.
  apply truthy_string_true in Hne. now rewrite Hne.
Qed.

Lemma no_token_caught (r : Js.result (option OfflineSession.Session)) :
  yields_no_token r ->
  Js.try_catch
    (Js.bind r (fun session => Js.Return (OfflineSessionById.token_of session))) None
  = None.
Proof.
  intros [[e ->]|[->|[s [-> [H|H]]]]]; simpl; try reflexivity; now rewrite H.
Qed.

(** X19. The lookup of [part_003] never throws.  A token found through
    the helper's id is returned.  When the helper is missing or throws, or
    its id leads to no usable token, the session stored under
    [offline_<shop>] decides: its token is returned if it has a non-empty
    one, and nothing otherwise. *)
Theorem offline_token_falls_back_to_common_id :
  forall (getOfflineId : option (string -> Js.result string))
         (loadSession : string -> Js.result (option OfflineSession.Session))
         (shop : string),
    let found := OfflineSessionById.loadOfflineAccessToken getOfflineId loadSession shop in
    let helper_fails :=
      getOfflineId = None \/
      (exists helper e, getOfflineId = Some helper /\ helper shop = Js.Throw e) \/
      (exists helper id, getOfflineId = Some helper /\ helper shop = Js.Return id /\
                         yields_no_token (loadSession id)) in
    (forall helper id s t,
        getOfflineId = Some helper -> helper shop = Js.Return id ->
        loadSession id = Js.Return (Some s) ->
        OfflineSession.accessToken s = Some t -> t <> "" ->
        found = Some t) /\
    (forall s t,
        helper_fails ->
        loadSession ("offline_" ++ shop) = Js.Return (Some s) ->
        OfflineSession.accessToken s = Some t -> t <> "" ->
        found = Some t) /\
    (helper_fails ->
     yields_no_token (loadSession ("offline_" ++ shop)) ->
     found = None).
Proof.
  intros helper load shop found helper_fails.
  assert (Hfail : helper_fails ->
            Js.try_catch (OfflineSessionById.by_helper helper load shop) None = None).
  { unfold OfflineSessionById.by_helper.
    intros [->|[[h [e [-> He]]]|[h [id [-> [Hid Hno]]]]]].
    - reflexivity.
    - now rewrite He.
    - rewrite Hid. cbn [Js.bind]. now apply no_token_caught. }
  unfold found, OfflineSessionById.loadOfflineAccessToken. repeat apply conj.
  - intros h id s t -> Hid Hs Ht Hne.
    unfold OfflineSessionById.by_helper. rewrite Hid. cbn [Js.bind].
    rewrite Hs. cbn [Js.bind Js.try_catch].
    now rewrite (token_of_usable s t Ht Hne).
  - intros s t Hf Hs Ht Hne. rewrite (Hfail Hf).
    unfold OfflineSessionById.by_common_id. rewrite Hs.
    cbn [Js.bind Js.try_catch]. now rewrite (token_of_usable s t Ht Hne).
  - intros Hf Hno. rewrite (Hfail Hf).
    unfold OfflineSessionById.by_common_id. now rewrite (no_token_caught _ Hno).
Qed.

Lemma offline_token_falls_back_to_common_id_witness :
  OfflineSessionById.loadOfflineAccessToken
    (Some (fun _ => Js.Throw (Js.TypeError "no such helper")))
    (one_offline_session "x.myshopify.com") "x.myshopify.com"
  = Some "shpat_x" /\
  OfflineSessionById.loadOfflineAccessToken None (fun _ => Js.Return None)
    "x.myshopify.com"
  = None.
Proof.
  split.
  - apply (proj1 (proj2 (offline_token_falls_back_to_common_id
             (Some (fun _ => Js.Throw (Js.TypeError "no such helper")))
             (one_offline_session "x.myshopify.com") "x.myshopify.com"))
           (OfflineSession.mkSession "offline_x.myshopify.com" "x.myshopify.com"
              false (Some "shpat_x")) "shpat_x").
    + right. left. eexists. eexists. split; reflexivity.
    + reflexivity.
    + reflexivity.
    + discriminate.
  - apply (proj2 (proj2 (offline_token_falls_back_to_common_id
             None (fun _ => Js.Return None) "x.myshopify.com"))).
    + now left.
    + right. now left.
Defined.

(** X20. In the route of [part_003], a query that passed the checks gets
    500 with [Missing location env vars] when the location id chosen for
    its country is empty, before any session is looked up; and when no
    token is found it gets 401 with the error and the shop but without a
    hint. *)
Theorem session_route_answers_without_token :
  forall (PROXY_SECRET API_VERSION UK_LOCATION_ID US_LOCATION_ID : string)
         (localeCompare : string -> string -> Z)
         (fetch : Http.Request -> Http.FetchOutcome)
         (getOfflineId : option (string -> Js.result string))
         (loadSession : string -> Js.result (option OfflineSession.Session))
         (params : Js.URLSearchParams),
    let shop := Js.trim (Js.or_else (Js.get params "shop") "") in
    let chosen := locationId UK_LOCATION_ID US_LOCATION_ID (country_of params) in
    let response :=
      OfflineSessionById.loader PROXY_SECRET API_VERSION UK_LOCATION_ID US_LOCATION_ID
        localeCompare fetch getOfflineId loadSession params in
    OfflineSessionById.verifyProxySignature PROXY_SECRET localeCompare params = true ->
    shop <> "" ->
    Js.all_digits (Js.or_else (Js.get params "variant") "") = true ->
    (chosen = "" ->
     response =
     Http.Response_json [("error", Http.FStr "Missing location env vars")] 500) /\
    (chosen <> "" ->
     OfflineSessionById.loadOfflineAccessToken getOfflineId loadSession shop = None ->
     response =
     Http.Response_json [ ("error", Http.FStr "No offline session token found for shop");
                          ("shop", Http.FStr shop) ] 401 /\
     Http.field "hint" (Http.res_body response) = None).
Proof.
  intros SECRET VERSION UK US cmp fetch helper load params shop chosen response
         Hv Hshop Hd.
  apply truthy_string_true in Hshop.
  unfold response, OfflineSessionById.loader.
  fold shop chosen. rewrite Hv, Hshop, Hd. cbn [negb]. split.
  - intros ->. reflexivity.
  - intros Hc Hnone. apply truthy_string_true in Hc. rewrite Hc, Hnone.
    split; reflexivity.
Qed.

Lemma session_route_answers_without_token_witness :
  OfflineSessionById.loader "shhh" "2026-01" "" "222" Js.Icu.localeCompare
    (fun _ => Http.Responded null_stock_reply) None (fun _ => Js.Return None)
    signed_shop_query
  = Http.Response_json [("error", Http.FStr "Missing location env vars")] 500 /\
  OfflineSessionById.loader "shhh" "2026-01" "111" "222" Js.Icu.localeCompare
    (fun _ => Http.Responded null_stock_reply) None (fun _ => Js.Return None)
    signed_shop_query
  = Http.Response_json
      [ ("error", Http.FStr "No offline session token found for shop");
        ("shop", Http.FStr "x.myshopify.com") ] 401.
Proof.
  assert (Hv : OfflineSessionById.verifyProxySignature "shhh" Js.Icu.localeCompare
                 signed_shop_query = true) by (vm_compute; reflexivity).
  assert (Hshop : Js.trim (Js.or_else (Js.get signed_shop_query "shop") "") <> "")
    by (vm_compute; discriminate).
  split.
  - apply (proj1 (session_route_answers_without_token
             "shhh" "2026-01" "" "222" Js.Icu.localeCompare
             (fun _ => Http.Responded null_stock_reply) None (fun _ => Js.Return None)
             signed_shop_query Hv Hshop eq_refl)).
    reflexivity.
  - destruct (proj2 (session_route_answers_without_token
             "shhh" "2026-01" "111" "222" Js.Icu.localeCompare
             (fun _ => Http.Responded null_stock_reply) None (fun _ => Js.Return None)
             signed_shop_query Hv Hshop eq_refl)
             ltac:(vm_compute; discriminate) eq_refl) as [H _].
    exact H.
Defined.

(** ** The handler of [part_000] *)

Lemma unset_iff (env : string -> option string) (name : string) :
  EnvCheck.unset env name = true <-> env name = None \/ env name = Some "".
Proof.
  unfold EnvCheck.unset, Js.or_else.
  destruct (env name) as [[|c v]|]; simpl; split; intros H; auto;
    try discriminate; destruct H as [H|H]; discriminate.
Qed.

(** X21. The handler of [part_000] answers 500 with [Missing env vars]
    and the names of exactly the unset or empty variables among the five
    it checks; when all five are set it ends without returning a
    response.  It never verifies a signature and never asks for stock. *)
Theorem env_check_answers_500_or_nothing :
  forall env : string -> option string,
    (forall name, In name (EnvCheck.missing env) <->
                  In name checked_names /\ (env name = None \/ env name = Some "")) /\
    ((forall name, In name checked_names -> exists v, env name = Some v /\ v <> "") ->
     EnvCheck.loader env = None) /\
    ((exists name, In name checked_names /\ (env name = None \/ env name = Some "")) ->
     EnvCheck.loader env =
     Some (Http.Response_json
             [ ("error", Http.FStr "Missing env vars");
               ("missing", Http.FList (EnvCheck.missing env)) ] 500)).
Proof.
  intros env.
  assert (Hin : forall name, In name (EnvCheck.missing env) <->
                  In name checked_names /\ (env name = None \/ env name = Some "")).
  { intros name. unfold EnvCheck.missing. fold checked_names.
    rewrite filter_In, unset_iff. reflexivity. }
  split; [exact Hin|]. split.
  - intros Hall. unfold EnvCheck.loader.
    destruct (EnvCheck.missing env) as [|name rest] eqn:E; [reflexivity|].
    exfalso.
    assert (Hn : In name (name :: rest)) by now left.
    apply Hin in Hn as [Hc Hbad].
    destruct (Hall name Hc) as [v [Hv Hne]].
    destruct Hbad as [H|H]; rewrite Hv in H; [discriminate|].
    injection H as ->. now apply Hne.
  - intros [name Hname]. apply Hin in Hname. unfold EnvCheck.loader.
    destruct (EnvCheck.missing env) as [|n rest]; [destruct Hname|reflexivity].
Qed.

Lemma env_check_answers_500_or_nothing_witness :
  EnvCheck.loader (fun _ => Some "set") = None /\
  EnvCheck.loader env_without_locations =
  Some (Http.Response_json
          [ ("error", Http.FStr "Missing env vars");
            ("missing", Http.FList ["UK_LOCATION_ID"; "US_LOCATION_ID"]) ] 500).
Proof.
  split.
  - apply (proj1 (proj2 (env_check_answers_500_or_nothing (fun _ => Some "set")))).
    intros name _. exists "set". split; [reflexivity|discriminate].
  - apply (proj2 (proj2 (env_check_answers_500_or_nothing env_without_locations))).
    exists "UK_LOCATION_ID". split; [simpl; auto 6|now left].
Defined.

(** ** The inventory answer in the first route of [part_002] *)

(** X22. The first route of [part_002] reads the body with
    [resp.json()] and [data.errors]: for a query that passed the checks,
    an answer whose body is not JSON, or is the JSON [null], gives 502
    whatever its status, where the route of [route.ts] takes such a body
    with a status in 200..299 as a quantity of 0. *)
Theorem unreadable_body_gives_502_in_bare_route :
  forall (SHOP ADMIN_TOKEN : string) (PROXY_SECRET : option string)
         (API_VERSION UK_LOCATION_ID US_LOCATION_ID : string)
         (localeCompare : string -> string -> Z)
         (fetch : Http.Request -> Http.FetchOutcome) (json_error : string -> string)
         (params : Js.URLSearchParams) (resp : Http.Reply),
    let variantId := Js.or_else (Js.get params "variant") "" in
    let chosen := locationId UK_LOCATION_ID US_LOCATION_ID (country_of params) in
    StaticTokenBare.verifyProxySignature PROXY_SECRET localeCompare params
      = Js.Return true ->
    Js.all_digits variantId = true ->
    fetch (Http.inventory_request SHOP API_VERSION ADMIN_TOKEN variantId chosen)
      = Http.Responded resp ->
    Http.parsed resp = None \/ Http.parsed resp = Some Js.JNull ->
    (exists response,
        StaticTokenBareRoute.loader SHOP ADMIN_TOKEN PROXY_SECRET API_VERSION
          UK_LOCATION_ID US_LOCATION_ID localeCompare fetch json_error params
        = StaticTokenBareRoute.Done response /\
        Http.res_status response = 502 /\
        Http.field "error" (Http.res_body response)
        = Some (Http.FStr "Admin API error")) /\
    (Http.ok resp = true ->
     StaticToken.getStockAtLocation SHOP ADMIN_TOKEN API_VERSION fetch variantId chosen
     = Js.Return 0).
Proof.
  intros SHOP TOKEN SECRET VERSION UK US cmp fetch json_error params resp
         variantId chosen Hv Hd Hf Hbody.
  split.
  - unfold StaticTokenBareRoute.loader. fold variantId chosen.
    rewrite Hv, Hd. cbn [negb].
    unfold StaticTokenBareRoute.getStockAtLocation. rewrite Hf.
    destruct Hbody as [-> | ->].
    + eexists. repeat split; reflexivity.
    + destruct (Http.ok resp); eexists; repeat split; reflexivity.
  - intros Hok. unfold StaticToken.getStockAtLocation. rewrite Hf.
    unfold Http.parse_or_null. cbv beta iota zeta. rewrite Hok.
    destruct Hbody as [-> | ->]; reflexivity.
Qed.

Lemma unreadable_body_gives_502_in_bare_route_witness :
  Http.ok null_body_reply = true /\
  (exists response,
      StaticTokenBareRoute.loader "x.myshopify.com" "shpat_1" (Some "shhh") "2026-01"
        "111" "222" Js.Icu.localeCompare (fun _ => Http.Responded null_body_reply)
        (fun _ => "Unexpected token") signed_query
      = StaticTokenBareRoute.Done response /\
      Http.res_status response = 502 /\
      Http.field "error" (Http.res_body response)
      = Some (Http.FStr "Admin API error")) /\
  Http.res_status
    (StaticToken.loader "x.myshopify.com" "shpat_1" "shhh" "2026-01" "111" "222"
       Js.Icu.localeCompare (fun _ => Http.Responded null_body_reply) signed_query)
  = 200.
Proof.
  assert (Hv : StaticTokenBare.verifyProxySignature (Some "shhh") Js.Icu.localeCompare
                 signed_query = Js.Return true) by (vm_compute; reflexivity).
  split; [reflexivity|]. split.
  - apply (proj1 (unreadable_body_gives_502_in_bare_route
             "x.myshopify.com" "shpat_1" (Some "shhh") "2026-01" "111" "222"
             Js.Icu.localeCompare (fun _ => Http.Responded null_body_reply)
             (fun _ => "Unexpected token") signed_query null_body_reply
             Hv eq_refl eq_refl (or_intror eq_refl))).
  - vm_compute. reflexivity.
Defined.
